(** * Tower Game asset pipeline: the Blender batch exporter and model validator

    A shallow embedding of [blender/scripts/batch_export.py],
    [blender/scripts/validate_models.py] and the "Validate Asset" operator of
    [blender/scripts/tower_addon.py].

    - Python [int] is [Z]; [len] is [Z.of_nat (length _)].
    - Python [float] is IEEE binary64, i.e. the kernel's primitive [float].
    - Python [str] is [string], read as the UTF-8 bytes of the text: the
      substring test, [startswith], concatenation and the search for the dot
      of a suffix are those of the bytes. [str.lower], which is Unicode-aware,
      is left to the host ([str_lower]); on ASCII text it is the A-Z to a-z
      map.
    - [pathlib.Path] is the list of the components below the root.
    - [bpy] and the file system are an interface ([Host]) over an abstract
      world; the scripts run in a state-and-exception monad that also keeps the
      trace of the calls made to that interface. *)

From Stdlib Require Import ZArith String Ascii List Bool Lia DecimalString DecimalPos.
From Stdlib Require Import PrimFloat SpecFloat FloatOps FloatAxioms.
From stdpp Require Import gmap.
Import ListNotations.

#[local] Set Warnings "-inexact-float".
Local Open Scope string_scope.
Local Open Scope Z_scope.

(** ** Python strings *)

Module Py.

(** [str(n)] for an [int]. *)
Definition str_int (n : Z) : string := NilEmpty.string_of_int (Z.to_int n).

Definition lower_char (c : ascii) : ascii :=
  let n := nat_of_ascii c in
  if (Nat.leb 65 n && Nat.leb n 90)%bool then ascii_of_nat (n + 32) else c.

(** [s.lower()] for a [str] of ASCII characters: the A-Z to a-z map. *)
Fixpoint lower_ascii (s : string) : string :=
  match s with
  | EmptyString => EmptyString
  | String c s' => String (lower_char c) (lower_ascii s')
  end.

(** [s.isascii()] *)
Fixpoint isascii (s : string) : bool :=
  match s with
  | EmptyString => true
  | String c s' => Nat.ltb (nat_of_ascii c) 128 && isascii s'
  end.

(** [s.startswith(p)] *)
Definition startswith (s p : string) : bool := String.prefix p s.

(** [k in s] on strings: [k] occurs in [s] at some position. *)
Fixpoint contains (k s : string) : bool :=
  String.prefix k s ||
  match s with
  | EmptyString => false
  | String _ s' => contains k s'
  end.

(** [s.rfind(".")] counted from position [i]; [None] is Python's [-1]. *)
Fixpoint rfind_dot (s : string) (i : nat) : option nat :=
  match s with
  | EmptyString => None
  | String c s' =>
      match rfind_dot s' (S i) with
      | Some j => Some j
      | None => if Ascii.eqb c "." then Some i else None
      end
  end.

(** [sep * n] *)
Fixpoint repeat_str (sep : string) (n : nat) : string :=
  match n with
  | O => EmptyString
  | S n' => sep ++ repeat_str sep n'
  end.

(** [len(xs)] *)
Definition len {A} (xs : list A) : Z := Z.of_nat (List.length xs).

(** [enumerate(xs)] *)
Definition enumerate {A} (xs : list A) : list (nat * A) :=
  List.combine (List.seq 0 (List.length xs)) xs.

(** The newline character. *)
Definition nl : string := String (ascii_of_nat 10) EmptyString.

End Py.

(** ** pathlib *)

Definition Path := list string.

Module PurePath.

(** [p.name]: the final component, [''] at the root. *)
Definition name (p : Path) : string := List.last p EmptyString.

(** [p.parent] *)
Definition parent (p : Path) : Path := List.removelast p.

(** [p.stem]: the name without its last suffix; a leading or a trailing
    dot does not start a suffix. *)
Definition stem (p : Path) : string :=
  let n := name p in
  match Py.rfind_dot n 0 with
  | Some i =>
      if (Nat.ltb 0 i && Nat.ltb i (String.length n - 1))%bool
      then String.substring 0 i n else n
  | None => n
  end.

(** [p / c] *)
Definition join (p : Path) (c : string) : Path := (p ++ [c])%list.

(** [str(p)] *)
Definition str (p : Path) : string :=
  match p with
  | [] => "/"
  | _ => String.concat "" (List.map (fun c => "/" ++ c) p)
  end.

End PurePath.

Notation "p // c" := (PurePath.join p c) (at level 40, left associativity).

(** ** batch_export.py: asset categories *)

(** The dict literal, in insertion order (the order [.items()] iterates in). *)
Definition ASSET_CATEGORIES : list (string * string) :=
  [ ("characters", "Characters");
    ("weapons", "Weapons");
    ("armor", "Armor");
    ("monsters", "Monsters");
    ("environment", "Environment");
    ("props", "Props");
    ("vfx", "VFX");
    ("ui", "UI") ].

(** The [for key, category in ...: if ...: return category] loop, falling
    through to [return "Misc"]. *)
Fixpoint get_category_loop (items : list (string * string))
    (name_lower parent_lower : string) : string :=
  match items with
  | [] => "Misc"
  | (key, category) :: rest =>
      if Py.contains key name_lower || Py.contains key parent_lower
      then category
      else get_category_loop rest name_lower parent_lower
  end.

(** ** Python floats *)

Module PyFloat.

(** [num / 2^k] rounded to the nearest integer, ties to even. *)
Definition round_half_even (num k : Z) : Z :=
  if k <=? 0 then Z.shiftl num (- k)
  else
    let q := Z.shiftr num k in
    let r := num - Z.shiftl q k in
    let half := Z.shiftl 1 (k - 1) in
    if r <? half then q
    else if half <? r then q + 1
    else if Z.even q then q else q + 1.

Definition pad3 (n : Z) : string :=
  let s := Py.str_int n in
  Py.repeat_str "0" (3 - String.length s) ++ s.

Definition sign_str (s : bool) : string := if s then "-" else "".

(** [f"{x:.3f}"]: the exact binary value, correctly rounded to three
    decimals. *)
Definition format_3f (x : float) : string :=
  match Prim2SF x with
  | S754_nan => "nan"
  | S754_infinity s => sign_str s ++ "inf"
  | S754_zero s => sign_str s ++ "0.000"
  | S754_finite s m e =>
      let q := round_half_even (Z.pos m * 1000) (- e) in
      sign_str s ++ Py.str_int (q / 1000) ++ "." ++ pad3 (q mod 1000)
  end.

(** [a > b] *)
Definition gt (a b : float) : bool := PrimFloat.ltb b a.

End PyFloat.

(** ** The scene graph exposed by [bpy.data] *)

Module bpy.

(** [mathutils.Vector] and [Euler] of three components. *)
Record Vector := { x : float; y : float; z : float }.

Definition components (v : Vector) : list float := [x v; y v; z v].

Record MeshPolygon := { poly_vertices : list nat }.
Record MeshEdge := { edge_vertices : nat * nat }.

Record Mesh := {
  vertices : list Vector;
  polygons : list MeshPolygon;
  edges : list MeshEdge;
  uv_layers : list string;
  has_custom_normals : bool
}.

(** [parent] is the index of the parent bone, [None] for a root. *)
Record Bone := { bone_name : string; parent : option nat }.
Record Armature := { bones : list Bone }.

(** [obj.type] together with the [obj.data] it selects. *)
Inductive ObjectData :=
| MESH (mesh : Mesh)
| ARMATURE (armature : Armature)
| OTHER (type : string).

Record Object := {
  name : string;
  scale : Vector;
  rotation_euler : Vector;
  data : ObjectData
}.

Record Material := { mat_name : string; use_nodes : bool }.

Record BlendData := { objects : list Object; materials : list Material }.

End bpy.

(** ** The host: Blender and the file system *)

(** The record [main] of [batch_export.py] dumps as JSON. *)
Record ExportReport := {
  timestamp : string;
  total_files : Z;
  exported : Z;
  failed : Z;
  skipped : Z;
  files : list string
}.

(** A Python [Exception], by its message. *)
Definition exn := string.

Inductive outcome (A : Type) :=
| Ok (a : A)
| Raise (e : exn).
Arguments Ok {A} a.
Arguments Raise {A} e.

(** What [p.stat()] comes to. *)
Inductive stat_result :=
| Mtime (st_mtime : float)
  (** it returns, with this [st_mtime] *)
| Missing (e : exn)
  (** it raises [e], an error to which [p.exists()] answers [False], as the
      [FileNotFoundError] of a path with nothing at it *)
| Failing (e : exn).
  (** it raises [e], any other error, such as a [PermissionError]:
      [p.exists()] lets it through *)

(** What the scripts ask of their environment. [W] is the state of the
    world: the file system and the scene Blender currently holds. *)
Class Host (W : Type) := {
  (** [s.lower()], the interpreter's *)
  str_lower : string -> string;
  (** on a [str] of ASCII characters it is the A-Z to a-z map *)
  str_lower_ascii : forall s, Py.isascii s = true -> str_lower s = Py.lower_ascii s;
  (** [Path(os.path.dirname(os.path.abspath(__file__)))] *)
  SCRIPT_DIR : Path;
  (** [datetime.now().isoformat()] *)
  clock_isoformat : W -> string;
  (** [root.rglob("*.blend")] *)
  fs_rglob_blend : W -> Path -> list Path;
  (** [p.stat()] *)
  fs_stat : W -> Path -> stat_result;
  (** [p.mkdir(parents=True, exist_ok=True)] *)
  fs_mkdir : Path -> W -> outcome unit * W;
  (** [with open(p, "w") as f: json.dump(report, f, indent=2)] *)
  fs_dump_json : Path -> ExportReport -> W -> outcome unit * W;
  (** [bpy.ops.wm.read_homefile(use_empty=True)] *)
  bpy_read_homefile : W -> outcome unit * W;
  (** [bpy.ops.wm.open_mainfile(filepath=...)] *)
  bpy_open_mainfile : string -> W -> outcome unit * W;
  (** [bpy.ops.export_scene.fbx(filepath=..., **settings)]; the keyword
      arguments are the constants of [UE5_EXPORT_SETTINGS] *)
  bpy_export_scene_fbx : string -> W -> outcome unit * W;
  (** [bpy.data] *)
  bpy_data : W -> bpy.BlendData
}.

(** The calls a script makes that act on the host or read the scene. *)
Inductive event :=
| EvMkdir (p : Path)
| EvDumpJson (p : Path) (report : ExportReport)
| EvReadHomefile
| EvOpenMainfile (filepath : string)
| EvExportFbx (filepath : string)
| EvDataObjects
| EvDataMaterials
| EvPrint (line : string).

Record machine (W : Type) := { world : W; trace : list event }.
Arguments world {W} m.
Arguments trace {W} m.

(** State and exceptions. *)
Definition M (W A : Type) : Type := machine W -> outcome A * machine W.

Definition ret {W A} (a : A) : M W A := fun m => (Ok a, m).

Definition bind {W A B} (c : M W A) (k : A -> M W B) : M W B :=
  fun m =>
    match c m with
    | (Ok a, m') => k a m'
    | (Raise e, m') => (Raise e, m')
    end.

Notation "x <- c ;; k" := (bind c (fun x => k))
  (at level 100, c at next level, right associativity).
Notation "c ;;; k" := (bind c (fun _ => k))
  (at level 100, right associativity).

(** [try: body / except Exception as e: handler] *)
Definition try_except {W A} (body : M W A) (handler : exn -> M W A) : M W A :=
  fun m =>
    match body m with
    | (Ok a, m') => (Ok a, m')
    | (Raise e, m') => handler e m'
    end.

Definition log {W} (ev : event) (m : machine W) : machine W :=
  {| world := world m; trace := (trace m ++ [ev])%list |}.

(** A call that acts on the world. *)
Definition call {W A} (ev : event) (op : W -> outcome A * W) : M W A :=
  fun m =>
    let (r, w') := op (world m) in
    (r, {| world := w'; trace := (trace m ++ [ev])%list |}).

(** A read of the world. *)
Definition ask {W A} (f : W -> A) : M W A := fun m => (Ok (f (world m)), m).

Definition print {W} (line : string) : M W unit :=
  fun m => (Ok tt, log (EvPrint line) m).

Section HostCalls.
Context {W : Type} `{Host W}.

(** [p.exists()]: [p.stat()] under a [try] that answers [False] to the
    errors of a missing path and lets any other through. *)
Definition path_exists (p : Path) : M W bool :=
  fun m =>
    match fs_stat (world m) p with
    | Mtime _ => (Ok true, m)
    | Missing _ => (Ok false, m)
    | Failing e => (Raise e, m)
    end.

(** [p.stat().st_mtime] *)
Definition stat_st_mtime (p : Path) : M W float :=
  fun m =>
    match fs_stat (world m) p with
    | Mtime t => (Ok t, m)
    | Missing e => (Raise e, m)
    | Failing e => (Raise e, m)
    end.

Definition mkdir_parents (p : Path) : M W unit := call (EvMkdir p) (fs_mkdir p).
Definition read_homefile : M W unit := call EvReadHomefile bpy_read_homefile.
Definition open_mainfile (filepath : string) : M W unit :=
  call (EvOpenMainfile filepath) (bpy_open_mainfile filepath).
Definition export_scene_fbx (filepath : string) : M W unit :=
  call (EvExportFbx filepath) (bpy_export_scene_fbx filepath).
Definition dump_json (p : Path) (report : ExportReport) : M W unit :=
  call (EvDumpJson p report) (fs_dump_json p report).
Definition data_objects : M W (list bpy.Object) :=
  fun m => (Ok (bpy.objects (bpy_data (world m))), log EvDataObjects m).
Definition data_materials : M W (list bpy.Material) :=
  fun m => (Ok (bpy.materials (bpy_data (world m))), log EvDataMaterials m).
Definition now_isoformat : M W string := ask clock_isoformat.

End HostCalls.

(** ** batch_export.py: the category of a file *)

Section Categories.
Context {W : Type} `{Host W}.

Definition get_category (filepath : Path) : string :=
  let name_lower := str_lower (PurePath.stem filepath) in
  let parent_lower := str_lower (PurePath.name (PurePath.parent filepath)) in
  get_category_loop ASSET_CATEGORIES name_lower parent_lower.

(** The test of the loop, as a function of the key. *)
Definition keyword_hit (filepath : Path) (key : string) : bool :=
  Py.contains key (str_lower (PurePath.stem filepath))
  || Py.contains key (str_lower (PurePath.name (PurePath.parent filepath))).

(** The classifier as the specification words it: a keyword matches a path
    when it is a substring of the lower-cased base name or of the lower-cased
    parent directory name. *)
Definition keyword_matches (filepath : Path) (key : string) : Prop :=
  (exists a b, str_lower (PurePath.stem filepath) = a ++ key ++ b) \/
  (exists a b, str_lower (PurePath.name (PurePath.parent filepath)) = a ++ key ++ b).

(** [classify_spec p c]: [c] is the display name of the first table entry
    whose keyword matches, or ["Misc"] when none does. *)
Definition classify_spec (filepath : Path) (c : string) : Prop :=
  (exists i key,
      nth_error ASSET_CATEGORIES i = Some (key, c) /\
      keyword_matches filepath key /\
      forall j key' c', (j < i)%nat ->
        nth_error ASSET_CATEGORIES j = Some (key', c') ->
        ~ keyword_matches filepath key') \/
  (c = "Misc" /\
   forall key c', In (key, c') ASSET_CATEGORIES -> ~ keyword_matches filepath key).

End Categories.

(** ** validate_models.py *)

Module validate_models.

(** UE5 compatibility limits *)
Definition MAX_VERTICES_LOD0 : Z := 100000.
Definition MAX_BONES : Z := 256.
Definition EXPECTED_SCALE : list float := [1.0%float; 1.0%float; 1.0%float].
Definition SCALE_TOLERANCE : float := 0.001%float.

Record ObjectInfo := {
  info_name : string;
  info_vertices : Z;
  info_faces : Z;
  info_edges : Z
}.

Record Stats := {
  total_vertices : Z;
  total_faces : Z;
  mesh_objects : Z;
  armatures : Z;
  materials : Z
}.

(** The [report] dict. The key ["valid"] is absent ([None]) until
    [validate_file] sets it as its last step on the dict. *)
Record Report := {
  file : string;
  path : string;
  objects : list ObjectInfo;
  issues : list string;
  warnings : list string;
  stats : Stats;
  valid : option bool
}.

(** [report["issues"].append(msg)] *)
Definition append_issue (msg : string) (report : Report) : Report :=
  {| file := file report; path := path report; objects := objects report;
     issues := (issues report ++ [msg])%list; warnings := warnings report;
     stats := stats report; valid := valid report |}.

(** [report["warnings"].append(msg)] *)
Definition append_warning (msg : string) (report : Report) : Report :=
  {| file := file report; path := path report; objects := objects report;
     issues := issues report; warnings := (warnings report ++ [msg])%list;
     stats := stats report; valid := valid report |}.

(** [report["objects"].append(info)] *)
Definition append_object (info : ObjectInfo) (report : Report) : Report :=
  {| file := file report; path := path report;
     objects := (objects report ++ [info])%list;
     issues := issues report; warnings := warnings report;
     stats := stats report; valid := valid report |}.

Definition set_stats (st : Stats) (report : Report) : Report :=
  {| file := file report; path := path report; objects := objects report;
     issues := issues report; warnings := warnings report;
     stats := st; valid := valid report |}.

(** [report["valid"] = v] *)
Definition set_valid (v : bool) (report : Report) : Report :=
  {| file := file report; path := path report; objects := objects report;
     issues := issues report; warnings := warnings report;
     stats := stats report; valid := Some v |}.

(** The issue text of the scale check; [i] indexes ["XYZ"], and
    [{expected}] prints the [1.0] of [EXPECTED_SCALE]. *)
Definition scale_issue (name : string) (i : nat) (s : float) : string :=
  let axis := String.substring i 1 "XYZ" in
  "'" ++ name ++ "': Scale " ++ axis ++ "=" ++ PyFloat.format_3f s
      ++ " (expected 1.0). Apply scale with Ctrl+A".

Definition missing_uv_issue (name : string) : string :=
  "'" ++ name ++ "': Missing UV map (required for UE5)".

Definition uv_count_warning (name : string) (n : Z) : string :=
  "'" ++ name ++ "': " ++ Py.str_int n ++ " UV maps (UE5 typically uses 1-2)".

Definition bone_limit_issue (name : string) (bone_count : Z) : string :=
  "'" ++ name ++ "': " ++ Py.str_int bone_count ++ " bones exceeds UE5 limit ("
      ++ Py.str_int MAX_BONES ++ ")".

Definition no_bones_issue (name : string) : string :=
  "'" ++ name ++ "': Armature has no bones".

(** [abs(s - expected) > SCALE_TOLERANCE] *)
Definition scale_off (s expected : float) : bool :=
  PyFloat.gt (PrimFloat.abs (PrimFloat.sub s expected)) SCALE_TOLERANCE.

(** [for i, (s, expected) in enumerate(zip(obj.scale, EXPECTED_SCALE))] *)
Fixpoint check_scale (name : string) (items : list (nat * (float * float)))
    (report : Report) : Report :=
  match items with
  | [] => report
  | (i, (s, expected)) :: rest =>
      let report :=
        if scale_off s expected
        then append_issue (scale_issue name i s) report
        else report in
      check_scale name rest report
  end.

(** [vertex_used.update(edge.vertices)] over all edges *)
Definition vertex_used (es : list bpy.MeshEdge) : gset nat :=
  List.fold_left
    (fun used e => used ∪ {[ fst (bpy.edge_vertices e) ]} ∪ {[ snd (bpy.edge_vertices e) ]})
    es ∅.

Definition _validate_mesh (obj : bpy.Object) (mesh : bpy.Mesh) (report : Report) : Report :=
  let name := bpy.name obj in
  let info := {| info_name := name;
                 info_vertices := Py.len (bpy.vertices mesh);
                 info_faces := Py.len (bpy.polygons mesh);
                 info_edges := Py.len (bpy.edges mesh) |} in
  let st := stats report in
  let report :=
    set_stats {| total_vertices := total_vertices st + Py.len (bpy.vertices mesh);
                 total_faces := total_faces st + Py.len (bpy.polygons mesh);
                 mesh_objects := mesh_objects st + 1;
                 armatures := armatures st;
                 materials := materials st |} report in
  let report := append_object info report in
  (* Check applied scale *)
  let report :=
    check_scale name
      (Py.enumerate (List.combine (bpy.components (bpy.scale obj)) EXPECTED_SCALE))
      report in
  (* Check applied rotation *)
  let report :=
    if List.existsb (fun r => PyFloat.gt (PrimFloat.abs r) 0.001%float)
         (bpy.components (bpy.rotation_euler obj))
    then append_warning
           ("'" ++ name ++ "': Has unapplied rotation. Consider Ctrl+A -> Rotation")
           report
    else report in
  (* Check UV maps *)
  let report :=
    match bpy.uv_layers mesh with
    | [] => append_issue (missing_uv_issue name) report
    | _ =>
        if Py.len (bpy.uv_layers mesh) >? 2
        then append_warning (uv_count_warning name (Py.len (bpy.uv_layers mesh))) report
        else report
    end in
  (* Check ngons *)
  let ngons :=
    Py.len (List.filter (fun p => Py.len (bpy.poly_vertices p) >? 4) (bpy.polygons mesh)) in
  let report :=
    if ngons >? 0
    then append_warning
           ("'" ++ name ++ "': " ++ Py.str_int ngons
                ++ " ngons (triangulate for best UE5 results)") report
    else report in
  (* Check loose vertices *)
  let loose := Py.len (bpy.vertices mesh)
               - Z.of_nat (size (vertex_used (bpy.edges mesh))) in
  let report :=
    if loose >? 0
    then append_warning ("'" ++ name ++ "': " ++ Py.str_int loose ++ " loose vertices") report
    else report in
  (* Check naming convention *)
  if negb (List.existsb (Py.startswith name) ["SM_"; "SK_"; "S_"])
  then append_warning
         ("'" ++ name ++ "': Consider UE5 naming: SM_ (static), SK_ (skeletal)") report
  else report.

Definition _validate_armature (obj : bpy.Object) (armature : bpy.Armature)
    (report : Report) : Report :=
  let name := bpy.name obj in
  let bone_count := Py.len (bpy.bones armature) in
  let st := stats report in
  let report :=
    set_stats {| total_vertices := total_vertices st;
                 total_faces := total_faces st;
                 mesh_objects := mesh_objects st;
                 armatures := armatures st + 1;
                 materials := materials st |} report in
  let report :=
    if bone_count >? MAX_BONES
    then append_issue (bone_limit_issue name bone_count) report
    else report in
  let report :=
    if bone_count =? 0
    then append_issue (no_bones_issue name) report
    else report in
  (* Check root bone *)
  let root_bones :=
    List.filter (fun b => match bpy.parent b with None => true | Some _ => false end)
      (bpy.bones armature) in
  if Py.len root_bones >? 1
  then append_warning
         ("'" ++ name ++ "': Multiple root bones (" ++ Py.str_int (Py.len root_bones)
              ++ "). UE5 works best with a single root") report
  else report.

(** One turn of [for obj in bpy.data.objects]. *)
Definition visit_object (report : Report) (obj : bpy.Object) : Report :=
  match bpy.data obj with
  | bpy.MESH mesh => _validate_mesh obj mesh report
  | bpy.ARMATURE armature => _validate_armature obj armature report
  | bpy.OTHER _ => report
  end.

(** One turn of [for mat in bpy.data.materials]. *)
Definition visit_material (report : Report) (mat : bpy.Material) : Report :=
  let st := stats report in
  let report :=
    set_stats {| total_vertices := total_vertices st;
                 total_faces := total_faces st;
                 mesh_objects := mesh_objects st;
                 armatures := armatures st;
                 materials := materials st + 1 |} report in
  if negb (bpy.use_nodes mat)
  then append_warning ("Material '" ++ bpy.mat_name mat ++ "': not using nodes") report
  else report.

(** The [if] under "Overall checks". *)
Definition overall_checks (report : Report) : Report :=
  if total_vertices (stats report) >? MAX_VERTICES_LOD0
  then append_issue
         ("Total vertices (" ++ Py.str_int (total_vertices (stats report))
              ++ ") exceeds LOD0 limit (" ++ Py.str_int MAX_VERTICES_LOD0 ++ ")") report
  else report.

Definition new_report (filepath : Path) : Report :=
  {| file := PurePath.name filepath;
     path := PurePath.str filepath;
     objects := [];
     issues := [];
     warnings := [];
     stats := {| total_vertices := 0; total_faces := 0; mesh_objects := 0;
                 armatures := 0; materials := 0 |};
     valid := None |}.

(** What [validate_file] does with the scene once it is loaded: everything
    from the dict literal down to [report["valid"] = ...]. *)
Definition inspect (filepath : Path) (objs : list bpy.Object)
    (mats : list bpy.Material) : Report :=
  let report := new_report filepath in
  let report := List.fold_left visit_object objs report in
  let report := List.fold_left visit_material mats report in
  let report := overall_checks report in
  set_valid (Py.len (issues report) =? 0) report.

(** The issues the scale loop appends for [items]. *)
Definition scale_issues (name : string) (items : list (nat * (float * float)))
    : list string :=
  List.flat_map
    (fun '(i, (s, expected)) =>
       if scale_off s expected then [scale_issue name i s] else [])
    items.

(** What a step appended to the issue list and to the warning list. *)
Definition issues_added (before after : Report) : list string :=
  List.skipn (List.length (issues before)) (issues after).
Definition warnings_added (before after : Report) : list string :=
  List.skipn (List.length (warnings before)) (warnings after).

(** The warnings the material loop appends. *)
Definition material_warnings (mats : list bpy.Material) : list string :=
  List.flat_map
    (fun mat =>
       if negb (bpy.use_nodes mat)
       then ["Material '" ++ bpy.mat_name mat ++ "': not using nodes"] else [])
    mats.

Definition is_mesh (obj : bpy.Object) : bool :=
  match bpy.data obj with bpy.MESH _ => true | _ => false end.
Definition is_armature (obj : bpy.Object) : bool :=
  match bpy.data obj with bpy.ARMATURE _ => true | _ => false end.

(** [self] of [ModelValidator]. *)
Record ModelValidator := { results : list Report; total_issues : Z }.

(** [ModelValidator()] *)
Definition __init__ : ModelValidator := {| results := []; total_issues := 0 |}.

Section Script.
Context {W : Type} `{Host W}.

Definition validate_file (self : ModelValidator) (filepath : Path)
    : M W (ModelValidator * Report) :=
  read_homefile ;;;
  open_mainfile (PurePath.str filepath) ;;;
  objs <- data_objects ;;
  mats <- data_materials ;;
  let report := inspect filepath objs mats in
  let self := {| results := (results self ++ [report])%list;
                 total_issues := total_issues self + Py.len (issues report) |} in
  ret (self, report).

End Script.

(** *** The report of a run, and [main] *)

(** The [summary] dict of [generate_report]. *)
Record Summary := {
  summary_timestamp : string;
  summary_total_files : Z;
  valid_files : Z;
  invalid_files : Z;
  summary_total_issues : Z;
  summary_files : list Report
}.

(** What [generate_report] asks of the host beyond [Host]. The dump of the
    summary is not among the calls [event] lists: it shows in the world, and
    in the path [generate_report] returns. *)
Class ReportHost (W : Type) := {
  (** [datetime.now().strftime('%Y%m%d_%H%M%S')] *)
  clock_strftime : W -> string;
  (** [with open(p, "w") as f: json.dump(summary, f, indent=2)] *)
  fs_dump_summary : Path -> Summary -> W -> outcome unit * W
}.

(** [r["valid"]]: a [KeyError] while the key is absent. *)
Definition get_valid (r : Report) : outcome bool :=
  match valid r with
  | Some v => Ok v
  | None => Raise "KeyError: 'valid'"
  end.

(** [sum(1 for r in rs if test(r["valid"]))] *)
Fixpoint count_where (test : bool -> bool) (rs : list Report) : outcome Z :=
  match rs with
  | [] => Ok 0
  | r :: rest =>
      match get_valid r with
      | Raise e => Raise e
      | Ok v =>
          match count_where test rest with
          | Raise e => Raise e
          | Ok n => Ok (if test v then 1 + n else n)
          end
      end
  end.

(** The dict literal of [generate_report], its entries evaluated in order. *)
Definition build_summary (self : ModelValidator) (now : string) : outcome Summary :=
  match count_where (fun v => v) (results self) with
  | Raise e => Raise e
  | Ok n_valid =>
      match count_where negb (results self) with
      | Raise e => Raise e
      | Ok n_invalid =>
          Ok {| summary_timestamp := now;
                summary_total_files := Py.len (results self);
                valid_files := n_valid;
                invalid_files := n_invalid;
                summary_total_issues := total_issues self;
                summary_files := results self |}
      end
  end.

Section Cli.
Context {W : Type} `{Host W} `{ReportHost W}.

Definition MODELS_DIR : Path := PurePath.parent SCRIPT_DIR // "models".
Definition REPORT_DIR : Path := PurePath.parent SCRIPT_DIR // "reports".

(** A value or an exception computed without the host. *)
Definition lift {A} (o : outcome A) : M W A := fun m => (o, m).

(** A call on the world that [event] does not list. *)
Definition quiet {A} (op : W -> outcome A * W) : M W A :=
  fun m =>
    let (r, w') := op (world m) in
    (r, {| world := w'; trace := trace m |}).

Definition generate_report (self : ModelValidator) : M W string :=
  mkdir_parents REPORT_DIR ;;;
  stamp <- ask clock_strftime ;;
  let report_path := REPORT_DIR // ("validation_" ++ stamp ++ ".json") in
  now <- now_isoformat ;;
  summary <- lift (build_summary self now) ;;
  quiet (fs_dump_summary report_path summary) ;;;
  ret (PurePath.str report_path).

(** [for line in lines: print(f"{prefix}{line}")] *)
Fixpoint print_each (prefix : string) (lines : list string) : M W unit :=
  match lines with
  | [] => ret tt
  | line :: rest => print (prefix ++ line) ;;; print_each prefix rest
  end.

(** The body of [for filepath in blend_files] in [main]. *)
Definition validate_and_print (validator : ModelValidator) (filepath : Path)
    : M W ModelValidator :=
  print ("Validating: " ++ PurePath.name filepath) ;;;
  step <- validate_file validator filepath ;;
  let (validator, result) := step : ModelValidator * Report in
  v <- lift (get_valid result) ;;
  (if v : bool
   then print ("  [PASS] " ++ Py.str_int (total_vertices (stats result)) ++ " verts, "
                 ++ Py.str_int (total_faces (stats result)) ++ " faces")
   else
     print ("  [FAIL] " ++ Py.str_int (Py.len (issues result)) ++ " issues:") ;;;
     print_each "    - " (issues result)) ;;;
  match warnings result with
  | [] => ret tt
  | _ => print_each "    [WARN] " (warnings result)
  end ;;;
  print "" ;;;
  ret validator.

Fixpoint validate_loop (blend_files : list Path) (validator : ModelValidator)
    : M W ModelValidator :=
  match blend_files with
  | [] => ret validator
  | filepath :: rest =>
      validator <- validate_and_print validator filepath ;;
      validate_loop rest validator
  end.

(** What [main] does once it has found files. *)
Definition validate_all (blend_files : list Path) : M W unit :=
  print ("Found " ++ Py.str_int (Py.len blend_files) ++ " models to validate" ++ Py.nl) ;;;
  validator <- validate_loop blend_files __init__ ;;
  report_path <- generate_report validator ;;
  print (Py.repeat_str "=" 60) ;;;
  n_valid <- lift (count_where (fun v => v) (results validator)) ;;
  let total := Py.len (results validator) in
  print ("Results: " ++ Py.str_int n_valid ++ "/" ++ Py.str_int total ++ " passed, "
           ++ Py.str_int (total_issues validator) ++ " issues") ;;;
  print ("Report: " ++ report_path) ;;;
  print (Py.repeat_str "=" 60).

(** The four lines [main] prints first. *)
Definition header : M W unit :=
  print (Py.repeat_str "=" 60) ;;;
  print "Tower Game - Model Validator" ;;;
  print ("Models dir: " ++ PurePath.str MODELS_DIR) ;;;
  print (Py.repeat_str "=" 60).

Definition main : M W unit :=
  header ;;;
  blend_files <- ask (fun w => fs_rglob_blend w MODELS_DIR) ;;
  match blend_files with
  | [] =>
      print "No .blend files found." ;;;
      print ("Place models in: " ++ PurePath.str MODELS_DIR) ;;;
      ret tt
  | _ => validate_all blend_files
  end.

End Cli.

End validate_models.

(** ** batch_export.py *)

Module batch_export.

(** The [stats] dict of [validate_model]. *)
Record ModelStats := {
  vertices : Z;
  faces : Z;
  objects : Z;
  armatures : Z
}.

(** The dict [validate_model] returns. *)
Record ModelCheck := {
  file : string;
  stats : ModelStats;
  issues : list string;
  valid : bool
}.

(** The [results] dict of [main]. *)
Record Results := {
  n_exported : Z;
  n_failed : Z;
  n_skipped : Z;
  out_files : list string
}.

Definition count_skipped (results : Results) : Results :=
  {| n_exported := n_exported results; n_failed := n_failed results;
     n_skipped := n_skipped results + 1; out_files := out_files results |}.

Definition count_failed (results : Results) : Results :=
  {| n_exported := n_exported results; n_failed := n_failed results + 1;
     n_skipped := n_skipped results; out_files := out_files results |}.

Definition count_exported (out : string) (results : Results) : Results :=
  {| n_exported := n_exported results + 1; n_failed := n_failed results;
     n_skipped := n_skipped results;
     out_files := (out_files results ++ [out])%list |}.

Section Validate.
(** [repr] of a float, as the f-string prints the components of
    [tuple(obj.scale)]. *)
Variable float_repr : float -> string.

Definition tuple_repr (v : bpy.Vector) : string :=
  "(" ++ float_repr (bpy.x v) ++ ", " ++ float_repr (bpy.y v) ++ ", "
      ++ float_repr (bpy.z v) ++ ")".

Definition ngons_issue (name : string) (n : Z) : string :=
  name ++ ": " ++ Py.str_int n ++ " ngons found (should be tris/quads)".

Definition no_uv_issue (name : string) : string := name ++ ": No UV map".

Definition non_uniform_scale_issue (name : string) (v : bpy.Vector) : string :=
  name ++ ": Non-uniform scale " ++ tuple_repr v.

(** One turn of [for obj in bpy.data.objects] in [validate_model]. The
    normals check of the source is a [pass]. *)
Definition check_object (acc : ModelStats * list string) (obj : bpy.Object)
    : ModelStats * list string :=
  let (stats, issues) := acc in
  match bpy.data obj with
  | bpy.MESH mesh =>
      let stats := {| vertices := vertices stats + Py.len (bpy.vertices mesh);
                      faces := faces stats + Py.len (bpy.polygons mesh);
                      objects := objects stats + 1;
                      armatures := armatures stats |} in
      (* Check for ngons (faces with > 4 vertices) *)
      let ngons :=
        List.filter (fun p => Py.len (bpy.poly_vertices p) >? 4) (bpy.polygons mesh) in
      let issues :=
        match ngons with
        | [] => issues
        | _ => (issues ++ [ngons_issue (bpy.name obj) (Py.len ngons)])%list
        end in
      (* Check UV maps *)
      let issues :=
        match bpy.uv_layers mesh with
        | [] => (issues ++ [no_uv_issue (bpy.name obj)])%list
        | _ => issues
        end in
      (* Check scale *)
      let issues :=
        if List.existsb
             (fun s => PyFloat.gt (PrimFloat.abs (PrimFloat.sub s 1.0%float)) 0.001%float)
             (bpy.components (bpy.scale obj))
        then (issues ++ [non_uniform_scale_issue (bpy.name obj) (bpy.scale obj)])%list
        else issues in
      (stats, issues)
  | bpy.ARMATURE _ =>
      ({| vertices := vertices stats; faces := faces stats;
          objects := objects stats; armatures := armatures stats + 1 |}, issues)
  | bpy.OTHER _ => (stats, issues)
  end.

Definition validate_model {W : Type} `{Host W} (filepath : Path) : M W ModelCheck :=
  objs <- data_objects ;;
  let (stats, issues) :=
    List.fold_left check_object objs
      ({| vertices := 0; faces := 0; objects := 0; armatures := 0 |}, []) in
  ret {| file := PurePath.str filepath; stats := stats; issues := issues;
         valid := Py.len issues =? 0 |}.

End Validate.

Section Script.
Context {W : Type} `{Host W}.

Definition PROJECT_ROOT : Path := PurePath.parent (PurePath.parent SCRIPT_DIR).
Definition MODELS_DIR : Path := PurePath.parent SCRIPT_DIR // "models".
Definition EXPORT_DIR : Path :=
  PROJECT_ROOT // "ue5-client" // "Content" // "Models" // "Imported".

Definition ensure_dir (p : Path) : M W unit := mkdir_parents p.

Definition clean_scene : M W unit := read_homefile.

(** The [try] block of [export_blend_to_fbx]. *)
Definition export_attempt (blend_path export_path : Path) : M W bool :=
  clean_scene ;;;
  open_mainfile (PurePath.str blend_path) ;;;
  ensure_dir (PurePath.parent export_path) ;;;
  export_scene_fbx (PurePath.str export_path) ;;;
  print ("  [OK] Exported: " ++ PurePath.name blend_path ++ " -> "
           ++ PurePath.name export_path) ;;;
  ret true.

(** The [except Exception as e] block. *)
Definition export_failed (blend_path : Path) (e : exn) : M W bool :=
  print ("  [FAIL] " ++ PurePath.name blend_path ++ ": " ++ e) ;;;
  ret false.

Definition export_blend_to_fbx (blend_path export_path : Path) : M W bool :=
  try_except (export_attempt blend_path export_path) (export_failed blend_path).

(** [EXPORT_DIR / category / fbx_name] for a source file. *)
Definition export_path_of (blend_path : Path) : Path :=
  let category := get_category blend_path in
  let fbx_name := PurePath.stem blend_path ++ ".fbx" in
  EXPORT_DIR // category // fbx_name.

(** The test of the "Skip if FBX is newer than .blend" block:
    [export_path.exists()] and then [fbx_mtime > blend_mtime]. *)
Definition up_to_date (blend_path export_path : Path) : M W bool :=
  ex <- path_exists export_path ;;
  if ex : bool then
    blend_mtime <- stat_st_mtime blend_path ;;
    fbx_mtime <- stat_st_mtime export_path ;;
    ret (PyFloat.gt fbx_mtime blend_mtime)
  else ret false.

(** The body of [for blend_path in blend_files]. *)
Definition process_file (results : Results) (blend_path : Path) : M W Results :=
  let category := get_category blend_path in
  let export_path := export_path_of blend_path in
  skip <- up_to_date blend_path export_path ;;
  if skip : bool then
    print ("  [SKIP] " ++ PurePath.name blend_path ++ " (up to date)") ;;;
    ret (count_skipped results)
  else
    print ("Exporting: " ++ PurePath.name blend_path ++ " [" ++ category ++ "]") ;;;
    ok <- export_blend_to_fbx blend_path export_path ;;
    if ok : bool
    then ret (count_exported (PurePath.str export_path) results)
    else ret (count_failed results).

Fixpoint main_loop (blend_files : list Path) (results : Results) : M W Results :=
  match blend_files with
  | [] => ret results
  | blend_path :: rest =>
      results <- process_file results blend_path ;;
      main_loop rest results
  end.

Definition rule : string := Py.repeat_str "=" 60.

Definition main : M W unit :=
  print rule ;;;
  print "Tower Game - Blender Batch Export" ;;;
  now <- now_isoformat ;;
  print ("Time: " ++ now) ;;;
  print ("Models dir: " ++ PurePath.str MODELS_DIR) ;;;
  print ("Export dir: " ++ PurePath.str EXPORT_DIR) ;;;
  print rule ;;;
  ensure_dir EXPORT_DIR ;;;
  (* Find all .blend files *)
  blend_files <- ask (fun w => fs_rglob_blend w MODELS_DIR) ;;
  match blend_files with
  | [] =>
      print "No .blend files found in models directory." ;;;
      print ("Place your models in: " ++ PurePath.str MODELS_DIR) ;;;
      ret tt
  | _ =>
      print ("Found " ++ Py.str_int (Py.len blend_files) ++ " .blend files" ++ Py.nl) ;;;
      results <- main_loop blend_files
                   {| n_exported := 0; n_failed := 0; n_skipped := 0; out_files := [] |} ;;
      (* Write export report *)
      let report_path := EXPORT_DIR // "export_report.json" in
      now <- now_isoformat ;;
      let report := {| timestamp := now;
                       total_files := Py.len blend_files;
                       exported := n_exported results;
                       failed := n_failed results;
                       skipped := n_skipped results;
                       files := out_files results |} in
      dump_json report_path report ;;;
      print (Py.nl ++ rule) ;;;
      print ("Export complete: " ++ Py.str_int (n_exported results) ++ " exported, "
               ++ Py.str_int (n_skipped results) ++ " skipped, "
               ++ Py.str_int (n_failed results) ++ " failed") ;;;
      print ("Report: " ++ PurePath.str report_path) ;;;
      print rule
  end.

End Script.

End batch_export.

(** ** tower_addon.py: the "Validate Asset" operator *)

Module tower_addon.

(** The first argument of [self.report]. *)
Inductive report_type := INFO | WARNING | ERROR.

Definition unapplied_scale_issue (name : string) : string := name ++ ": Unapplied scale".
Definition no_uv_issue (name : string) : string := name ++ ": No UV map".
Definition vertices_issue (name : string) (verts : Z) : string :=
  name ++ ": " ++ Py.str_int verts ++ " vertices (consider LODs)".

(** One turn of [for obj in context.scene.objects] in
    [TOWER_OT_ValidateAsset.execute]. *)
Definition check_object (issues : list string) (obj : bpy.Object) : list string :=
  if Py.startswith (bpy.name obj) "REF_" then issues
  else
    match bpy.data obj with
    | bpy.MESH mesh =>
        (* Check scale *)
        let issues :=
          if List.existsb
               (fun s => PyFloat.gt (PrimFloat.abs (PrimFloat.sub s 1.0%float)) 0.001%float)
               (bpy.components (bpy.scale obj))
          then (issues ++ [unapplied_scale_issue (bpy.name obj)])%list
          else issues in
        (* Check UVs *)
        let issues :=
          match bpy.uv_layers mesh with
          | [] => (issues ++ [no_uv_issue (bpy.name obj)])%list
          | _ => issues
          end in
        (* Check vertex count *)
        let verts := Py.len (bpy.vertices mesh) in
        if verts >? 50000
        then (issues ++ [vertices_issue (bpy.name obj) verts])%list
        else issues
    | _ => issues
    end.

(** [TOWER_OT_ValidateAsset.execute]: the reports it makes, in order, and
    the status it returns. *)
Definition validate_asset (scene_objects : list bpy.Object)
    : list (report_type * string) * string :=
  let issues := List.fold_left check_object scene_objects [] in
  (match issues with
   | [] => [(INFO, "All checks passed!")]
   | _ => List.map (fun issue => (WARNING, issue)) issues
   end,
   "FINISHED").

End tower_addon.

(** ** A simulated host

    A small file system and Blender session to run the scripts on. *)

Module Sim.

Record World := {
  (** modification times, by [str] of the path; the first entry wins *)
  mtimes : list (string * float);
  (** the .blend files that load, with the scene each holds *)
  blends : list (string * bpy.BlendData);
  (** output paths the FBX exporter rejects *)
  rejected : list string;
  (** what the recursive scan of the models directory finds *)
  found : list Path;
  (** the scene Blender holds *)
  current : bpy.BlendData;
  (** the time on the clock, as [st_mtime] and as ISO text *)
  now : float;
  now_iso : string
}.

Fixpoint lookup {A} (k : string) (l : list (string * A)) : option A :=
  match l with
  | [] => None
  | (k', v) :: rest => if String.eqb k k' then Some v else lookup k rest
  end.

Definition empty_scene : bpy.BlendData := {| bpy.objects := []; bpy.materials := [] |}.

Definition with_current (d : bpy.BlendData) (w : World) : World :=
  {| mtimes := mtimes w; blends := blends w; rejected := rejected w;
     found := found w; current := d; now := now w; now_iso := now_iso w |}.

Definition touch (f : string) (w : World) : World :=
  {| mtimes := (f, now w) :: mtimes w; blends := blends w; rejected := rejected w;
     found := found w; current := current w; now := now w; now_iso := now_iso w |}.

Definition open_mainfile (f : string) (w : World) : outcome unit * World :=
  match lookup f (blends w) with
  | Some d => (Ok tt, with_current d w)
  | None => (Raise ("Error: Cannot read file '" ++ f ++ "'"), w)
  end.

Definition export_scene_fbx (f : string) (w : World) : outcome unit * World :=
  if List.existsb (String.eqb f) (rejected w)
  then (Raise ("Error: cannot export '" ++ f ++ "'"), w)
  else (Ok tt, touch f w).

(** [p.stat()] on these disks: a path is there or it is not. *)
Definition stat (w : World) (p : Path) : stat_result :=
  match lookup (PurePath.str p) (mtimes w) with
  | Some t => Mtime t
  | None => Missing ("[Errno 2] No such file or directory: '" ++ PurePath.str p ++ "'")
  end.

(** The names on these disks are ASCII. *)
#[global] Instance host : Host World := {
  str_lower := Py.lower_ascii;
  str_lower_ascii := fun _ _ => eq_refl;
  SCRIPT_DIR := ["repo"; "blender"; "scripts"];
  clock_isoformat := now_iso;
  fs_rglob_blend := fun w _ => found w;
  fs_stat := stat;
  fs_mkdir := fun _ w => (Ok tt, w);
  fs_dump_json := fun p _ w => (Ok tt, touch (PurePath.str p) w);
  bpy_read_homefile := fun w => (Ok tt, with_current empty_scene w);
  bpy_open_mainfile := open_mainfile;
  bpy_export_scene_fbx := export_scene_fbx;
  bpy_data := current
}.

Definition boot (w : World) : machine World := {| world := w; trace := [] |}.

Definition unit_vec : bpy.Vector :=
  {| bpy.x := 1.0%float; bpy.y := 1.0%float; bpy.z := 1.0%float |}.
Definition zero_vec : bpy.Vector :=
  {| bpy.x := 0.0%float; bpy.y := 0.0%float; bpy.z := 0.0%float |}.

(** A unit quad: four vertices, four edges, one face. *)
Definition quad (uvs : list string) : bpy.Mesh :=
  {| bpy.vertices := [zero_vec; zero_vec; zero_vec; zero_vec];
     bpy.polygons := [ {| bpy.poly_vertices := [0; 1; 2; 3]%nat |} ];
     bpy.edges := [ {| bpy.edge_vertices := (0, 1)%nat |};
                    {| bpy.edge_vertices := (1, 2)%nat |};
                    {| bpy.edge_vertices := (2, 3)%nat |};
                    {| bpy.edge_vertices := (3, 0)%nat |} ];
     bpy.uv_layers := uvs;
     bpy.has_custom_normals := false |}.

Definition mesh_object (name : string) (scale : bpy.Vector) (uvs : list string)
    : bpy.Object :=
  {| bpy.name := name; bpy.scale := scale; bpy.rotation_euler := zero_vec;
     bpy.data := bpy.MESH (quad uvs) |}.

Definition rig (name : string) (n : nat) : bpy.Object :=
  {| bpy.name := name; bpy.scale := unit_vec; bpy.rotation_euler := zero_vec;
     bpy.data :=
       bpy.ARMATURE
         {| bpy.bones :=
              match n with
              | O => []
              | S k =>
                  {| bpy.bone_name := "root"; bpy.parent := None |}
                    :: List.repeat {| bpy.bone_name := "bone"; bpy.parent := Some 0%nat |} k
              end |} |}.

Definition empty_object (name : string) : bpy.Object :=
  {| bpy.name := name; bpy.scale := unit_vec; bpy.rotation_euler := zero_vec;
     bpy.data := bpy.OTHER "EMPTY" |}.

(** "Not using nodes" is what makes a material worth a warning. *)
Definition flat_material : bpy.Material :=
  {| bpy.mat_name := "Flat"; bpy.use_nodes := false |}.

Definition sword_blend : Path := ["repo"; "blender"; "models"; "weapons"; "sword_01.blend"].
Definition hero_blend : Path := ["repo"; "blender"; "models"; "characters"; "hero.blend"].
Definition blob_blend : Path := ["repo"; "blender"; "models"; "blob.blend"].

Definition sword_fbx : string :=
  "/repo/ue5-client/Content/Models/Imported/Weapons/sword_01.fbx".
Definition hero_fbx : string :=
  "/repo/ue5-client/Content/Models/Imported/Characters/hero.fbx".
Definition blob_fbx : string :=
  "/repo/ue5-client/Content/Models/Imported/Misc/blob.fbx".

(** A clean sword; a hero whose mesh has no UV map and a scaled axis (two
    issues); a scene holding only an empty and a material without nodes. *)
Definition sword_scene : bpy.BlendData :=
  {| bpy.objects := [mesh_object "SM_Sword" unit_vec ["UVMap"]]; bpy.materials := [] |}.
Definition hero_scene : bpy.BlendData :=
  {| bpy.objects :=
       [ mesh_object "Body"
           {| bpy.x := 2.0%float; bpy.y := 1.0%float; bpy.z := 1.0%float |} [];
         rig "SK_Hero" 3 ];
     bpy.materials := [] |}.
Definition blob_scene : bpy.BlendData :=
  {| bpy.objects := [empty_object "Locator"]; bpy.materials := [flat_material] |}.

(** The three sources, last modified at time 100, seen at time 200, with
    the outputs [outputs] already on disk. *)
Definition project (outputs : list (string * float))
    (loadable : list (string * bpy.BlendData)) (rejected : list string) : World :=
  {| mtimes := (outputs
                ++ [ (PurePath.str sword_blend, 100.0%float);
                     (PurePath.str hero_blend, 100.0%float);
                     (PurePath.str blob_blend, 100.0%float) ])%list;
     blends := loadable;
     rejected := rejected;
     found := [sword_blend; hero_blend; blob_blend];
     current := empty_scene;
     now := 200.0%float;
     now_iso := "2026-01-01T12:00:00" |}.

Definition all_loadable : list (string * bpy.BlendData) :=
  [ (PurePath.str sword_blend, sword_scene);
    (PurePath.str hero_blend, hero_scene);
    (PurePath.str blob_blend, blob_scene) ].

(** Nothing exported yet. *)
Definition fresh : World := project [] all_loadable [].

(** The sword's output is on disk with the very timestamp of its source. *)
Definition same_age : World := project [(sword_fbx, 100.0%float)] all_loadable [].

(** The hero's file does not load and the exporter rejects the blob. *)
Definition faulty : World :=
  project [] [(PurePath.str sword_blend, sword_scene); (PurePath.str blob_blend, blob_scene)]
    [blob_fbx].

(** The [EvDumpJson] events of a trace. *)
Definition dumped (t : list event) : list ExportReport :=
  List.flat_map (fun ev => match ev with EvDumpJson _ r => [r] | _ => [] end) t.

(** The clock as [generate_report] names its file; the dump of a summary
    leaves a file behind. *)
#[global] Instance report_host : validate_models.ReportHost World := {
  validate_models.clock_strftime := fun _ => "20260101_120000";
  validate_models.fs_dump_summary := fun p _ w => (Ok tt, touch (PurePath.str p) w)
}.

(** A pentagon: five vertices, five edges, one face with five corners. *)
Definition pentagon (uvs : list string) : bpy.Mesh :=
  {| bpy.vertices := [zero_vec; zero_vec; zero_vec; zero_vec; zero_vec];
     bpy.polygons := [ {| bpy.poly_vertices := [0; 1; 2; 3; 4]%nat |} ];
     bpy.edges := [ {| bpy.edge_vertices := (0, 1)%nat |};
                    {| bpy.edge_vertices := (1, 2)%nat |};
                    {| bpy.edge_vertices := (2, 3)%nat |};
                    {| bpy.edge_vertices := (3, 4)%nat |};
                    {| bpy.edge_vertices := (4, 0)%nat |} ];
     bpy.uv_layers := uvs;
     bpy.has_custom_normals := false |}.

(** A quad and a fifth vertex that no edge touches. *)
Definition quad_and_stray : bpy.Mesh :=
  {| bpy.vertices := [zero_vec; zero_vec; zero_vec; zero_vec; zero_vec];
     bpy.polygons := [ {| bpy.poly_vertices := [0; 1; 2; 3]%nat |} ];
     bpy.edges := [ {| bpy.edge_vertices := (0, 1)%nat |};
                    {| bpy.edge_vertices := (1, 2)%nat |};
                    {| bpy.edge_vertices := (2, 3)%nat |};
                    {| bpy.edge_vertices := (3, 0)%nat |} ];
     bpy.uv_layers := ["UVMap"];
     bpy.has_custom_normals := false |}.

(** An object named and scaled as the height reference of the addon's scene
    setup ([REF_PlayerHeight], scale [(0.1, 0.1, 180.0 * 0.01)]), here on a
    mesh without UV layer. *)
Definition ref_player_height : bpy.Object :=
  {| bpy.name := "REF_PlayerHeight";
     bpy.scale := {| bpy.x := 0.1%float; bpy.y := 0.1%float; bpy.z := 1.8%float |};
     bpy.rotation_euler := zero_vec;
     bpy.data := bpy.MESH (quad []) |}.

(** A tree without any .blend file. *)
Definition bare : World :=
  {| mtimes := []; blends := []; rejected := []; found := [];
     current := empty_scene; now := 200.0%float; now_iso := "2026-01-01T12:00:00" |}.

(** The same worlds on a disk that refuses every [mkdir]. *)
Record ReadOnly := { on_disk : World }.

Definition carry (op : World -> outcome unit * World) (w : ReadOnly)
    : outcome unit * ReadOnly :=
  let (r, w') := op (on_disk w) in (r, {| on_disk := w' |}).

#[global] Instance read_only_host : Host ReadOnly | 10 := {
  str_lower := Py.lower_ascii;
  str_lower_ascii := fun _ _ => eq_refl;
  SCRIPT_DIR := ["repo"; "blender"; "scripts"];
  clock_isoformat := fun w => now_iso (on_disk w);
  fs_rglob_blend := fun w _ => found (on_disk w);
  fs_stat := fun w => stat (on_disk w);
  fs_mkdir := fun p w => (Raise ("PermissionError: " ++ PurePath.str p), w);
  fs_dump_json := fun p _ w => (Raise ("PermissionError: " ++ PurePath.str p), w);
  bpy_read_homefile := carry (fun w => (Ok tt, with_current empty_scene w));
  bpy_open_mainfile := fun f => carry (open_mainfile f);
  bpy_export_scene_fbx := fun f w => (Raise ("PermissionError: " ++ f), w);
  bpy_data := fun w => current (on_disk w)
}.

(** The same worlds behind a directory that cannot be searched: every
    [stat] is refused. *)
Record Locked := { behind : World }.

Definition hold (op : World -> outcome unit * World) (w : Locked)
    : outcome unit * Locked :=
  let (r, w') := op (behind w) in (r, {| behind := w' |}).

#[global] Instance locked_host : Host Locked | 20 := {
  str_lower := Py.lower_ascii;
  str_lower_ascii := fun _ _ => eq_refl;
  SCRIPT_DIR := ["repo"; "blender"; "scripts"];
  clock_isoformat := fun w => now_iso (behind w);
  fs_rglob_blend := fun w _ => found (behind w);
  fs_stat := fun _ p => Failing ("[Errno 13] Permission denied: '" ++ PurePath.str p ++ "'");
  fs_mkdir := fun _ w => (Ok tt, w);
  fs_dump_json := fun p _ => hold (fun w => (Ok tt, touch (PurePath.str p) w));
  bpy_read_homefile := hold (fun w => (Ok tt, with_current empty_scene w));
  bpy_open_mainfile := fun f => hold (open_mainfile f);
  bpy_export_scene_fbx := fun f => hold (export_scene_fbx f);
  bpy_data := fun w => current (behind w)
}.

(** The sword's source is gone while its output is still on disk. *)
Definition vanished : World :=
  {| mtimes := [(sword_fbx, 100.0%float)]; blends := all_loadable; rejected := [];
     found := [sword_blend]; current := empty_scene; now := 200.0%float;
     now_iso := "2026-01-01T12:00:00" |}.





End Sim.

(** ** Reasoning about runs *)

(** The events a run appended to the trace. *)
Definition events_added {W} (m m' : machine W) : list event :=
  List.skipn (List.length (trace m)) (trace m').

(** [emits c P Q]: from any machine, [c] only appends events, all of them
    satisfying [P], and a value it returns satisfies [Q]. *)
Definition emits {W A} (c : M W A) (P : event -> Prop) (Q : A -> Prop) : Prop :=
  forall m,
    (exists d, trace (snd (c m)) = (trace m ++ d)%list /\ Forall P d)
    /\ (forall a, fst (c m) = Ok a -> Q a).



(** The summary record adds up. *)
Definition consistent (r : ExportReport) : Prop :=
  exported r + failed r + skipped r = total_files r
  /\ Py.len (files r) = exported r.

(** What the batch exporter may emit: no read of the scene graph, and only
    summary records that add up. *)
Definition batch_event (ev : event) : Prop :=
  match ev with
  | EvDumpJson _ r => consistent r
  | EvDataObjects => False
  | EvDataMaterials => False
  | _ => True
  end.

(** The events of the per-file loop: as [batch_event], and no record is
    written. *)
Definition loop_event (ev : event) : Prop :=
  match ev with
  | EvDumpJson _ _ => False
  | EvDataObjects => False
  | EvDataMaterials => False
  | _ => True
  end.


(** The tallies cover [n] files and list one output per exported file. *)
Definition balanced (n : Z) (results : batch_export.Results) : Prop :=
  batch_export.n_exported results + batch_export.n_failed results
    + batch_export.n_skipped results = n
  /\ Py.len (batch_export.out_files results) = batch_export.n_exported results.

Definition no_results : batch_export.Results :=
  {| batch_export.n_exported := 0; batch_export.n_failed := 0;
     batch_export.n_skipped := 0; batch_export.out_files := [] |}.

Definition map_outcome {A B} (f : A -> B) (o : outcome A) : outcome B :=
  match o with
  | Ok a => Ok (f a)
  | Raise e => Raise e
  end.

(** ** Reading the reports *)

(** [sum(f(a) for a in l)] *)
Definition sum_by {A} (f : A -> Z) (l : list A) : Z :=
  List.fold_right (fun a acc => f a + acc) 0 l.

Section Reading.
Import validate_models.

(** The distance of [s] from [1.0] is at most the tolerance, or it is not a
    number, as for a NaN component: such a component passes, since no
    comparison finds it off. *)
Definition axis_applied (s : float) : bool :=
  let distance := PrimFloat.abs (PrimFloat.sub s 1.0%float) in
  PrimFloat.leb distance 0.001%float || PrimFloat.is_nan distance.

Definition scale_applied (obj : bpy.Object) : bool :=
  List.forallb axis_applied (bpy.components (bpy.scale obj)).

Definition has_uv (mesh : bpy.Mesh) : bool :=
  match bpy.uv_layers mesh with
  | [] => false
  | _ => true
  end.

Definition has_ngon (mesh : bpy.Mesh) : bool :=
  List.existsb (fun p => Py.len (bpy.poly_vertices p) >? 4) (bpy.polygons mesh).

(** What [validate_file] wants of an object. *)
Definition object_passes (obj : bpy.Object) : bool :=
  match bpy.data obj with
  | bpy.MESH mesh => scale_applied obj && has_uv mesh
  | bpy.ARMATURE armature =>
      (0 <? Py.len (bpy.bones armature)) && (Py.len (bpy.bones armature) <=? 256)
  | bpy.OTHER _ => true
  end.

(** What [validate_model] of the batch exporter wants of an object. *)
Definition model_passes (obj : bpy.Object) : bool :=
  match bpy.data obj with
  | bpy.MESH mesh => negb (has_ngon mesh) && has_uv mesh && scale_applied obj
  | _ => true
  end.

(** What the "Validate Asset" operator wants of an object. *)
Definition asset_passes (obj : bpy.Object) : bool :=
  Py.startswith (bpy.name obj) "REF_"
  || match bpy.data obj with
     | bpy.MESH mesh =>
         scale_applied obj && has_uv mesh && (Py.len (bpy.vertices mesh) <=? 50000)
     | _ => true
     end.

(** The issues one object adds to the report of [validate_file]. *)
Definition object_issues (obj : bpy.Object) : list string :=
  match bpy.data obj with
  | bpy.MESH mesh =>
      (scale_issues (bpy.name obj)
         (Py.enumerate (List.combine (bpy.components (bpy.scale obj)) EXPECTED_SCALE))
       ++ match bpy.uv_layers mesh with
          | [] => [missing_uv_issue (bpy.name obj)]
          | _ => []
          end)%list
  | bpy.ARMATURE armature =>
      ((if Py.len (bpy.bones armature) >? MAX_BONES
        then [bone_limit_issue (bpy.name obj) (Py.len (bpy.bones armature))] else [])
       ++ (if Py.len (bpy.bones armature) =? 0
           then [no_bones_issue (bpy.name obj)] else []))%list
  | bpy.OTHER _ => []
  end.

(** The file-level issue of the "Overall checks". *)
Definition lod0_issue (total : Z) : string :=
  "Total vertices (" ++ Py.str_int total ++ ") exceeds LOD0 limit ("
    ++ Py.str_int MAX_VERTICES_LOD0 ++ ")".

(** The warning of the loose-vertex check. *)
Definition loose_warning (name : string) (loose : Z) : string :=
  "'" ++ name ++ "': " ++ Py.str_int loose ++ " loose vertices".

(** The warning of the n-gon check. *)
Definition ngons_warning (name : string) (ngons : Z) : string :=
  "'" ++ name ++ "': " ++ Py.str_int ngons ++ " ngons (triangulate for best UE5 results)".

Definition mesh_vertices (obj : bpy.Object) : Z :=
  match bpy.data obj with
  | bpy.MESH mesh => Py.len (bpy.vertices mesh)
  | _ => 0
  end.

Definition mesh_faces (obj : bpy.Object) : Z :=
  match bpy.data obj with
  | bpy.MESH mesh => Py.len (bpy.polygons mesh)
  | _ => 0
  end.

(** The per-object summaries, one per mesh object. *)
Definition mesh_summaries (objs : list bpy.Object) : list ObjectInfo :=
  List.flat_map
    (fun obj =>
       match bpy.data obj with
       | bpy.MESH mesh =>
           [ {| info_name := bpy.name obj;
                info_vertices := Py.len (bpy.vertices mesh);
                info_faces := Py.len (bpy.polygons mesh);
                info_edges := Py.len (bpy.edges mesh) |} ]
       | _ => []
       end)
    objs.

(** The validator's counter agrees with the reports it holds, each of which
    has its ["valid"] entry. *)
Definition coherent (self : ModelValidator) : Prop :=
  total_issues self = sum_by (fun r => Py.len (issues r)) (results self)
  /\ Forall (fun r => valid r = Some (Py.len (issues r) =? 0)) (results self).

End Reading.

(** The indices [0 .. n-1]. *)
Definition index_set (n : nat) : gset nat := list_to_set (List.seq 0 n).

(** The six lines [main] of the batch exporter prints first. *)
Definition batch_banner {W : Type} `{Host W} (w : W) : list event :=
  [ EvPrint batch_export.rule;
    EvPrint "Tower Game - Blender Batch Export";
    EvPrint ("Time: " ++ clock_isoformat w);
    EvPrint ("Models dir: " ++ PurePath.str batch_export.MODELS_DIR);
    EvPrint ("Export dir: " ++ PurePath.str batch_export.EXPORT_DIR);
    EvPrint batch_export.rule ].

(** What a validation run emits before its report: prints, loads and reads
    of the scene graph. *)
Definition validation_event (ev : event) : Prop :=
  match ev with
  | EvPrint _ => True
  | EvReadHomefile => True
  | EvOpenMainfile _ => True
  | EvDataObjects => True
  | EvDataMaterials => True
  | _ => False
  end.

Definition is_print (ev : event) : Prop :=
  match ev with
  | EvPrint _ => True
  | _ => False
  end.

(** The events of a run that writes at most one summary record, to
    [report_path], and only prints after it. *)
Definition one_report_last (report_path : Path) (d : list event) : Prop :=
  Forall loop_event d
  \/ exists pre r post,
       d = (pre ++ EvDumpJson report_path r :: post)%list
       /\ Forall loop_event pre /\ Forall is_print post.

(** * Properties *)

(** ** Strings *)

Lemma append_cons (c : ascii) (a b : string) : String c a ++ b = String c (a ++ b).
Proof. reflexivity. Qed.

Lemma append_nil_l (b : string) : EmptyString ++ b = b.
Proof. reflexivity. Qed.

Ltac unappend := rewrite ?append_cons, ?append_nil_l in *.

Lemma append_cancel_l (a b c : string) : a ++ b = a ++ c -> b = c.
Proof.
  induction a as [|ch a IH]; unappend; intros E; [exact E|].
  injection E as E. auto.
Qed.

Lemma append_assoc (a b c : string) : (a ++ b) ++ c = a ++ b ++ c.
Proof. induction a as [|ch a IH]; unappend; [reflexivity|]. now rewrite IH. Qed.

Lemma prefix_iff (k s : string) :
  String.prefix k s = true <-> exists b, s = k ++ b.
Proof.
  revert s. induction k as [|c k IH]; intros s.
  - split; [intros _; exists s; reflexivity|]. intros _. now destruct s.
  - destruct s as [|d s]; simpl.
    + split; [discriminate|]. intros [b Hb]. discriminate.
    + destruct (Ascii.ascii_dec c d) as [->|Hne].
      * rewrite IH. split; intros [b Hb]; exists b; unappend.
        -- now rewrite Hb.
        -- now injection Hb.
      * split; [discriminate|]. intros [b Hb]. unappend. injection Hb as Hc _.
        now elim Hne.
Qed.

(** [Py.contains] is Python's substring test. *)
Lemma contains_iff (k s : string) :
  Py.contains k s = true <-> exists a b, s = a ++ k ++ b.
Proof.
  induction s as [|c s IH]; cbn [Py.contains].
  - rewrite orb_false_r, prefix_iff. split.
    + intros [b Hb]. exists EmptyString, b. exact Hb.
    + intros [a [b Hab]]. destruct a; [|discriminate]. now exists b.
  - rewrite orb_true_iff, IH, prefix_iff. split.
    + intros [[b Hb]|[a [b Hab]]].
      * exists EmptyString, b. exact Hb.
      * exists (String c a), b. unappend. now rewrite Hab.
    + intros [a [b Hab]]. destruct a as [|d a]; unappend.
      * left. now exists b.
      * right. injection Hab as _ Hs. now exists a, b.
Qed.

(** ** get_category *)

Section Classifier.
Context {W : Type} `{Host W}.
Variable filepath : Path.


Lemma hit_iff key : keyword_hit filepath key = true <-> keyword_matches filepath key.
Proof.
  unfold keyword_hit, keyword_matches. rewrite orb_true_iff, !contains_iff. reflexivity.
Qed.

Lemma hit_false key : keyword_hit filepath key = false <-> ~ keyword_matches filepath key.
Proof. rewrite <- hit_iff. destruct (keyword_hit filepath key); split; congruence. Qed.

Lemma loop_first items : forall i key c,
  nth_error items i = Some (key, c) ->
  keyword_hit filepath key = true ->
  (forall j key' c', (j < i)%nat -> nth_error items j = Some (key', c') ->
                     keyword_hit filepath key' = false) ->
  get_category_loop items (str_lower (PurePath.stem filepath))
    (str_lower (PurePath.name (PurePath.parent filepath))) = c.
Proof.
  induction items as [|[k0 c0] rest IH]; intros i key c Hnth Hhit Hbefore.
  - destruct i; discriminate.
  - simpl. destruct i as [|i]; simpl in Hnth.
    + injection Hnth as -> ->. fold (keyword_hit filepath key). now rewrite Hhit.
    + fold (keyword_hit filepath k0). rewrite (Hbefore 0%nat k0 c0) by (simpl; auto; lia).
      apply (IH i key c Hnth Hhit). intros j key' c' Hj Hn.
      apply (Hbefore (S j) key' c'); [lia|exact Hn].
Qed.

Lemma loop_none items :
  (forall key c', In (key, c') items -> keyword_hit filepath key = false) ->
  get_category_loop items (str_lower (PurePath.stem filepath))
    (str_lower (PurePath.name (PurePath.parent filepath))) = "Misc".
Proof.
  induction items as [|[k0 c0] rest IH]; intros Hall; simpl; [reflexivity|].
  fold (keyword_hit filepath k0). rewrite (Hall k0 c0) by (left; reflexivity).
  apply IH. intros key c' Hin. apply (Hall key c'). now right.
Qed.

Lemma loop_result items :
  let c := get_category_loop items (str_lower (PurePath.stem filepath))
    (str_lower (PurePath.name (PurePath.parent filepath))) in
  (exists i key, nth_error items i = Some (key, c) /\ keyword_hit filepath key = true /\
     forall j key' c', (j < i)%nat -> nth_error items j = Some (key', c') ->
                       keyword_hit filepath key' = false) \/
  (c = "Misc" /\ forall key c', In (key, c') items -> keyword_hit filepath key = false).
Proof.
  induction items as [|[k0 c0] rest IH]; simpl.
  - right. split; [reflexivity|]. intros ? ? [].
  - fold (keyword_hit filepath k0). destruct (keyword_hit filepath k0) eqn:Hk.
    + left. exists 0%nat, k0. split; [reflexivity|]. split; [exact Hk|].
      intros j ? ? Hj. lia.
    + destruct IH as [[i [key [Hn [Hh Hb]]]]|[Hm Hall]].
      * left. exists (S i), key. split; [exact Hn|]. split; [exact Hh|].
        intros [|j] key' c' Hj Hnj; simpl in Hnj.
        -- now injection Hnj as -> _.
        -- apply (Hb j key' c'); [lia|exact Hnj].
      * right. split; [exact Hm|]. intros key c' [E|Hin].
        -- now injection E as <- _.
        -- now apply (Hall key c').
Qed.

End Classifier.

(** C4: on every host, that is whatever [str.lower] makes of a name,
    [get_category] returns the display name of the first entry of the ordered
    keyword table whose keyword is a substring of the lower-cased stem or of
    the lower-cased parent directory name, and ["Misc"] when no keyword
    matches; being a total function it returns on every path, and that
    description determines its result. *)
Theorem get_category_first_match (W : Type) (H : Host W) (filepath : Path) (c : string) :
  classify_spec filepath c <-> get_category filepath = c.
Proof.
  unfold classify_spec, get_category. split.
  - intros [[i [key [Hn [Hm Hb]]]]|[-> Hall]].
    + apply (loop_first filepath ASSET_CATEGORIES i key c Hn).
      * now apply hit_iff.
      * intros j key' c' Hj Hnj. apply hit_false. now apply (Hb j key' c').
    + apply loop_none. intros key c' Hin. apply hit_false. now apply (Hall key c').
  - intros <-.
    destruct (loop_result filepath ASSET_CATEGORIES) as [[i [key [Hn [Hh Hb]]]]|[Hm Hall]].
    + left. exists i, key. split; [exact Hn|]. split; [now apply hit_iff|].
      intros j key' c' Hj Hnj. apply hit_false. now apply (Hb j key' c').
    + right. split; [exact Hm|]. intros key c' Hin. apply hit_false.
      now apply (Hall key c').
Qed.

Example stem_blend : PurePath.stem ["models"; "weapons"; "sword_01.blend"] = "sword_01".
Proof. reflexivity. Qed.
Example stem_hidden : PurePath.stem ["models"; ".blend"] = ".blend".
Proof. reflexivity. Qed.
Example stem_two_dots : PurePath.stem ["a.tar.blend"] = "a.tar".
Proof. reflexivity. Qed.

(** The category of a path whose stem and parent directory are ASCII text,
    on any host. *)
Lemma get_category_ascii (W : Type) (H : Host W) (filepath : Path) :
  Py.isascii (PurePath.stem filepath) = true ->
  Py.isascii (PurePath.name (PurePath.parent filepath)) = true ->
  get_category filepath
  = get_category_loop ASSET_CATEGORIES (Py.lower_ascii (PurePath.stem filepath))
      (Py.lower_ascii (PurePath.name (PurePath.parent filepath))).
Proof.
  intros Hs Hp. unfold get_category. now rewrite !str_lower_ascii.
Qed.

Example category_parent (W : Type) (H : Host W) :
  get_category ["models"; "Weapons"; "sword_01.blend"] = "Weapons".
Proof. now rewrite get_category_ascii. Qed.
Example category_two_keywords (W : Type) (H : Host W) :
  get_category ["models"; "ui"; "Armor_Plate.blend"] = "Armor".
Proof. now rewrite get_category_ascii. Qed.
Example category_none (W : Type) (H : Host W) :
  get_category ["models"; "blob.blend"] = "Misc".
Proof. now rewrite get_category_ascii. Qed.

(** A name outside ASCII goes by what [str.lower] makes of it. The stem
    [U] followed by U+0130, capital I with a dot above, has the lower case
    [u], [i], U+0307 (a combining dot), in which the keyword [ui] occurs: on a
    host that lowers it so, the file is a UI asset. *)
Example category_follows_str_lower (W : Type) (H : Host W) :
  let dotted_I := String (ascii_of_nat 196) (String (ascii_of_nat 176) EmptyString) in
  let dot_above := String (ascii_of_nat 204) (String (ascii_of_nat 135) EmptyString) in
  str_lower ("U" ++ dotted_I) = "ui" ++ dot_above ->
  get_category ["models"; "x"; ("U" ++ dotted_I ++ ".blend")%string] = "UI".
Proof.
  intros dotted_I dot_above Hlower. unfold get_category.
  change (PurePath.stem ["models"; "x"; ("U" ++ dotted_I ++ ".blend")%string])
    with ("U" ++ dotted_I).
  rewrite Hlower.
  change (PurePath.name (PurePath.parent ["models"; "x"; ("U" ++ dotted_I ++ ".blend")%string]))
    with "x".
  rewrite (str_lower_ascii "x") by reflexivity.
  reflexivity.
Qed.

(** ** validate_models.py: the report under the walk *)

Import validate_models.

Lemma str_int_head (n : Z) :
  exists c rest, Py.str_int n = String c rest /\ c <> "A"%char.
Proof.
  unfold Py.str_int. destruct n as [|p|p]; simpl.
  - eexists _, _. split; [reflexivity|discriminate].
  - pose proof (DecimalPos.Unsigned.to_uint_nonnil p) as Hnil.
    destruct (Pos.to_uint p); simpl;
      solve [ now elim Hnil | eexists _, _; split; [reflexivity|discriminate] ].
  - eexists _, _. split; [reflexivity|discriminate].
Qed.

Lemma check_scale_frame name items : forall r,
  issues (check_scale name items r) = (issues r ++ scale_issues name items)%list /\
  warnings (check_scale name items r) = warnings r /\
  stats (check_scale name items r) = stats r /\
  valid (check_scale name items r) = valid r /\
  objects (check_scale name items r) = objects r.
Proof.
  induction items as [|[i [s e]] rest IH]; intros r; simpl.
  - now rewrite app_nil_r.
  - destruct (IH (if scale_off s e
                  then append_issue (scale_issue name i s) r else r))
      as (Hi & Hw & Hs & Hv & Ho).
    rewrite Hi, Hw, Hs, Hv, Ho.
    destruct (scale_off s e); simpl; rewrite <- ?app_assoc; auto.
Qed.

(** The issues [_validate_mesh] appends: those of the scale loop, then the
    one of the UV check. *)
Lemma validate_mesh_issues obj mesh r :
  issues (_validate_mesh obj mesh r) =
  (issues r
   ++ scale_issues (bpy.name obj)
        (Py.enumerate (List.combine (bpy.components (bpy.scale obj)) EXPECTED_SCALE))
   ++ match bpy.uv_layers mesh with
      | [] => [missing_uv_issue (bpy.name obj)]
      | _ => []
      end)%list.
Proof.
  unfold _validate_mesh.
  match goal with
  | |- context [check_scale ?n ?it ?r0] =>
      destruct (check_scale_frame n it r0) as (Hi & _);
      cbn [issues append_object set_stats] in Hi;
      generalize dependent (check_scale n it r0)
  end.
  intros r1 Hi.
  repeat match goal with
         | |- context [if ?b then _ else _] => destruct b
         end;
    destruct (bpy.uv_layers mesh);
    cbn [issues append_warning append_issue]; rewrite Hi;
    rewrite <- ?app_assoc, ?app_nil_r; reflexivity.
Qed.

Lemma issues_added_app r r' added :
  issues r' = (issues r ++ added)%list -> issues_added r r' = added.
Proof. unfold issues_added. intros ->. apply drop_app_length. Qed.

Lemma warnings_added_app r r' added :
  warnings r' = (warnings r ++ added)%list -> warnings_added r r' = added.
Proof. unfold warnings_added. intros ->. apply drop_app_length. Qed.

Lemma scale_issue_axis name i j s s' :
  (i < 3)%nat -> (j < 3)%nat ->
  scale_issue name i s = scale_issue name j s' -> i = j.
Proof.
  unfold scale_issue. intros Hi Hj E. unappend. injection E as E.
  apply append_cancel_l in E.
  destruct i as [|[|[|i]]]; [| | |lia];
    (destruct j as [|[|[|j]]]; [| | |lia]);
    cbn [String.substring] in E; unappend; try reflexivity; discriminate E.
Qed.

Lemma scale_issue_not_uv name i s : scale_issue name i s <> missing_uv_issue name.
Proof.
  unfold scale_issue, missing_uv_issue. intros E. unappend. injection E as E.
  apply append_cancel_l in E. unappend. discriminate E.
Qed.

Lemma in_scale_issues name items m :
  In m (scale_issues name items) <->
  exists i s e, In (i, (s, e)) items /\ scale_off s e = true /\ m = scale_issue name i s.
Proof.
  unfold scale_issues. rewrite in_flat_map. split.
  - intros [[i [s e]] [Hin Hm]]. exists i, s, e.
    destruct (scale_off s e); [|destruct Hm].
    destruct Hm as [<-|[]]. auto.
  - intros (i & s & e & Hin & Hoff & ->). exists (i, (s, e)).
    split; [exact Hin|]. rewrite Hoff. now left.
Qed.

(** The loop visits axis [i] with the [i]-th component and expects [1.0]. *)
Lemma in_scale_items v i s e :
  In (i, (s, e)) (Py.enumerate (List.combine (bpy.components v) EXPECTED_SCALE)) <->
  nth_error (bpy.components v) i = Some s /\ e = 1.0%float.
Proof.
  destruct v as [vx vy vz]. cbn. split.
  - intros [E|[E|[E|[]]]]; injection E as <- <- <-; auto.
  - intros [Hn ->]. destruct i as [|[|[|i]]]; cbn in Hn.
    + injection Hn as <-. auto.
    + injection Hn as <-. auto.
    + injection Hn as <-. auto.
    + destruct i; discriminate.
Qed.

Lemma scale_items_bound v i s e :
  In (i, (s, e)) (Py.enumerate (List.combine (bpy.components v) EXPECTED_SCALE)) ->
  (i < 3)%nat.
Proof.
  rewrite in_scale_items. intros [Hn _].
  assert (Hlt : (i < List.length (bpy.components v))%nat)
    by (apply nth_error_Some; congruence).
  destruct v; cbn in Hlt. lia.
Qed.

(** C5: for every mesh object and each of its three scale axes, the
    validator appends the scale issue of that axis if and only if
    [abs(s - 1.0) > 0.001] in double arithmetic; a component of 1.0009 gives
    no issue and one of 1.0011 gives the issue of its axis. *)
Theorem scale_issue_iff_off_tolerance :
  (forall (obj : bpy.Object) (mesh : bpy.Mesh) (report : Report) (i : nat) (s : float),
      nth_error (bpy.components (bpy.scale obj)) i = Some s ->
      In (scale_issue (bpy.name obj) i s)
         (issues_added report (_validate_mesh obj mesh report))
      <-> PrimFloat.ltb 0.001%float (PrimFloat.abs (PrimFloat.sub s 1.0%float)) = true)
  /\ (forall report,
        issues_added report
          (_validate_mesh
             (Sim.mesh_object "SM_Crate"
                {| bpy.x := 1.0009%float; bpy.y := 1.0%float; bpy.z := 1.0%float |}
                ["UVMap"])
             (Sim.quad ["UVMap"]) report) = [])
  /\ (forall report,
        issues_added report
          (_validate_mesh
             (Sim.mesh_object "SM_Crate"
                {| bpy.x := 1.0%float; bpy.y := 1.0011%float; bpy.z := 1.0%float |}
                ["UVMap"])
             (Sim.quad ["UVMap"]) report)
        = ["'SM_Crate': Scale Y=1.001 (expected 1.0). Apply scale with Ctrl+A"]).
Proof.
  split; [|split].
  - intros obj mesh report i s Hnth.
    rewrite (issues_added_app _ _ _ (validate_mesh_issues obj mesh report)).
    change (PrimFloat.ltb 0.001%float (PrimFloat.abs (PrimFloat.sub s 1.0%float)))
      with (scale_off s 1.0%float).
    rewrite in_app_iff, in_scale_issues. split.
    + intros [(j & s' & e & Hin & Hoff & E)|Huv].
      * pose proof (scale_items_bound _ _ _ _ Hin) as Hj.
        assert (Hi : (i < 3)%nat).
        { assert (Hlt : (i < List.length (bpy.components (bpy.scale obj)))%nat)
            by (apply nth_error_Some; congruence).
          destruct (bpy.scale obj); cbn in Hlt. lia. }
        apply scale_issue_axis in E; [|exact Hi|exact Hj]. subst j.
        apply in_scale_items in Hin. destruct Hin as [Hn ->].
        rewrite Hnth in Hn. now injection Hn as ->.
      * destruct (bpy.uv_layers mesh); [|destruct Huv].
        destruct Huv as [E|[]]. symmetry in E. now apply scale_issue_not_uv in E.
    + intros Hoff. left. exists i, s, 1.0%float.
      split; [|split; [exact Hoff|reflexivity]].
      apply in_scale_items. auto.
  - intros report. apply issues_added_app. rewrite validate_mesh_issues.
    f_equal.
  - intros report. apply issues_added_app. rewrite validate_mesh_issues.
    f_equal.
Qed.

Lemma validate_mesh_uv_warning obj mesh r :
  Py.len (bpy.uv_layers mesh) > 2 ->
  In (uv_count_warning (bpy.name obj) (Py.len (bpy.uv_layers mesh)))
     (warnings_added r (_validate_mesh obj mesh r)).
Proof.
  intros Hlen. unfold warnings_added, _validate_mesh.
  match goal with
  | |- context [check_scale ?n ?it ?r0] =>
      destruct (check_scale_frame n it r0) as (_ & Hw & _);
      cbn [warnings append_object set_stats] in Hw;
      generalize dependent (check_scale n it r0)
  end.
  intros r1 Hw.
  destruct (bpy.uv_layers mesh) as [|uv uvs] eqn:Huv; [discriminate Hlen|].
  destruct (Py.len (uv :: uvs) >? 2) eqn:Hgt;
    [|rewrite Z.gtb_ltb in Hgt; apply Z.ltb_ge in Hgt; lia].
  repeat match goal with
         | |- context [if ?b then _ else _] => destruct b
         end;
    cbn [warnings append_warning append_issue]; rewrite Hw;
    rewrite <- ?app_assoc; rewrite drop_app_length;
    rewrite ?in_app_iff; cbn [In]; tauto.
Qed.

(** C7: a mesh with no UV layer always gets the missing-UV issue, whatever
    else holds of it; a mesh with more than two UV layers gets the UV-count
    warning and no issue from the UV check, the issues it gets being those of
    the scale loop alone. *)
Theorem uv_check_issue_or_warning (obj : bpy.Object) (mesh : bpy.Mesh) (report : Report) :
  (bpy.uv_layers mesh = [] ->
   In (missing_uv_issue (bpy.name obj))
      (issues_added report (_validate_mesh obj mesh report)))
  /\ (Py.len (bpy.uv_layers mesh) > 2 ->
      In (uv_count_warning (bpy.name obj) (Py.len (bpy.uv_layers mesh)))
         (warnings_added report (_validate_mesh obj mesh report))
      /\ ~ In (missing_uv_issue (bpy.name obj))
              (issues_added report (_validate_mesh obj mesh report))
      /\ issues_added report (_validate_mesh obj mesh report)
         = scale_issues (bpy.name obj)
             (Py.enumerate (List.combine (bpy.components (bpy.scale obj)) EXPECTED_SCALE))).
Proof.
  rewrite (issues_added_app _ _ _ (validate_mesh_issues obj mesh report)).
  split.
  - intros ->. rewrite in_app_iff. right. now left.
  - intros Hlen. split; [now apply validate_mesh_uv_warning|].
    destruct (bpy.uv_layers mesh) as [|uv uvs]; [discriminate Hlen|].
    rewrite app_nil_r. split; [|reflexivity].
    rewrite in_scale_issues. intros (i & s & e & _ & _ & E).
    symmetry in E. now apply scale_issue_not_uv in E.
Qed.

(** A quad without UV layer, and one with three. *)
Lemma uv_check_issue_or_warning_witness :
  In "'SM_Crate': Missing UV map (required for UE5)"
     (issues_added (new_report ["models"; "props"; "crate.blend"])
        (_validate_mesh (Sim.mesh_object "SM_Crate" Sim.unit_vec []) (Sim.quad [])
           (new_report ["models"; "props"; "crate.blend"])))
  /\ In "'SM_Crate': 3 UV maps (UE5 typically uses 1-2)"
        (warnings_added (new_report ["models"; "props"; "crate.blend"])
           (_validate_mesh (Sim.mesh_object "SM_Crate" Sim.unit_vec ["a"; "b"; "c"])
              (Sim.quad ["a"; "b"; "c"])
              (new_report ["models"; "props"; "crate.blend"]))).
Proof.
  split.
  - apply (proj1 (uv_check_issue_or_warning
                    (Sim.mesh_object "SM_Crate" Sim.unit_vec []) (Sim.quad [])
                    (new_report ["models"; "props"; "crate.blend"]))).
    reflexivity.
  - apply (proj2 (uv_check_issue_or_warning
                    (Sim.mesh_object "SM_Crate" Sim.unit_vec ["a"; "b"; "c"])
                    (Sim.quad ["a"; "b"; "c"])
                    (new_report ["models"; "props"; "crate.blend"]))).
    reflexivity.
Defined.

(** A crate stretched to 2.5 along Z. *)
Lemma scale_issue_iff_off_tolerance_witness :
  In "'SM_Crate': Scale Z=2.500 (expected 1.0). Apply scale with Ctrl+A"
     (issues_added (new_report ["models"; "props"; "crate.blend"])
        (_validate_mesh
           (Sim.mesh_object "SM_Crate"
              {| bpy.x := 1.0%float; bpy.y := 1.0%float; bpy.z := 2.5%float |} ["UVMap"])
           (Sim.quad ["UVMap"])
           (new_report ["models"; "props"; "crate.blend"]))).
Proof.
  apply (proj1 scale_issue_iff_off_tolerance
           (Sim.mesh_object "SM_Crate"
              {| bpy.x := 1.0%float; bpy.y := 1.0%float; bpy.z := 2.5%float |} ["UVMap"])
           (Sim.quad ["UVMap"])
           (new_report ["models"; "props"; "crate.blend"]) 2%nat 2.5%float).
  - reflexivity.
  - reflexivity.
Defined.

Lemma validate_armature_issues obj armature r :
  issues (_validate_armature obj armature r) =
  (issues r
   ++ (if Py.len (bpy.bones armature) >? MAX_BONES
       then [bone_limit_issue (bpy.name obj) (Py.len (bpy.bones armature))] else [])
   ++ (if Py.len (bpy.bones armature) =? 0
       then [no_bones_issue (bpy.name obj)] else []))%list.
Proof.
  unfold _validate_armature.
  repeat match goal with
         | |- context [if ?b then _ else _] => destruct b
         end;
    cbn [issues append_warning append_issue set_stats];
    rewrite <- ?app_assoc, ?app_nil_r; reflexivity.
Qed.

Lemma bone_limit_not_no_bones name n : bone_limit_issue name n <> no_bones_issue name.
Proof.
  unfold bone_limit_issue, no_bones_issue. intros E. unappend. injection E as E.
  apply append_cancel_l in E. unappend. injection E as E.
  destruct (str_int_head n) as (c & rest & Hs & Hc). rewrite Hs in E.
  unappend. injection E as E _. now elim Hc.
Qed.

(** C6: for every armature object, the validator appends the bone-ceiling
    issue, naming the object and its bone count, if and only if the count is
    strictly above 256, and the no-bones issue if and only if the count is
    zero; 256 bones give no issue and 257 give the issue naming 257. *)
Theorem armature_bone_issues :
  (forall (obj : bpy.Object) (armature : bpy.Armature) (report : Report),
      (In (bone_limit_issue (bpy.name obj) (Py.len (bpy.bones armature)))
          (issues_added report (_validate_armature obj armature report))
       <-> Py.len (bpy.bones armature) > 256)
      /\ (In (no_bones_issue (bpy.name obj))
             (issues_added report (_validate_armature obj armature report))
          <-> Py.len (bpy.bones armature) = 0))
  /\ (forall report,
        issues_added report (visit_object report (Sim.rig "SK_Hero" 256)) = [])
  /\ (forall report,
        issues_added report (visit_object report (Sim.rig "SK_Hero" 257))
        = ["'SK_Hero': 257 bones exceeds UE5 limit (256)"])
  /\ (forall report,
        issues_added report (visit_object report (Sim.rig "SK_Hero" 0))
        = ["'SK_Hero': Armature has no bones"]).
Proof.
  split; [|repeat split].
  - intros obj armature report.
    rewrite (issues_added_app _ _ _ (validate_armature_issues obj armature report)).
    unfold MAX_BONES. set (n := Py.len (bpy.bones armature)).
    destruct (n >? 256) eqn:Hgt; destruct (n =? 0) eqn:Hz;
      rewrite Z.gtb_ltb in Hgt;
      first [apply Z.ltb_lt in Hgt | apply Z.ltb_ge in Hgt];
      first [apply Z.eqb_eq in Hz | apply Z.eqb_neq in Hz];
      cbn [List.app In]; split; split; try tauto; try lia.
    + intros [E|[]]. now apply bone_limit_not_no_bones in E.
    + intros [E|[]]. symmetry in E. now apply bone_limit_not_no_bones in E.
  - intros report. apply issues_added_app.
    change (visit_object report (Sim.rig "SK_Hero" 256))
      with (_validate_armature (Sim.rig "SK_Hero" 256)
              {| bpy.bones := {| bpy.bone_name := "root"; bpy.parent := None |}
                   :: List.repeat {| bpy.bone_name := "bone"; bpy.parent := Some 0%nat |} 255 |}
              report).
    rewrite validate_armature_issues. f_equal.
  - intros report. apply issues_added_app.
    change (visit_object report (Sim.rig "SK_Hero" 257))
      with (_validate_armature (Sim.rig "SK_Hero" 257)
              {| bpy.bones := {| bpy.bone_name := "root"; bpy.parent := None |}
                   :: List.repeat {| bpy.bone_name := "bone"; bpy.parent := Some 0%nat |} 256 |}
              report).
    rewrite validate_armature_issues. f_equal.
  - intros report. apply issues_added_app.
    change (visit_object report (Sim.rig "SK_Hero" 0))
      with (_validate_armature (Sim.rig "SK_Hero" 0) {| bpy.bones := [] |} report).
    rewrite validate_armature_issues. f_equal.
Qed.

(** ** validate_file *)

Lemma fold_visit_object_valid objs : forall r,
  valid (List.fold_left visit_object objs r) = valid r.
Proof.
  induction objs as [|obj objs IH]; intros r; [reflexivity|].
  cbn [List.fold_left]. rewrite IH. unfold visit_object.
  destruct (bpy.data obj) as [mesh|armature|ty]; [| |reflexivity].
  - unfold _validate_mesh.
    match goal with
    | |- context [check_scale ?n ?it ?r0] =>
        destruct (check_scale_frame n it r0) as (_ & _ & _ & Hv & _);
        cbn [valid append_object set_stats] in Hv;
        generalize dependent (check_scale n it r0)
    end.
    intros r1 Hv.
    repeat match goal with
           | |- context [if ?b then _ else _] => destruct b
           end;
      destruct (bpy.uv_layers mesh); cbn [valid append_warning append_issue];
      exact Hv.
  - unfold _validate_armature.
    repeat match goal with
           | |- context [if ?b then _ else _] => destruct b
           end; reflexivity.
Qed.

Lemma fold_visit_material_valid mats : forall r,
  valid (List.fold_left visit_material mats r) = valid r.
Proof.
  induction mats as [|mat mats IH]; intros r; [reflexivity|].
  cbn [List.fold_left]. rewrite IH. unfold visit_material.
  destruct (negb (bpy.use_nodes mat)); reflexivity.
Qed.

(** The dict [inspect] hands back is the walked one, in which ["valid"] is
    still unset, with ["valid"] set from the length of its issue list. *)
Lemma inspect_sets_valid_last filepath objs mats :
  exists walked,
    valid walked = None /\
    inspect filepath objs mats = set_valid (Py.len (issues walked) =? 0) walked.
Proof.
  unfold inspect. eexists. split; [|reflexivity].
  unfold overall_checks.
  match goal with |- context [if ?b then _ else _] => destruct b end;
    cbn [valid append_issue];
    now rewrite fold_visit_material_valid, fold_visit_object_valid.
Qed.

Lemma len_zero_iff {A} (l : list A) : (Py.len l =? 0) = true <-> l = [].
Proof.
  unfold Py.len. rewrite Z.eqb_eq. destruct l; cbn [List.length]; split;
    try reflexivity; try discriminate; lia.
Qed.

Lemma inspect_valid filepath objs mats :
  valid (inspect filepath objs mats)
  = Some (Py.len (issues (inspect filepath objs mats)) =? 0).
Proof. reflexivity. Qed.

Section ValidateFile.
Context {W : Type} `{Host W}.

(** A run of [validate_file] that returns has loaded the file and hands
    back [inspect] of the scene the world then holds. *)
Lemma validate_file_returns self filepath (m m' : machine W) self' report :
  validate_file self filepath m = (Ok (self', report), m') ->
  report = inspect filepath (bpy.objects (bpy_data (world m')))
             (bpy.materials (bpy_data (world m')))
  /\ self' = {| results := (results self ++ [report])%list;
                total_issues := total_issues self + Py.len (issues report) |}.
Proof.
  unfold validate_file, bind, read_homefile, open_mainfile, call,
    data_objects, data_materials, ret, log.
  destruct (bpy_read_homefile (world m)) as [[[]|e] w1]; [|discriminate].
  cbn [world trace].
  destruct (bpy_open_mainfile (PurePath.str filepath) w1) as [[[]|e] w2];
    [|discriminate].
  cbn [world trace]. intros E. injection E as <- <- <-. cbn [world]. auto.
Qed.

End ValidateFile.

Lemma validate_model_valid {W : Type} `{Host W} float_repr filepath
    (m m' : machine W) check :
  batch_export.validate_model float_repr filepath m = (Ok check, m') ->
  batch_export.valid check = (Py.len (batch_export.issues check) =? 0).
Proof.
  unfold batch_export.validate_model, bind, data_objects, ret.
  destruct (List.fold_left _ _ _) as [st iss].
  intros E. injection E as <- _. reflexivity.
Qed.

(** C1: the ["valid"] entry of the report [validate_file] returns says
    exactly that the issue list is empty. It is set last, on the walked dict
    in which it was still absent, from the issue list alone: the warning
    list plays no part, so a report with warnings and no issue is valid. The
    dict [validate_model] of the batch exporter returns has the same flag. *)
Theorem valid_iff_issue_list_empty :
  (forall (W : Type) (H : Host W) (self : ModelValidator) (filepath : Path)
          (m m' : machine W) (self' : ModelValidator) (report : Report),
      validate_file self filepath m = (Ok (self', report), m') ->
      (valid report = Some true <-> issues report = [])
      /\ (valid report = Some false <-> issues report <> [])
      /\ (issues report = [] -> warnings report <> [] -> valid report = Some true)
      /\ exists walked,
           valid walked = None
           /\ report = set_valid (Py.len (issues walked) =? 0) walked)
  /\ (forall (W : Type) (H : Host W) (float_repr : float -> string) (filepath : Path)
             (m m' : machine W) (check : batch_export.ModelCheck),
        batch_export.validate_model float_repr filepath m = (Ok check, m') ->
        (batch_export.valid check = true <-> batch_export.issues check = [])).
Proof.
  split.
  - intros W H self filepath m m' self' report Hrun.
    apply validate_file_returns in Hrun. destruct Hrun as [-> _].
    set (objs := bpy.objects _). set (mats := bpy.materials _).
    rewrite inspect_valid.
    pose proof (len_zero_iff (issues (inspect filepath objs mats))) as Hz.
    destruct (Py.len (issues (inspect filepath objs mats)) =? 0).
    + assert (Hnil : issues (inspect filepath objs mats) = []) by now apply Hz.
      split; [split; [intros _; exact Hnil|reflexivity]|].
      split; [split; [discriminate|intros Hne; now elim Hne]|].
      split; [intros _ _; reflexivity|apply inspect_sets_valid_last].
    + assert (Hne : issues (inspect filepath objs mats) <> []).
      { intros E. apply Hz in E. discriminate. }
      split; [split; [discriminate|intros E; now elim Hne]|].
      split; [split; [intros _; exact Hne|reflexivity]|].
      split; [intros E; now elim Hne|apply inspect_sets_valid_last].
  - intros W H float_repr filepath m m' check Hrun.
    rewrite (validate_model_valid _ _ _ _ _ Hrun). apply len_zero_iff.
Qed.

(** The scene with one material without nodes: a warning, and valid. *)
Lemma valid_iff_issue_list_empty_witness :
  exists self' report m',
    validate_file __init__ Sim.blob_blend (Sim.boot Sim.fresh) = (Ok (self', report), m')
    /\ warnings report = ["Material 'Flat': not using nodes"]
    /\ valid report = Some true.
Proof.
  eexists _, _, _. split; [reflexivity|]. split; [reflexivity|].
  refine (proj2 (proj1 (proj1 valid_iff_issue_list_empty _ _ __init__ Sim.blob_blend
                          (Sim.boot Sim.fresh) _ _ _ _)) _); reflexivity.
Defined.

(** ** A scene without meshes and armatures *)

Lemma fold_visit_object_other objs : forall r,
  (forall obj, In obj objs -> is_mesh obj = false /\ is_armature obj = false) ->
  List.fold_left visit_object objs r = r.
Proof.
  induction objs as [|obj objs IH]; intros r Hall; [reflexivity|].
  cbn [List.fold_left].
  destruct (Hall obj (or_introl eq_refl)) as [Hm Ha].
  unfold visit_object, is_mesh, is_armature in *.
  destruct (bpy.data obj); try discriminate.
  apply IH. intros o Ho. apply Hall. now right.
Qed.

Lemma fold_visit_material_frame mats : forall r,
  let r' := List.fold_left visit_material mats r in
  issues r' = issues r /\ objects r' = objects r
  /\ warnings r' = (warnings r ++ material_warnings mats)%list
  /\ total_vertices (stats r') = total_vertices (stats r)
  /\ total_faces (stats r') = total_faces (stats r)
  /\ mesh_objects (stats r') = mesh_objects (stats r)
  /\ armatures (stats r') = armatures (stats r)
  /\ materials (stats r') = materials (stats r) + Py.len mats.
Proof.
  induction mats as [|mat mats IH]; intros r.
  - unfold Py.len. cbn. rewrite app_nil_r. repeat split; try reflexivity; lia.
  - cbv zeta in *. cbn [List.fold_left].
    destruct (IH (visit_material r mat)) as (Hi & Ho & Hw & Hv & Hf & Hm & Ha & Hn).
    rewrite Hi, Ho, Hw, Hv, Hf, Hm, Ha, Hn.
    unfold visit_material, material_warnings, Py.len.
    cbn [List.flat_map List.length].
    destruct (negb (bpy.use_nodes mat));
      cbn [issues objects warnings stats append_warning set_stats
           total_vertices total_faces mesh_objects armatures materials];
      rewrite <- ?app_assoc; repeat split; try reflexivity; lia.
Qed.

(** C8, as stated, fails: a scene holding one empty and one material that
    does not use nodes has no mesh and no armature, and yet its report
    carries a warning and counts one material. *)
Lemma scene_without_meshes_counterexample :
  let scene := Sim.blob_scene in
  let report := inspect Sim.blob_blend (bpy.objects scene) (bpy.materials scene) in
  (forall obj, In obj (bpy.objects scene) -> is_mesh obj = false /\ is_armature obj = false)
  /\ validate_file __init__ Sim.blob_blend (Sim.boot Sim.fresh)
     = (Ok ({| results := [report]; total_issues := 0 |}, report),
        snd (validate_file __init__ Sim.blob_blend (Sim.boot Sim.fresh)))
  /\ warnings report = ["Material 'Flat': not using nodes"]
  /\ materials (stats report) = 1
  /\ ~ (issues report = [] /\ warnings report = []
        /\ stats report = {| total_vertices := 0; total_faces := 0; mesh_objects := 0;
                             armatures := 0; materials := 0 |}
        /\ valid report = Some true).
Proof.
  cbv zeta. split; [|split; [|split; [|split]]].
  - intros obj [<-|[]]. split; reflexivity.
  - reflexivity.
  - reflexivity.
  - reflexivity.
  - intros (_ & Hw & _). discriminate Hw.
Qed.

(** C8, amended: for every scene without mesh and armature objects, the
    report [validate_file] returns has no issue, is valid, lists no object
    and counts zero vertices, faces, mesh objects and armatures; its material
    count is the number of materials of the scene and its warnings are those
    of the materials that do not use nodes. With no material either, the
    warning list is empty and every statistic is zero. *)
Theorem scene_without_meshes_report (W : Type) (H : Host W)
    (self : ModelValidator) (filepath : Path) (m m' : machine W)
    (self' : ModelValidator) (report : Report) :
  validate_file self filepath m = (Ok (self', report), m') ->
  (forall obj, In obj (bpy.objects (bpy_data (world m'))) ->
               is_mesh obj = false /\ is_armature obj = false) ->
  issues report = []
  /\ valid report = Some true
  /\ objects report = []
  /\ total_vertices (stats report) = 0
  /\ total_faces (stats report) = 0
  /\ mesh_objects (stats report) = 0
  /\ armatures (stats report) = 0
  /\ materials (stats report) = Py.len (bpy.materials (bpy_data (world m')))
  /\ warnings report = material_warnings (bpy.materials (bpy_data (world m')))
  /\ (bpy.materials (bpy_data (world m')) = [] ->
      warnings report = []
      /\ stats report = {| total_vertices := 0; total_faces := 0; mesh_objects := 0;
                           armatures := 0; materials := 0 |}).
Proof.
  intros Hrun Hnone. apply validate_file_returns in Hrun. destruct Hrun as [-> _].
  unfold inspect. rewrite (fold_visit_object_other _ _ Hnone).
  destruct (fold_visit_material_frame (bpy.materials (bpy_data (world m')))
              (new_report filepath)) as (Hi & Ho & Hw & Hv & Hf & Hm & Ha & Hn).
  cbv zeta in *.
  cbn [new_report issues objects warnings stats total_vertices
       total_faces mesh_objects armatures materials List.app] in *.
  remember (List.fold_left visit_material (bpy.materials (bpy_data (world m')))
              (new_report filepath)) as r1 eqn:Hr1.
  unfold overall_checks. rewrite Hv.
  change (0 >? MAX_VERTICES_LOD0) with false. cbv iota.
  cbn [set_valid issues valid objects stats warnings].
  rewrite Hi.
  do 9 (split; [first [reflexivity | assumption | lia]|]).
  intros E. rewrite E in *. split; [exact Hw|].
  destruct (stats r1) as [tv tf mo ar ma]. cbn in *. subst. reflexivity.
Qed.

(** The same scene: an empty, no mesh, no armature. *)
Lemma scene_without_meshes_report_witness :
  exists self' report m',
    validate_file __init__ Sim.blob_blend (Sim.boot Sim.fresh) = (Ok (self', report), m')
    /\ issues report = [] /\ valid report = Some true.
Proof.
  eexists _, _, _. split; [reflexivity|].
  refine ((fun H => conj (proj1 H) (proj1 (proj2 H)))
            (scene_without_meshes_report _ _ __init__ Sim.blob_blend
               (Sim.boot Sim.fresh) _ _ _ _ _)).
  - reflexivity.
  - intros obj [<-|[]]. split; reflexivity.
Defined.

(** ** The monad *)

Section Runs.
Context {W : Type}.

Lemma emits_ret {A} (a : A) (P : event -> Prop) (Q : A -> Prop) :
  Q a -> emits (W := W) (ret a) P Q.
Proof.
  intros Ha m. cbn. split.
  - exists []. rewrite app_nil_r. auto.
  - intros a' E. now injection E as <-.
Qed.

Lemma emits_bind {A B} (c : M W A) (k : A -> M W B) P Q R :
  emits c P Q -> (forall a, Q a -> emits (k a) P R) -> emits (bind c k) P R.
Proof.
  intros Hc Hk m. unfold bind.
  destruct (Hc m) as [(d & Ht & Hd) Hq].
  destruct (c m) as [[a|e] m1]; cbn [fst snd] in *.
  - destruct (Hk a (Hq a eq_refl) m1) as [(d' & Ht' & Hd') Hr]. split; [|exact Hr].
    exists (d ++ d')%list. rewrite Ht', Ht, app_assoc. split; [reflexivity|].
    apply Forall_app. auto.
  - split; [exists d; auto|]. intros a E. discriminate.
Qed.

Lemma emits_try_except {A} (body : M W A) (handler : exn -> M W A) P Q :
  emits body P Q -> (forall e, emits (handler e) P Q) ->
  emits (try_except body handler) P Q.
Proof.
  intros Hb Hh m. unfold try_except.
  destruct (Hb m) as [(d & Ht & Hd) Hq].
  destruct (body m) as [[a|e] m1]; cbn [fst snd] in *.
  - split; [exists d; auto|exact Hq].
  - destruct (Hh e m1) as [(d' & Ht' & Hd') Hr]. split; [|exact Hr].
    exists (d ++ d')%list. rewrite Ht', Ht, app_assoc. split; [reflexivity|].
    apply Forall_app. auto.
Qed.

Lemma emits_call {A} (ev : event) (op : W -> outcome A * W) (P : event -> Prop) :
  P ev -> emits (call ev op) P (fun _ => True).
Proof.
  intros Hev m. unfold call. destruct (op (world m)) as [r w']. cbn. split; [|auto].
  exists [ev]. auto.
Qed.

Lemma emits_ask {A} (f : W -> A) (P : event -> Prop) :
  emits (ask f) P (fun _ => True).
Proof.
  intros m. cbn. split; [|auto]. exists []. rewrite app_nil_r. auto.
Qed.

Lemma emits_print (line : string) (P : event -> Prop) :
  P (EvPrint line) -> emits (W := W) (print line) P (fun _ => True).
Proof.
  intros Hev m. cbn. split; [|auto]. exists [EvPrint line]. auto.
Qed.

Lemma emits_weaken {A} (c : M W A) (P P' : event -> Prop) (Q Q' : A -> Prop) :
  (forall ev, P ev -> P' ev) -> (forall a, Q a -> Q' a) ->
  emits c P Q -> emits c P' Q'.
Proof.
  intros HP HQ Hc m. destruct (Hc m) as [(d & Ht & Hd) Hq]. split.
  - exists d. split; [exact Ht|]. eapply Forall_impl; [exact Hd|exact HP].
  - intros a E. auto.
Qed.

Lemma emits_added {A} (c : M W A) P Q (m : machine W) :
  emits c P Q -> Forall P (events_added m (snd (c m))).
Proof.
  intros Hc. destruct (Hc m) as [(d & Ht & Hd) _].
  unfold events_added. rewrite Ht, drop_app_length. exact Hd.
Qed.

(** *** Runs do not read the trace *)







End Runs.

(** ** batch_export.py *)

Section Batch.
Context {W : Type} `{Host W}.

Import batch_export.

Lemma up_to_date_run (blend_path export_path : Path) (m : machine W) :
  up_to_date blend_path export_path m =
  match fs_stat (world m) export_path with
  | Missing _ => (Ok false, m)
  | Failing e => (Raise e, m)
  | Mtime fbx_mtime =>
      match fs_stat (world m) blend_path with
      | Mtime blend_mtime => (Ok (PyFloat.gt fbx_mtime blend_mtime), m)
      | Missing e => (Raise e, m)
      | Failing e => (Raise e, m)
      end
  end.
Proof.
  unfold up_to_date, bind, path_exists, stat_st_mtime, ret.
  destruct (fs_stat (world m) export_path) as [t_out|e|e] eqn:Eout; try reflexivity.
  destruct (fs_stat (world m) blend_path); try reflexivity.
  rewrite Eout. reflexivity.
Qed.

Lemma export_blend_to_fbx_returns (blend_path export_path : Path) (m : machine W) :
  exists ok m', export_blend_to_fbx blend_path export_path m = (Ok ok, m').
Proof.
  unfold export_blend_to_fbx, try_except.
  destruct (export_attempt blend_path export_path m) as [[ok|e] m1].
  - now exists ok, m1.
  - unfold export_failed, bind, print, ret. eexists _, _. reflexivity.
Qed.


Lemma process_file_skip results blend_path (m : machine W) :
  up_to_date blend_path (export_path_of blend_path) m = (Ok true, m) ->
  process_file results blend_path m
  = (Ok (count_skipped results),
     log (EvPrint ("  [SKIP] " ++ PurePath.name blend_path ++ " (up to date)")) m).
Proof. unfold process_file, bind. intros ->. reflexivity. Qed.

Lemma process_file_export results blend_path (m : machine W) :
  up_to_date blend_path (export_path_of blend_path) m = (Ok false, m) ->
  process_file results blend_path m
  = (ok <- export_blend_to_fbx blend_path (export_path_of blend_path) ;;
     ret (if ok : bool
          then count_exported (PurePath.str (export_path_of blend_path)) results
          else count_failed results))
      (log (EvPrint ("Exporting: " ++ PurePath.name blend_path
                       ++ " [" ++ get_category blend_path ++ "]")) m).
Proof.
  unfold process_file. unfold bind at 1. intros ->.
  unfold bind at 1. unfold print at 1.
  unfold bind.
  destruct (export_blend_to_fbx _ _ _) as [[[|]|e] m1]; reflexivity.
Qed.



(** *** What the batch run emits *)

Lemma emits_stat (p : Path) P : emits (W := W) (stat_st_mtime p) P (fun _ => True).
Proof.
  intros m. unfold stat_st_mtime.
  destruct (fs_stat (world m) p); cbn; (split; [|auto]);
    exists []; rewrite app_nil_r; auto.
Qed.

Lemma emits_exists (p : Path) P : emits (W := W) (path_exists p) P (fun _ => True).
Proof.
  intros m. unfold path_exists.
  destruct (fs_stat (world m) p); cbn; (split; [|auto]);
    exists []; rewrite app_nil_r; auto.
Qed.

Ltac emits_step :=
  first
    [ apply emits_print; exact I
    | apply emits_call; exact I
    | apply emits_ask
    | apply emits_stat
    | apply emits_exists
    | eapply emits_bind; [|intros ? _] ].

Lemma emits_up_to_date blend_path export_path :
  emits (up_to_date blend_path export_path) loop_event (fun _ => True).
Proof.
  unfold up_to_date. emits_step; [emits_step|].
  destruct a; [|now apply emits_ret].
  repeat (emits_step; [emits_step|]). now apply emits_ret.
Qed.

Lemma emits_export_blend_to_fbx blend_path export_path :
  emits (export_blend_to_fbx blend_path export_path) loop_event (fun _ => True).
Proof.
  unfold export_blend_to_fbx. apply emits_try_except.
  - unfold export_attempt, clean_scene, read_homefile, open_mainfile, ensure_dir,
      mkdir_parents, export_scene_fbx.
    repeat (emits_step; [emits_step|]). now apply emits_ret.
  - intros e. unfold export_failed. emits_step; [emits_step|]. now apply emits_ret.
Qed.

Lemma balanced_skipped n results :
  balanced n results -> balanced (n + 1) (count_skipped results).
Proof. unfold balanced. cbn. intros [? ?]. split; [lia|assumption]. Qed.

Lemma balanced_failed n results :
  balanced n results -> balanced (n + 1) (count_failed results).
Proof. unfold balanced. cbn. intros [? ?]. split; [lia|assumption]. Qed.

Lemma balanced_exported n out results :
  balanced n results -> balanced (n + 1) (count_exported out results).
Proof.
  unfold balanced, Py.len. cbn. intros [? ?]. split; [lia|].
  rewrite length_app. cbn. lia.
Qed.

Lemma emits_process_file results blend_path :
  emits (process_file results blend_path) loop_event
    (fun results' => forall n, balanced n results -> balanced (n + 1) results').
Proof.
  unfold process_file. eapply emits_bind; [apply emits_up_to_date|].
  intros skip _. destruct skip.
  - emits_step; [emits_step|]. apply emits_ret. intros n. apply balanced_skipped.
  - emits_step; [emits_step|].
    eapply emits_bind; [apply emits_export_blend_to_fbx|].
    intros ok _. destruct ok; apply emits_ret.
    + intros n. apply balanced_exported.
    + intros n. apply balanced_failed.
Qed.

Lemma emits_main_loop blend_files : forall results,
  emits (main_loop blend_files results) loop_event
    (fun results' =>
       forall n, balanced n results -> balanced (n + Py.len blend_files) results').
Proof.
  induction blend_files as [|blend_path rest IH]; intros results.
  - apply emits_ret. intros n. unfold Py.len. cbn. now rewrite Z.add_0_r.
  - cbn [main_loop]. eapply emits_bind; [apply emits_process_file|].
    intros results1 Hstep. eapply emits_weaken; [| |apply IH].
    + auto.
    + cbn beta. intros results' Hrest n Hn.
      replace (n + Py.len (blend_path :: rest)) with (n + 1 + Py.len rest)
        by (unfold Py.len; cbn [List.length]; lia).
      auto.
Qed.

Lemma loop_event_batch ev : loop_event ev -> batch_event ev.
Proof. destruct ev; cbn; tauto. Qed.

Lemma emits_main : emits main batch_event (fun _ => True).
Proof.
  unfold main, ensure_dir, mkdir_parents, now_isoformat.
  do 8 (emits_step; [emits_step|]).
  eapply emits_bind; [apply emits_ask|]. intros blend_files _.
  destruct blend_files as [|blend_path rest].
  - emits_step; [emits_step|]. emits_step.
  - emits_step; [emits_step|].
    eapply emits_bind.
    { eapply emits_weaken; [exact loop_event_batch| |apply emits_main_loop].
      intros res Hres. exact Hres. }
    cbn beta. intros results Hres.
    assert (Hbal : balanced (Py.len (blend_path :: rest)) results).
    { apply (Hres 0). unfold balanced. cbn. auto. }
    emits_step; [emits_step|].
    eapply emits_bind.
    { unfold dump_json. apply emits_call. cbn. exact Hbal. }
    intros _ _.
    repeat (emits_step; [emits_step|]). emits_step.
Qed.

(** *** The tallies of a stretch of the loop do not depend on those before *)








(** *** A stretch of the loop does not depend on what was printed before *)








End Batch.

(** ** The staleness gate *)

Lemma SFcompare_refl (f : spec_float) :
  SFcompare f f = Some Eq \/ SFcompare f f = None.
Proof.
  destruct f as [s|s| |s mant e]; cbn.
  - now left.
  - left. destruct s; reflexivity.
  - now right.
  - left. destruct s; rewrite Z.compare_refl, ?Pos.compare_refl; reflexivity.
Qed.

(** No double is greater than itself. *)
Lemma gt_irrefl (t : float) : PyFloat.gt t t = false.
Proof.
  unfold PyFloat.gt. rewrite ltb_spec. unfold SFltb.
  destruct (SFcompare_refl (Prim2SF t)) as [-> | ->]; reflexivity.
Qed.

(** C2, as stated, fails: with the output on disk and carrying the very
    timestamp of its source, the file is not skipped; its scene is loaded and
    it is exported, and the run reports three exports and no skip. *)
Lemma equal_timestamps_counterexample :
  let m := Sim.boot Sim.same_age in
  let export_path := batch_export.export_path_of Sim.sword_blend in
  fs_stat (world m) Sim.sword_blend = Mtime 100.0%float
  /\ fs_stat (world m) export_path = Mtime 100.0%float
  /\ fst (batch_export.up_to_date Sim.sword_blend export_path m) = Ok false
  /\ fst (batch_export.process_file no_results Sim.sword_blend m)
     = Ok (batch_export.count_exported Sim.sword_fbx no_results)
  /\ In (EvOpenMainfile "/repo/blender/models/weapons/sword_01.blend")
        (trace (snd (batch_export.process_file no_results Sim.sword_blend m)))
  /\ Sim.dumped (trace (snd (batch_export.main m)))
     = [ {| timestamp := "2026-01-01T12:00:00"; total_files := 3;
            exported := 3; failed := 0; skipped := 0;
            files := [Sim.sword_fbx; Sim.hero_fbx; Sim.blob_fbx] |} ].
Proof.
  cbv zeta. repeat split; try reflexivity.
  vm_compute. tauto.
Qed.

(** C2, amended: for a source file on disk, the gate asks for an export if
    and only if the output path does not exist or the output's timestamp is
    not strictly greater than the source's. With equal timestamps it asks for
    the export. When it does not, the file is counted as skipped, and the run
    only prints a line: the world is untouched, no scene is loaded. When it
    does, the export is attempted. The gate gives no answer in one case only:
    when [export_path.exists()] itself raises, and the turn raises with it. *)
Theorem staleness_gate (W : Type) (H : Host W) (results : batch_export.Results)
    (blend_path : Path) (m : machine W) (blend_mtime : float) :
  fs_stat (world m) blend_path = Mtime blend_mtime ->
  let export_path := batch_export.export_path_of blend_path in
  let needs_export :=
    match fs_stat (world m) export_path with
    | Missing _ => Ok true
    | Mtime fbx_mtime => Ok (negb (PrimFloat.ltb blend_mtime fbx_mtime))
    | Failing e => Raise e
    end in
  batch_export.up_to_date blend_path export_path m = (map_outcome negb needs_export, m)
  /\ (fs_stat (world m) export_path = Mtime blend_mtime -> needs_export = Ok true)
  /\ (needs_export = Ok false ->
      batch_export.process_file results blend_path m
      = (Ok (batch_export.count_skipped results),
         log (EvPrint ("  [SKIP] " ++ PurePath.name blend_path ++ " (up to date)")) m))
  /\ (needs_export = Ok true ->
      batch_export.process_file results blend_path m
      = (ok <- batch_export.export_blend_to_fbx blend_path export_path ;;
         ret (if ok : bool
              then batch_export.count_exported (PurePath.str export_path) results
              else batch_export.count_failed results))
          (log (EvPrint ("Exporting: " ++ PurePath.name blend_path
                           ++ " [" ++ get_category blend_path ++ "]")) m))
  /\ (forall e, needs_export = Raise e ->
      batch_export.process_file results blend_path m = (Raise e, m)).
Proof.
  intros Hsrc export_path needs_export.
  assert (Hgate : batch_export.up_to_date blend_path export_path m
                  = (map_outcome negb needs_export, m)).
  { rewrite up_to_date_run. subst needs_export.
    destruct (fs_stat (world m) export_path) as [fbx_mtime|e|e]; try reflexivity.
    rewrite Hsrc. cbn [map_outcome]. rewrite negb_involutive. reflexivity. }
  split; [exact Hgate|]. split; [|split; [|split]].
  - intros Hout. subst needs_export. rewrite Hout.
    change (PrimFloat.ltb blend_mtime blend_mtime)
      with (PyFloat.gt blend_mtime blend_mtime).
    now rewrite gt_irrefl.
  - intros Hno. rewrite Hno in Hgate. now apply process_file_skip.
  - intros Hyes. rewrite Hyes in Hgate. now apply process_file_export.
  - intros e He. rewrite He in Hgate. cbn [map_outcome] in Hgate.
    unfold batch_export.process_file, bind. fold export_path. now rewrite Hgate.
Qed.

(** Output and source of the same age: not up to date. *)
Lemma staleness_gate_witness :
  batch_export.up_to_date Sim.sword_blend (batch_export.export_path_of Sim.sword_blend)
    (Sim.boot Sim.same_age)
  = (Ok false, Sim.boot Sim.same_age).
Proof.
  apply (staleness_gate Sim.World Sim.host no_results Sim.sword_blend
           (Sim.boot Sim.same_age) 100.0%float).
  reflexivity.
Defined.

(** ** Comparisons with a NaN *)

Lemma SFcompare_not_lt (x c : spec_float) :
  SFeqb c c = true ->
  negb (SFltb c x) = SFleb x c || negb (SFeqb x x).
Proof.
  unfold SFltb, SFleb, SFeqb.
  destruct x as [sx|sx| |sx mx ex], c as [sc|sc| |sc mc ec]; cbn; try discriminate;
    intros _;
    repeat match goal with s : bool |- _ => destruct s end; cbn; try reflexivity;
    change (PosDef.Pos.compare_cont Eq) with Pos.compare;
    rewrite ?Z.compare_refl, ?Pos.compare_refl; cbn; try reflexivity;
    rewrite (Z.compare_antisym ex ec), (Pos.compare_antisym mx mc);
    destruct (ex ?= ec)%Z; cbn; try reflexivity;
    destruct (mx ?= mc)%positive; reflexivity.
Qed.

(** [x > c] is false exactly when [x <= c] or [x] is NaN. *)
Lemma not_gt (x c : float) :
  PrimFloat.is_nan c = false ->
  negb (PyFloat.gt x c) = PrimFloat.leb x c || PrimFloat.is_nan x.
Proof.
  unfold PyFloat.gt, PrimFloat.is_nan. intros Hc.
  rewrite FloatAxioms.eqb_spec in Hc.
  rewrite FloatAxioms.ltb_spec, FloatAxioms.leb_spec, FloatAxioms.eqb_spec.
  apply SFcompare_not_lt. now destruct (SFeqb (Prim2SF c) (Prim2SF c)).
Qed.

(** [axis_applied] is the negation of the test the three scripts make of a
    scale component. *)
Lemma axis_applied_test (s : float) :
  axis_applied s
  = negb (PyFloat.gt (PrimFloat.abs (PrimFloat.sub s 1.0%float)) 0.001%float).
Proof. unfold axis_applied. cbv zeta. now rewrite not_gt. Qed.

Lemma scale_applied_test (obj : bpy.Object) :
  scale_applied obj
  = List.forallb (fun s => negb (scale_off s 1.0%float)) (bpy.components (bpy.scale obj)).
Proof.
  unfold scale_applied, bpy.components. cbn [List.forallb].
  now rewrite !axis_applied_test.
Qed.

(** A NaN scale component passes; so do 1.0009 and 0.9991, and 1.0011 does
    not. *)
Example axis_applied_examples :
  axis_applied PrimFloat.nan = true
  /\ axis_applied 1.0009%float = true
  /\ axis_applied 0.9991%float = true
  /\ axis_applied 1.0011%float = false
  /\ axis_applied PrimFloat.infinity = false.
Proof. repeat split; reflexivity. Qed.

(** ** Validation and the batch path *)

Lemma validate_model_reads_objects {W : Type} `{Host W} float_repr filepath
    (m : machine W) :
  In EvDataObjects
     (events_added m (snd (batch_export.validate_model float_repr filepath m))).
Proof.
  unfold batch_export.validate_model, bind, data_objects, ret, events_added.
  destruct (List.fold_left _ _ _) as [st iss]. cbn.
  rewrite drop_app_length. now left.
Qed.

Lemma validate_file_reads_objects {W : Type} `{Host W} self filepath
    (m m' : machine W) self' report :
  validate_file self filepath m = (Ok (self', report), m') ->
  In EvDataObjects (events_added m m').
Proof.
  unfold validate_file, bind, read_homefile, open_mainfile, call,
    data_objects, data_materials, ret, log, events_added.
  destruct (bpy_read_homefile (world m)) as [[[]|e] w1]; [|discriminate].
  cbn [world trace].
  destruct (bpy_open_mainfile (PurePath.str filepath) w1) as [[[]|e] w2];
    [|discriminate].
  cbn [world trace]. intros E. injection E as _ _ <-. cbn [trace].
  rewrite <- !app_assoc, drop_app_length. cbn. tauto.
Qed.

(** C3, as stated, fails: on a first run over the three sources, the hero's
    file is not skipped, loads and is exported, although its scene has two
    validation issues; and the run never reads the scene graph, which both
    validators do first: no validator ran. *)
Lemma batch_skips_validation_counterexample :
  let run := batch_export.main (Sim.boot Sim.fresh) in
  fst run = Ok tt
  /\ In (EvOpenMainfile "/repo/blender/models/characters/hero.blend") (trace (snd run))
  /\ In (EvExportFbx Sim.hero_fbx) (trace (snd run))
  /\ ~ In EvDataObjects (trace (snd run))
  /\ ~ In EvDataMaterials (trace (snd run))
  /\ List.length
       (issues (inspect Sim.hero_blend (bpy.objects Sim.hero_scene)
                  (bpy.materials Sim.hero_scene))) = 2%nat.
Proof.
  cbv zeta. split; [reflexivity|]. split; [vm_compute; tauto|].
  split; [vm_compute; tauto|]. split; [|split; [|reflexivity]].
  - intros Hin. vm_compute in Hin.
    repeat (destruct Hin as [Hin|Hin]; [discriminate Hin|]). exact Hin.
  - intros Hin. vm_compute in Hin.
    repeat (destruct Hin as [Hin|Hin]; [discriminate Hin|]). exact Hin.
Qed.

(** C3, amended: for a file that is not skipped, whose scene loads and whose
    output directory is ensured, the calls are the load, the [mkdir] and then
    the export, whatever the scene holds; the file counts as exported or
    failed by the export's outcome alone. Nothing a validator could find
    bears on it: a run of [main] makes no read of the scene graph, which is
    the first thing both [validate_model] and [validate_file] do. *)
Theorem export_attempted_without_validation (W : Type) (H : Host W) :
  (forall m : machine W,
      Forall (fun ev => ev <> EvDataObjects /\ ev <> EvDataMaterials)
        (events_added m (snd (batch_export.main m))))
  /\ (forall float_repr filepath (m : machine W),
         In EvDataObjects
            (events_added m (snd (batch_export.validate_model float_repr filepath m))))
  /\ (forall self filepath (m m' : machine W) self' report,
         validate_file self filepath m = (Ok (self', report), m') ->
         In EvDataObjects (events_added m m'))
  /\ (forall (results : batch_export.Results) (blend_path : Path) (m : machine W)
             (w1 w2 w3 : W),
         let export_path := batch_export.export_path_of blend_path in
         batch_export.up_to_date blend_path export_path m = (Ok false, m) ->
         bpy_read_homefile (world m) = (Ok tt, w1) ->
         bpy_open_mainfile (PurePath.str blend_path) w1 = (Ok tt, w2) ->
         fs_mkdir (PurePath.parent export_path) w2 = (Ok tt, w3) ->
         let attempt := bpy_export_scene_fbx (PurePath.str export_path) w3 in
         batch_export.process_file results blend_path m
         = (Ok (match fst attempt with
                | Ok _ => batch_export.count_exported (PurePath.str export_path) results
                | Raise _ => batch_export.count_failed results
                end),
            {| world := snd attempt;
               trace :=
                 (trace m
                  ++ [ EvPrint ("Exporting: " ++ PurePath.name blend_path
                                  ++ " [" ++ get_category blend_path ++ "]");
                       EvReadHomefile;
                       EvOpenMainfile (PurePath.str blend_path);
                       EvMkdir (PurePath.parent export_path);
                       EvExportFbx (PurePath.str export_path);
                       EvPrint
                         (match fst attempt with
                          | Ok _ => "  [OK] Exported: " ++ PurePath.name blend_path
                                      ++ " -> " ++ PurePath.name export_path
                          | Raise e => "  [FAIL] " ++ PurePath.name blend_path
                                         ++ ": " ++ e
                          end) ])%list |})).
Proof.
  split; [|split; [|split]].
  - intros m. eapply Forall_impl; [exact (emits_added _ _ _ m emits_main)|].
    intros ev Hev. split; intros ->; exact Hev.
  - intros float_repr filepath m. apply validate_model_reads_objects.
  - intros self filepath m m' self' report. apply validate_file_reads_objects.
  - intros results blend_path m w1 w2 w3 export_path Hgate Hr Ho Hm attempt.
    rewrite (process_file_export _ _ _ Hgate).
    fold export_path. subst attempt.
    unfold bind, batch_export.export_blend_to_fbx, try_except,
      batch_export.export_attempt, batch_export.export_failed, bind,
      batch_export.clean_scene, batch_export.ensure_dir, read_homefile, open_mainfile,
      mkdir_parents, export_scene_fbx, call, print, ret, log.
    cbn [world trace]. rewrite Hr. cbn [world trace]. rewrite Ho.
    cbn [world trace]. rewrite Hm. cbn [world trace].
    destruct (bpy_export_scene_fbx (PurePath.str export_path) w3) as [[[]|e] w4];
      cbn [world trace fst snd]; rewrite <- !app_assoc; reflexivity.
Qed.

(** The hero, two issues in its scene, is exported. *)
Lemma export_attempted_without_validation_witness :
  fst (batch_export.process_file no_results Sim.hero_blend (Sim.boot Sim.fresh))
  = Ok (batch_export.count_exported Sim.hero_fbx no_results).
Proof.
  pose proof (proj2 (proj2 (proj2
    (export_attempted_without_validation Sim.World Sim.host)))
      no_results Sim.hero_blend (Sim.boot Sim.fresh) _ _ _
      eq_refl eq_refl eq_refl eq_refl) as Hrun.
  rewrite Hrun. reflexivity.
Defined.

(** ** Failures of single files *)




(** ** The summary record *)

(** C10: every summary record a run of [main] writes satisfies
    [exported + failed + skipped = total_files], each file having been counted
    once, and lists as many output paths as files were exported. *)
Theorem summary_record_adds_up (W : Type) (H : Host W) (m : machine W)
    (report_path : Path) (report : ExportReport) :
  In (EvDumpJson report_path report) (events_added m (snd (batch_export.main m))) ->
  exported report + failed report + skipped report = total_files report
  /\ Py.len (files report) = exported report.
Proof.
  intros Hin.
  pose proof (emits_added _ _ _ m emits_main) as Hall.
  rewrite List.Forall_forall in Hall. exact (Hall _ Hin).
Qed.

(** One export and two failures out of three files. *)
Lemma summary_record_adds_up_witness :
  let report := {| timestamp := "2026-01-01T12:00:00"; total_files := 3;
                   exported := 1; failed := 2; skipped := 0;
                   files := [Sim.sword_fbx] |} in
  Sim.dumped (trace (snd (batch_export.main (Sim.boot Sim.faulty)))) = [report]
  /\ exported report + failed report + skipped report = total_files report
  /\ Py.len (files report) = exported report.
Proof.
  cbv zeta. split; [reflexivity|].
  apply (summary_record_adds_up Sim.World Sim.host (Sim.boot Sim.faulty)
           ["repo"; "ue5-client"; "Content"; "Models"; "Imported"; "export_report.json"]).
  vm_compute. tauto.
Defined.

(** ** Two runs over the same tree *)

(** A first run exports the three sources into their categories. *)
Example first_run_exports_all :
  Sim.dumped (trace (snd (batch_export.main (Sim.boot Sim.fresh))))
  = [ {| timestamp := "2026-01-01T12:00:00"; total_files := 3;
         exported := 3; failed := 0; skipped := 0;
         files := [Sim.sword_fbx; Sim.hero_fbx; Sim.blob_fbx] |} ].
Proof. reflexivity. Qed.

(** A second run, from the world the first one left, skips them all. *)
Example second_run_skips_all :
  Sim.dumped
    (trace (snd (batch_export.main
                   (Sim.boot (world (snd (batch_export.main (Sim.boot Sim.fresh))))))))
  = [ {| timestamp := "2026-01-01T12:00:00"; total_files := 3;
         exported := 0; failed := 0; skipped := 3; files := [] |} ].
Proof. reflexivity. Qed.

(** The report of the hero's scene: two issues, one warning, not valid. *)
Example hero_report :
  let report := inspect Sim.hero_blend (bpy.objects Sim.hero_scene)
                  (bpy.materials Sim.hero_scene) in
  issues report = [ "'Body': Scale X=2.000 (expected 1.0). Apply scale with Ctrl+A";
                    "'Body': Missing UV map (required for UE5)" ]
  /\ warnings report = [ "'Body': Consider UE5 naming: SM_ (static), SK_ (skeletal)" ]
  /\ valid report = Some false.
Proof. repeat split; reflexivity. Qed.

Example format_3f_rounds :
  PyFloat.format_3f 1.0011%float = "1.001"
  /\ PyFloat.format_3f 0.0005%float = "0.001"
  /\ PyFloat.format_3f 0.125%float = "0.125"
  /\ PyFloat.format_3f 0.0625%float = "0.062"
  /\ PyFloat.format_3f (-0.0001)%float = "-0.000".
Proof. repeat split; reflexivity. Qed.

(** * Further properties *)

(** ** What [validate_file] puts in a report *)

Lemma validate_mesh_frame obj mesh r :
  objects (_validate_mesh obj mesh r)
  = (objects r ++ [ {| info_name := bpy.name obj;
                       info_vertices := Py.len (bpy.vertices mesh);
                       info_faces := Py.len (bpy.polygons mesh);
                       info_edges := Py.len (bpy.edges mesh) |} ])%list
  /\ stats (_validate_mesh obj mesh r)
     = {| total_vertices := total_vertices (stats r) + Py.len (bpy.vertices mesh);
          total_faces := total_faces (stats r) + Py.len (bpy.polygons mesh);
          mesh_objects := mesh_objects (stats r) + 1;
          armatures := armatures (stats r);
          materials := materials (stats r) |}.
Proof.
  unfold _validate_mesh.
  match goal with
  | |- context [check_scale ?n ?it ?r0] =>
      destruct (check_scale_frame n it r0) as (_ & _ & Hs & _ & Ho);
      cbn [objects stats append_object set_stats] in Hs, Ho;
      generalize dependent (check_scale n it r0)
  end.
  intros r1 Hs Ho.
  repeat match goal with
         | |- context [if ?b then _ else _] => destruct b
         end;
    destruct (bpy.uv_layers mesh);
    cbn [objects stats append_warning append_issue]; auto.
Qed.

Lemma validate_armature_frame obj armature r :
  objects (_validate_armature obj armature r) = objects r
  /\ stats (_validate_armature obj armature r)
     = {| total_vertices := total_vertices (stats r);
          total_faces := total_faces (stats r);
          mesh_objects := mesh_objects (stats r);
          armatures := armatures (stats r) + 1;
          materials := materials (stats r) |}.
Proof.
  unfold _validate_armature.
  repeat match goal with
         | |- context [if ?b then _ else _] => destruct b
         end; cbn [objects stats append_warning append_issue set_stats]; auto.
Qed.

Lemma visit_object_issues r obj :
  issues (visit_object r obj) = (issues r ++ object_issues obj)%list.
Proof.
  unfold visit_object, object_issues.
  destruct (bpy.data obj) as [mesh|armature|ty].
  - apply validate_mesh_issues.
  - apply validate_armature_issues.
  - now rewrite app_nil_r.
Qed.

Lemma fold_visit_object_frame objs : forall r,
  let r' := List.fold_left visit_object objs r in
  issues r' = (issues r ++ List.flat_map object_issues objs)%list
  /\ objects r' = (objects r ++ mesh_summaries objs)%list
  /\ total_vertices (stats r') = total_vertices (stats r) + sum_by mesh_vertices objs
  /\ total_faces (stats r') = total_faces (stats r) + sum_by mesh_faces objs
  /\ mesh_objects (stats r') = mesh_objects (stats r) + Py.len (List.filter is_mesh objs)
  /\ armatures (stats r') = armatures (stats r) + Py.len (List.filter is_armature objs)
  /\ materials (stats r') = materials (stats r).
Proof.
  induction objs as [|obj objs IH]; intros r; cbv zeta.
  - unfold Py.len. cbn. rewrite !app_nil_r. repeat split; lia.
  - cbn [List.fold_left].
    destruct (IH (visit_object r obj)) as (Hi & Ho & Hv & Hf & Hm & Ha & Hn).
    cbv zeta in *. rewrite Hi, Ho, Hv, Hf, Hm, Ha, Hn, visit_object_issues.
    unfold mesh_summaries, sum_by, mesh_vertices, mesh_faces, is_mesh, is_armature,
      visit_object, Py.len.
    cbn [List.flat_map List.fold_right List.filter].
    destruct (bpy.data obj) as [mesh|armature|ty] eqn:Hd; cbn [List.length List.app].
    + destruct (validate_mesh_frame obj mesh r) as [Ho1 Hs1]. rewrite Ho1, Hs1.
      cbn [total_vertices total_faces mesh_objects armatures materials].
      rewrite <- !app_assoc. unfold Py.len. repeat split; try reflexivity; lia.
    + destruct (validate_armature_frame obj armature r) as [Ho1 Hs1]. rewrite Ho1, Hs1.
      cbn [total_vertices total_faces mesh_objects armatures materials].
      rewrite <- !app_assoc. repeat split; try reflexivity; lia.
    + rewrite <- !app_assoc. repeat split; try reflexivity; lia.
Qed.

(** The report [inspect] builds, field by field. *)
Lemma inspect_fields filepath objs mats :
  let report := inspect filepath objs mats in
  issues report
  = (List.flat_map object_issues objs
     ++ (if sum_by mesh_vertices objs >? MAX_VERTICES_LOD0
         then [lod0_issue (sum_by mesh_vertices objs)]
         else []))%list
  /\ objects report = mesh_summaries objs
  /\ stats report
     = {| total_vertices := sum_by mesh_vertices objs;
          total_faces := sum_by mesh_faces objs;
          mesh_objects := Py.len (List.filter is_mesh objs);
          armatures := Py.len (List.filter is_armature objs);
          materials := Py.len mats |}.
Proof.
  cbv zeta. unfold inspect.
  destruct (fold_visit_object_frame objs (new_report filepath))
    as (Hi & Ho & Hv & Hf & Hm & Ha & Hn).
  destruct (fold_visit_material_frame mats
              (List.fold_left visit_object objs (new_report filepath)))
    as (Hi' & Ho' & _ & Hv' & Hf' & Hm' & Ha' & Hn').
  cbv zeta in *.
  cbn [new_report issues objects stats total_vertices total_faces mesh_objects
       armatures materials List.app] in Hi, Ho, Hv, Hf, Hm, Ha, Hn.
  rewrite Hi in Hi'. rewrite Ho in Ho'. rewrite Hv in Hv'. rewrite Hf in Hf'.
  rewrite Hm in Hm'. rewrite Ha in Ha'. rewrite Hn in Hn'.
  remember (List.fold_left visit_material mats
              (List.fold_left visit_object objs (new_report filepath))) as r1.
  unfold overall_checks. rewrite Hv'. rewrite !Z.add_0_l in *.
  destruct (sum_by mesh_vertices objs >? MAX_VERTICES_LOD0);
    cbn [set_valid append_issue issues objects stats]; rewrite Hi', Ho';
    (split; [rewrite ?app_nil_r; reflexivity|]); (split; [reflexivity|]);
    destruct (stats r1) as [tv tf mo ar ma]; cbn in *; subst; reflexivity.
Qed.

Lemma flat_map_nil {A B} (f : A -> list B) (l : list A) :
  List.flat_map f l = [] <-> forall a, In a l -> f a = [].
Proof.
  induction l as [|a l IH]; cbn [List.flat_map].
  - split; [intros _ ? []|reflexivity].
  - split.
    + intros E. apply app_eq_nil in E. destruct E as [Ea El].
      intros b [<-|Hb]; [exact Ea|]. now apply IH.
    + intros Hall. rewrite (Hall a (or_introl eq_refl)). cbn.
      apply IH. intros b Hb. apply Hall. now right.
Qed.

Lemma len_nonneg {A} (l : list A) : 0 <= Py.len l.
Proof. unfold Py.len. lia. Qed.

Lemma object_issues_nil obj : object_issues obj = [] <-> object_passes obj = true.
Proof.
  unfold object_issues, object_passes, has_uv, scale_issues, MAX_BONES.
  destruct (bpy.data obj) as [mesh|armature|ty]; [| |tauto].
  - rewrite scale_applied_test. destruct (bpy.scale obj) as [sx sy sz]. cbn.
    repeat match goal with
           | |- context [PrimFloat.ltb ?a ?b] => destruct (PrimFloat.ltb a b)
           end;
      destruct (bpy.uv_layers mesh); cbn; split; intros E;
      solve [reflexivity | discriminate E].
  - pose proof (len_nonneg (bpy.bones armature)) as Hn.
    destruct (Py.len (bpy.bones armature) >? 256) eqn:Hgt;
      destruct (Py.len (bpy.bones armature) =? 0) eqn:Hz;
      rewrite Z.gtb_ltb in Hgt;
      first [apply Z.ltb_lt in Hgt | apply Z.ltb_ge in Hgt];
      first [apply Z.eqb_eq in Hz | apply Z.eqb_neq in Hz];
      cbn [List.app]; rewrite andb_true_iff, Z.ltb_lt, Z.leb_le;
      split; intros E; try discriminate E; try reflexivity; lia.
Qed.

(** X1: the report of [validate_file] is valid exactly when every mesh
    object has at least one UV layer and no scale component found off, that
    is each component [s] has [abs(s - 1.0) <= 0.001] or [abs(s - 1.0)] not a
    number (a NaN component passes); every armature has between 1 and 256
    bones; and the meshes of the scene total at most 100000 vertices.
    Rotation, n-gons, loose vertices, names, root bones and materials have no
    say. *)
Theorem validate_file_valid_iff (W : Type) (H : Host W) (self : ModelValidator)
    (filepath : Path) (m m' : machine W) (self' : ModelValidator) (report : Report) :
  validate_file self filepath m = (Ok (self', report), m') ->
  (valid report = Some true
   <-> (forall obj, In obj (bpy.objects (bpy_data (world m'))) -> object_passes obj = true)
       /\ sum_by mesh_vertices (bpy.objects (bpy_data (world m'))) <= 100000).
Proof.
  intros Hrun. apply validate_file_returns in Hrun. destruct Hrun as [-> _].
  set (objs := bpy.objects _). set (mats := bpy.materials _).
  rewrite inspect_valid.
  destruct (inspect_fields filepath objs mats) as (Hi & _). cbv zeta in Hi.
  assert (Hiff : (Py.len (issues (inspect filepath objs mats)) =? 0) = true
                 <-> issues (inspect filepath objs mats) = []) by apply len_zero_iff.
  split.
  - intros E. injection E as E. apply Hiff in E. rewrite Hi in E.
    apply app_eq_nil in E. destruct E as [Eobj Elod]. split.
    + intros obj Hin. apply object_issues_nil.
      now apply (proj1 (flat_map_nil object_issues objs) Eobj).
    + unfold MAX_VERTICES_LOD0 in Elod.
      destruct (sum_by mesh_vertices objs >? 100000) eqn:Hgt; [discriminate Elod|].
      rewrite Z.gtb_ltb in Hgt. apply Z.ltb_ge in Hgt. exact Hgt.
  - intros [Hall Htot]. f_equal. apply Hiff. rewrite Hi.
    assert (Eobj : List.flat_map object_issues objs = []).
    { apply flat_map_nil. intros obj Hin. apply object_issues_nil. now apply Hall. }
    rewrite Eobj. unfold MAX_VERTICES_LOD0.
    destruct (sum_by mesh_vertices objs >? 100000) eqn:Hgt; [|reflexivity].
    rewrite Z.gtb_ltb in Hgt. apply Z.ltb_lt in Hgt. lia.
Qed.

(** The sword's scene passes: its report is valid. *)
Lemma validate_file_valid_iff_witness :
  exists self' report m',
    validate_file __init__ Sim.sword_blend (Sim.boot Sim.fresh) = (Ok (self', report), m')
    /\ valid report = Some true.
Proof.
  eexists _, _, _. split; [reflexivity|].
  refine (proj2 (validate_file_valid_iff _ _ __init__ Sim.sword_blend
                   (Sim.boot Sim.fresh) _ _ _ _) _); [reflexivity|].
  split.
  - intros obj [<-|[]]. reflexivity.
  - vm_compute. discriminate.
Defined.

(** X2: the statistics of a report are sums over the scene: vertices and
    faces over the mesh objects, the numbers of mesh objects, armatures and
    materials; and the report lists one summary per mesh object, in the
    order of the scene. *)
Theorem validate_file_statistics (W : Type) (H : Host W) (self : ModelValidator)
    (filepath : Path) (m m' : machine W) (self' : ModelValidator) (report : Report) :
  validate_file self filepath m = (Ok (self', report), m') ->
  let scene := bpy_data (world m') in
  stats report
  = {| total_vertices := sum_by mesh_vertices (bpy.objects scene);
       total_faces := sum_by mesh_faces (bpy.objects scene);
       mesh_objects := Py.len (List.filter is_mesh (bpy.objects scene));
       armatures := Py.len (List.filter is_armature (bpy.objects scene));
       materials := Py.len (bpy.materials scene) |}
  /\ objects report = mesh_summaries (bpy.objects scene)
  /\ Py.len (objects report) = mesh_objects (stats report).
Proof.
  intros Hrun scene. apply validate_file_returns in Hrun. destruct Hrun as [-> _].
  fold scene.
  destruct (inspect_fields filepath (bpy.objects scene) (bpy.materials scene))
    as (_ & Ho & Hs).
  cbv zeta in *. rewrite Ho, Hs. split; [reflexivity|]. split; [reflexivity|].
  cbn [mesh_objects]. unfold Py.len. f_equal.
  unfold mesh_summaries, is_mesh. clear Ho Hs.
  induction (bpy.objects scene) as [|obj objs IH]; [reflexivity|].
  cbn [List.flat_map List.filter].
  destruct (bpy.data obj); cbn; now rewrite IH.
Qed.

(** The hero's scene: one mesh of four vertices, one armature. *)
Lemma validate_file_statistics_witness :
  exists self' report m',
    validate_file __init__ Sim.hero_blend (Sim.boot Sim.fresh) = (Ok (self', report), m')
    /\ stats report = {| total_vertices := 4; total_faces := 1; mesh_objects := 1;
                         armatures := 1; materials := 0 |}.
Proof.
  eexists _, _, _. split; [reflexivity|].
  refine (eq_trans (proj1 (validate_file_statistics _ _ __init__ Sim.hero_blend
                             (Sim.boot Sim.fresh) _ _ _ _)) _); reflexivity.
Defined.

(** X3: the vertex ceiling is on the scene, not on an object: when every
    object passes its own checks, the report has no issue if the meshes total
    at most 100000 vertices, and otherwise the single issue naming the
    total. *)
Theorem lod0_issue_alone (W : Type) (H : Host W) (self : ModelValidator)
    (filepath : Path) (m m' : machine W) (self' : ModelValidator) (report : Report) :
  validate_file self filepath m = (Ok (self', report), m') ->
  (forall obj, In obj (bpy.objects (bpy_data (world m'))) -> object_passes obj = true) ->
  let total := sum_by mesh_vertices (bpy.objects (bpy_data (world m'))) in
  issues report = if total >? 100000 then [lod0_issue total] else [].
Proof.
  intros Hrun Hall total. apply validate_file_returns in Hrun. destruct Hrun as [-> _].
  destruct (inspect_fields filepath (bpy.objects (bpy_data (world m')))
              (bpy.materials (bpy_data (world m')))) as (Hi & _).
  cbv zeta in Hi. rewrite Hi.
  assert (Eobj : List.flat_map object_issues (bpy.objects (bpy_data (world m'))) = []).
  { apply flat_map_nil. intros obj Hin. apply object_issues_nil. now apply Hall. }
  rewrite Eobj. reflexivity.
Qed.

Lemma lod0_issue_alone_witness :
  exists self' report m',
    validate_file __init__ Sim.sword_blend (Sim.boot Sim.fresh) = (Ok (self', report), m')
    /\ issues report = [].
Proof.
  eexists _, _, _. split; [reflexivity|].
  refine (eq_trans (lod0_issue_alone _ _ __init__ Sim.sword_blend
                      (Sim.boot Sim.fresh) _ _ _ _ _) _).
  - reflexivity.
  - intros obj [<-|[]]. reflexivity.
  - reflexivity.
Defined.

(** ** Loose vertices *)

Lemma elem_of_vertex_used_from (es : list bpy.MeshEdge) : forall (acc : gset nat) (i : nat),
  i ∈ List.fold_left
        (fun used e => used ∪ {[ fst (bpy.edge_vertices e) ]} ∪ {[ snd (bpy.edge_vertices e) ]})
        es acc
  <-> i ∈ acc \/ exists e, In e es /\ (i = fst (bpy.edge_vertices e)
                                      \/ i = snd (bpy.edge_vertices e)).
Proof.
  induction es as [|e es IH]; intros acc i; cbn [List.fold_left].
  - split; [auto|]. intros [Hacc|(e & [] & _)]. exact Hacc.
  - rewrite IH. rewrite !elem_of_union, !elem_of_singleton. split.
    + intros [[[Hacc|E]|E]|(e' & Hin & He')].
      * now left.
      * right. exists e. split; [now left|now left].
      * right. exists e. split; [now left|now right].
      * right. exists e'. split; [now right|exact He'].
    + intros [Hacc|(e' & [<-|Hin] & He')].
      * left. left. now left.
      * left. destruct He' as [E|E]; [left; now right|now right].
      * right. now exists e'.
Qed.

(** [vertex_used] holds the endpoints of the edges, and nothing else. *)
Lemma elem_of_vertex_used (es : list bpy.MeshEdge) (i : nat) :
  i ∈ vertex_used es
  <-> exists e, In e es /\ (i = fst (bpy.edge_vertices e) \/ i = snd (bpy.edge_vertices e)).
Proof.
  unfold vertex_used. rewrite elem_of_vertex_used_from. split.
  - intros [Hempty|Hex]; [|exact Hex]. now apply not_elem_of_empty in Hempty.
  - intros Hex. now right.
Qed.

Lemma elem_of_index_set (n i : nat) : i ∈ index_set n <-> (i < n)%nat.
Proof.
  unfold index_set. rewrite elem_of_list_to_set, list_elem_of_In, in_seq. lia.
Qed.

Lemma size_index_set (n : nat) : size (index_set n) = n.
Proof.
  unfold index_set. rewrite size_list_to_set by apply NoDup_seq.
  apply length_seq.
Qed.

(** X4: in a mesh whose edges join vertices of the mesh, the number the
    loose-vertex check computes is the number of vertices that no edge
    touches; when it is positive, the mesh gets the warning naming it. *)
Theorem loose_vertices_counted (obj : bpy.Object) (mesh : bpy.Mesh) (report : Report) :
  (forall e, In e (bpy.edges mesh) ->
     (fst (bpy.edge_vertices e) < List.length (bpy.vertices mesh))%nat
     /\ (snd (bpy.edge_vertices e) < List.length (bpy.vertices mesh))%nat) ->
  let loose := Py.len (bpy.vertices mesh)
               - Z.of_nat (size (vertex_used (bpy.edges mesh))) in
  loose = Z.of_nat (size (index_set (List.length (bpy.vertices mesh))
                            ∖ vertex_used (bpy.edges mesh)))
  /\ (forall i, i ∈ index_set (List.length (bpy.vertices mesh)) ∖ vertex_used (bpy.edges mesh)
                <-> (i < List.length (bpy.vertices mesh))%nat
                    /\ forall e, In e (bpy.edges mesh) ->
                         i <> fst (bpy.edge_vertices e) /\ i <> snd (bpy.edge_vertices e))
  /\ (0 < loose ->
      In (loose_warning (bpy.name obj) loose)
         (warnings_added report (_validate_mesh obj mesh report))).
Proof.
  intros Hrange loose.
  assert (Hsub : vertex_used (bpy.edges mesh) ⊆ index_set (List.length (bpy.vertices mesh))).
  { intros i Hi. apply elem_of_vertex_used in Hi. destruct Hi as (e & Hin & He).
    apply elem_of_index_set. destruct (Hrange e Hin). destruct He; subst; assumption. }
  split; [|split].
  - subst loose. unfold Py.len.
    rewrite (size_difference _ _ Hsub), size_index_set.
    pose proof (subseteq_size _ _ Hsub) as Hle. rewrite size_index_set in Hle. lia.
  - intros i. rewrite elem_of_difference, elem_of_index_set, elem_of_vertex_used.
    split.
    + intros [Hlt Hnot]. split; [exact Hlt|]. intros e Hin.
      split; intros ->; apply Hnot; exists e; auto.
    + intros [Hlt Hnot]. split; [exact Hlt|]. intros (e & Hin & He).
      destruct (Hnot e Hin) as [H1 H2]. destruct He; contradiction.
  - intros Hpos. unfold warnings_added, _validate_mesh.
    match goal with
    | |- context [check_scale ?n ?it ?r0] =>
        destruct (check_scale_frame n it r0) as (_ & Hw & _);
        cbn [warnings append_object set_stats] in Hw;
        generalize dependent (check_scale n it r0)
    end.
    intros r1 Hw. fold loose.
    destruct (loose >? 0) eqn:Hgt;
      [|rewrite Z.gtb_ltb in Hgt; apply Z.ltb_ge in Hgt; lia].
    change ("'" ++ bpy.name obj ++ "': " ++ Py.str_int loose ++ " loose vertices")
      with (loose_warning (bpy.name obj) loose).
    repeat match goal with
           | |- context [if ?b then _ else _] => destruct b
           end;
      destruct (bpy.uv_layers mesh);
      cbn [warnings append_warning append_issue]; rewrite Hw;
      rewrite <- ?app_assoc; rewrite drop_app_length;
      rewrite ?in_app_iff; cbn [In]; tauto.
Qed.

(** A quad with a stray fifth vertex: one loose vertex. *)
Lemma loose_vertices_counted_witness :
  In "'SM_Crate': 1 loose vertices"
     (warnings_added (new_report Sim.sword_blend)
        (_validate_mesh (Sim.mesh_object "SM_Crate" Sim.unit_vec ["UVMap"])
           Sim.quad_and_stray (new_report Sim.sword_blend))).
Proof.
  refine (proj2 (proj2 (loose_vertices_counted
                          (Sim.mesh_object "SM_Crate" Sim.unit_vec ["UVMap"])
                          Sim.quad_and_stray (new_report Sim.sword_blend) _)) _).
  - intros e He. cbn in He.
    repeat (destruct He as [<-|He]; [cbn; lia|]). destruct He.
  - vm_compute. reflexivity.
Defined.

(** ** The validator over a run *)

Lemma sum_by_app {A} (f : A -> Z) (l k : list A) :
  sum_by f (l ++ k)%list = sum_by f l + sum_by f k.
Proof.
  unfold sum_by. induction l as [|a l IH]; cbn [List.app List.fold_right]; lia.
Qed.

Section Validation.
Context {W : Type} `{Host W} `{ReportHost W}.

Lemma validate_file_coherent self filepath (m m' : machine W) self' report :
  validate_file self filepath m = (Ok (self', report), m') ->
  coherent self -> coherent self'.
Proof.
  intros Hrun [Htot Hall]. apply validate_file_returns in Hrun.
  destruct Hrun as [Hrep ->]. split; cbn [results total_issues].
  - rewrite sum_by_app, Htot. unfold sum_by. cbn. lia.
  - apply Forall_app. split; [exact Hall|]. constructor; [|constructor].
    rewrite Hrep. apply inspect_valid.
Qed.

Lemma print_each_returns prefix lines : forall m : machine W,
  exists m', print_each prefix lines m = (Ok tt, m') /\ world m' = world m.
Proof.
  induction lines as [|line lines IH]; intros m; cbn [print_each].
  - now exists m.
  - unfold bind, print. destruct (IH (log (EvPrint (prefix ++ line)) m)) as (m' & E & Hw).
    exists m'. split; [exact E|]. rewrite Hw. reflexivity.
Qed.

Lemma emits_print_each prefix lines :
  emits (W := W) (print_each prefix lines) validation_event (fun _ => True).
Proof.
  induction lines as [|line lines IH]; cbn [print_each].
  - now apply emits_ret.
  - eapply emits_bind; [apply emits_print; exact I|]. intros _ _. exact IH.
Qed.

(** A turn of the loop that returns has validated its file, and returns the
    validator [validate_file] returned. *)
Lemma validate_and_print_returns validator filepath (m m' : machine W) validator' :
  validate_and_print validator filepath m = (Ok validator', m') ->
  exists report m1,
    validate_file validator filepath
      (log (EvPrint ("Validating: " ++ PurePath.name filepath)) m)
    = (Ok (validator', report), m1).
Proof.
  unfold validate_and_print. unfold bind at 1. unfold print at 1.
  unfold bind at 1.
  destruct (validate_file validator filepath _) as [[[v1 report]|e] m1]; [|discriminate].
  intros Hrest. exists report, m1. do 2 f_equal. f_equal.
  revert Hrest. unfold bind, lift, print, ret.
  destruct (get_valid report) as [v|e]; [|discriminate].
  destruct v.
  - destruct (warnings report).
    + intros E. now injection E as ->.
    + destruct (print_each_returns "    [WARN] " (s :: l)
                  (log (EvPrint ("  [PASS] " ++ Py.str_int (total_vertices (stats report))
                                   ++ " verts, "
                                   ++ Py.str_int (total_faces (stats report)) ++ " faces")) m1))
        as (m2 & -> & _).
      intros E. now injection E as ->.
  - destruct (print_each_returns "    - " (issues report)
                (log (EvPrint ("  [FAIL] " ++ Py.str_int (Py.len (issues report))
                                 ++ " issues:")) m1)) as (m2 & -> & _).
    destruct (warnings report).
    + intros E. now injection E as ->.
    + destruct (print_each_returns "    [WARN] " (s :: l) m2) as (m3 & -> & _).
      intros E. now injection E as ->.
Qed.

Lemma validate_and_print_raises validator filepath (m m' : machine W) e :
  validate_file validator filepath
    (log (EvPrint ("Validating: " ++ PurePath.name filepath)) m) = (Raise e, m') ->
  validate_and_print validator filepath m = (Raise e, m').
Proof.
  intros Hrun. unfold validate_and_print. unfold bind at 1. unfold print at 1.
  unfold bind at 1. rewrite Hrun. reflexivity.
Qed.

Lemma validate_loop_app pre post : forall validator (m : machine W),
  validate_loop (pre ++ post) validator m
  = (v <- validate_loop pre validator ;; validate_loop post v) m.
Proof.
  induction pre as [|f pre IH]; intros validator m.
  - reflexivity.
  - cbn [List.app validate_loop]. unfold bind.
    destruct (validate_and_print validator f m) as [[v1|e] m1]; [|reflexivity].
    rewrite IH. reflexivity.
Qed.

Lemma emits_validate_file self filepath :
  emits (validate_file self filepath) validation_event (fun _ => True).
Proof.
  unfold validate_file, read_homefile, open_mainfile.
  eapply emits_bind; [apply emits_call; exact I|]. intros _ _.
  eapply emits_bind; [apply emits_call; exact I|]. intros _ _.
  eapply emits_bind with (Q := fun _ => True).
  { intros m. cbn. split; [|auto]. exists [EvDataObjects]. split; [reflexivity|].
    constructor; [exact I|constructor]. }
  intros objs _.
  eapply emits_bind with (Q := fun _ => True).
  { intros m. cbn. split; [|auto]. exists [EvDataMaterials]. split; [reflexivity|].
    constructor; [exact I|constructor]. }
  intros mats _. now apply emits_ret.
Qed.

Lemma emits_lift {A} (o : outcome A) P : emits (W := W) (lift o) P (fun _ => True).
Proof.
  intros m. cbn. split; [|auto]. exists []. rewrite app_nil_r. auto.
Qed.

Lemma emits_validate_and_print validator filepath :
  emits (validate_and_print validator filepath) validation_event (fun _ => True).
Proof.
  unfold validate_and_print.
  eapply emits_bind; [apply emits_print; exact I|]. intros _ _.
  eapply emits_bind; [apply emits_validate_file|]. intros [v1 report] _.
  eapply emits_bind; [apply emits_lift|]. intros v _.
  eapply emits_bind with (Q := fun _ => True).
  { destruct v.
    - apply emits_print. exact I.
    - eapply emits_bind; [apply emits_print; exact I|]. intros _ _.
      apply emits_print_each. }
  intros _ _.
  eapply emits_bind with (Q := fun _ => True).
  { destruct (warnings report); [now apply emits_ret|apply emits_print_each]. }
  intros _ _.
  eapply emits_bind; [apply emits_print; exact I|]. intros _ _.
  now apply emits_ret.
Qed.

Lemma emits_validate_loop blend_files : forall validator,
  emits (validate_loop blend_files validator) validation_event (fun _ => True).
Proof.
  induction blend_files as [|f rest IH]; intros validator; cbn [validate_loop].
  - now apply emits_ret.
  - eapply emits_bind; [apply emits_validate_and_print|]. intros v _. apply IH.
Qed.

End Validation.

Lemma check_scale_file name items : forall r,
  file (check_scale name items r) = file r.
Proof.
  induction items as [|[i [s e]] rest IH]; intros r; cbn [check_scale]; [reflexivity|].
  rewrite IH. now destruct (scale_off s e).
Qed.

Lemma visit_object_file r obj : file (visit_object r obj) = file r.
Proof.
  unfold visit_object. destruct (bpy.data obj) as [mesh|armature|ty]; [| |reflexivity].
  - unfold _validate_mesh.
    match goal with
    | |- context [check_scale ?n ?it ?r0] =>
        pose proof (check_scale_file n it r0) as Hf;
        cbn [file append_object set_stats] in Hf;
        generalize dependent (check_scale n it r0)
    end.
    intros r1 Hf.
    repeat match goal with
           | |- context [if ?b then _ else _] => destruct b
           end;
      destruct (bpy.uv_layers mesh); cbn [file append_warning append_issue];
      exact Hf.
  - unfold _validate_armature.
    repeat match goal with
           | |- context [if ?b then _ else _] => destruct b
           end; reflexivity.
Qed.

Lemma inspect_file filepath objs mats :
  file (inspect filepath objs mats) = PurePath.name filepath.
Proof.
  unfold inspect, overall_checks.
  assert (Hobjs : forall r, file (List.fold_left visit_object objs r) = file r).
  { induction objs as [|obj objs IH]; intros r; [reflexivity|].
    cbn [List.fold_left]. now rewrite IH, visit_object_file. }
  assert (Hmats : forall r, file (List.fold_left visit_material mats r) = file r).
  { induction mats as [|mat mats IH]; intros r; [reflexivity|].
    cbn [List.fold_left]. rewrite IH. unfold visit_material.
    now destruct (negb (bpy.use_nodes mat)). }
  match goal with |- context [if ?b then _ else _] => destruct b end;
    cbn [file set_valid append_issue]; now rewrite Hmats, Hobjs.
Qed.

Lemma coherent_init : coherent __init__.
Proof. split; [reflexivity|constructor]. Qed.

(** X5: over the files of a run, the validator keeps one report per file,
    in the order of the files and under the file's name, and its counter of
    issues stays the sum of the lengths of their issue lists; each report has
    its ["valid"] entry. *)
Theorem validate_loop_accumulates (W : Type) (H : Host W) (RH : ReportHost W)
    (blend_files : list Path) (validator : ModelValidator) (m m' : machine W)
    (validator' : ModelValidator) :
  validate_loop blend_files validator m = (Ok validator', m') ->
  coherent validator ->
  coherent validator'
  /\ List.map file (results validator')
     = (List.map file (results validator) ++ List.map PurePath.name blend_files)%list.
Proof.
  revert validator m. induction blend_files as [|f rest IH]; intros validator m.
  - cbn. intros E Hco. injection E as <- _. rewrite app_nil_r. auto.
  - cbn [validate_loop]. unfold bind.
    destruct (validate_and_print validator f m) as [[v1|e] m1] eqn:Hstep; [|discriminate].
    intros Hrest Hco.
    apply validate_and_print_returns in Hstep. destruct Hstep as (report & m2 & Hfile).
    pose proof (validate_file_coherent _ _ _ _ _ _ Hfile Hco) as Hco1.
    destruct (IH v1 m1 Hrest Hco1) as [Hco' Hnames]. split; [exact Hco'|].
    rewrite Hnames. apply validate_file_returns in Hfile. destruct Hfile as [Hrep ->].
    cbn [results]. rewrite map_app. cbn [List.map]. rewrite Hrep, inspect_file.
    now rewrite <- app_assoc.
Qed.

(** Three files, three reports, two issues in all. *)
Lemma validate_loop_accumulates_witness :
  exists validator' m',
    validate_loop [Sim.sword_blend; Sim.hero_blend; Sim.blob_blend] __init__
      (Sim.boot Sim.fresh) = (Ok validator', m')
    /\ List.map file (results validator') = ["sword_01.blend"; "hero.blend"; "blob.blend"]
    /\ total_issues validator' = 2.
Proof.
  eexists _, _. split; [reflexivity|].
  split.
  - refine (proj2 (validate_loop_accumulates Sim.World Sim.host Sim.report_host
                     [Sim.sword_blend; Sim.hero_blend; Sim.blob_blend] __init__
                     (Sim.boot Sim.fresh) _ _ _ coherent_init));
      reflexivity.
  - reflexivity.
Defined.

Lemma count_where_coherent test rs :
  Forall (fun r => valid r = Some (Py.len (issues r) =? 0)) rs ->
  count_where test rs
  = Ok (Py.len (List.filter (fun r => test (Py.len (issues r) =? 0)) rs)).
Proof.
  induction 1 as [|r rs Hr Hrs IH]; [reflexivity|].
  cbn [count_where List.filter]. unfold get_valid. rewrite Hr, IH.
  destruct (test (Py.len (issues r) =? 0)); [|reflexivity].
  f_equal. unfold Py.len. cbn [List.length]. lia.
Qed.

Lemma filter_partition_len {A} (p : A -> bool) (l : list A) :
  Py.len (List.filter p l) + Py.len (List.filter (fun a => negb (p a)) l) = Py.len l.
Proof.
  unfold Py.len. induction l as [|a l IH]; [reflexivity|].
  cbn [List.filter]. destruct (p a); cbn [negb List.length]; lia.
Qed.

Lemma sum_of_lengths_zero (rs : list Report) :
  sum_by (fun r => Py.len (issues r)) rs = 0
  <-> List.filter (fun r => negb (Py.len (issues r) =? 0)) rs = [].
Proof.
  unfold sum_by. induction rs as [|r rs IH]; cbn [List.fold_right List.filter].
  - tauto.
  - pose proof (len_nonneg (issues r)) as Hr.
    assert (Hs : 0 <= List.fold_right (fun a acc => Py.len (issues a) + acc) 0 rs).
    { clear. induction rs as [|a rs IH]; cbn [List.fold_right]; [lia|].
      pose proof (len_nonneg (issues a)). lia. }
    destruct (Py.len (issues r) =? 0) eqn:Hz; cbn [negb].
    + apply Z.eqb_eq in Hz. rewrite <- IH. lia.
    + apply Z.eqb_neq in Hz. split; [lia|discriminate].
Qed.

(** X6: for a validator built by [validate_file], the summary of
    [generate_report] is computed without a [KeyError]; it counts every report
    as valid or invalid, the valid ones being those without issue, and it
    shows no invalid file exactly when its total of issues is zero. *)
Theorem summary_counts (self : ModelValidator) (now : string) :
  coherent self ->
  exists summary,
    build_summary self now = Ok summary
    /\ summary_total_files summary = Py.len (results self)
    /\ valid_files summary + invalid_files summary = summary_total_files summary
    /\ valid_files summary
       = Py.len (List.filter (fun r => Py.len (issues r) =? 0) (results self))
    /\ (invalid_files summary = 0 <-> summary_total_issues summary = 0).
Proof.
  intros [Htot Hall]. unfold build_summary.
  rewrite (count_where_coherent (fun v => v) _ Hall),
          (count_where_coherent negb _ Hall).
  eexists. split; [reflexivity|].
  cbn [summary_total_files valid_files invalid_files summary_total_issues].
  split; [reflexivity|]. split; [apply filter_partition_len|]. split; [reflexivity|].
  rewrite Htot, sum_of_lengths_zero. unfold Py.len.
  destruct (List.filter _ (results self)); cbn [List.length]; split;
    try reflexivity; try discriminate; lia.
Qed.

Lemma summary_counts_witness :
  exists summary,
    build_summary
      {| results := [inspect Sim.hero_blend (bpy.objects Sim.hero_scene)
                       (bpy.materials Sim.hero_scene)];
         total_issues := 2 |} "2026-01-01T12:00:00" = Ok summary
    /\ valid_files summary + invalid_files summary = summary_total_files summary.
Proof.
  destruct (summary_counts
              {| results := [inspect Sim.hero_blend (bpy.objects Sim.hero_scene)
                               (bpy.materials Sim.hero_scene)];
                 total_issues := 2 |} "2026-01-01T12:00:00")
    as (summary & Hs & _ & Hsum & _).
  - split; [reflexivity|]. constructor; [reflexivity|constructor].
  - exists summary. auto.
Defined.

(** X7: [validate_models.py] has no per-file error boundary. A file that
    fails to load makes [validate_file] raise before any read of the scene;
    the loop stops at that file, so the files after it are never opened; and
    [main] raises with the same exception at the same point, having made
    only prints, loads and scene reads: the report directory is not created
    and no report is written. *)
Theorem validation_aborts_on_load_failure (W : Type) (H : Host W) (RH : ReportHost W) :
  (forall (self : ModelValidator) (filepath : Path) (m : machine W) (w1 w2 : W) (e : exn),
      bpy_read_homefile (world m) = (Ok tt, w1) ->
      bpy_open_mainfile (PurePath.str filepath) w1 = (Raise e, w2) ->
      validate_file self filepath m
      = (Raise e,
         {| world := w2;
            trace := (trace m ++ [EvReadHomefile;
                                  EvOpenMainfile (PurePath.str filepath)])%list |}))
  /\ (forall (pre : list Path) (filepath : Path) (post : list Path)
             (validator validator_k : ModelValidator) (m m_k m' : machine W) (e : exn),
         validate_loop pre validator m = (Ok validator_k, m_k) ->
         validate_file validator_k filepath
           (log (EvPrint ("Validating: " ++ PurePath.name filepath)) m_k) = (Raise e, m') ->
         validate_loop (pre ++ filepath :: post) validator m = (Raise e, m'))
  /\ (forall (m m' : machine W) (filepath : Path) (rest : list Path) (e : exn),
         fs_rglob_blend (world m) MODELS_DIR = filepath :: rest ->
         validate_loop (filepath :: rest) __init__
           (log (EvPrint ("Found " ++ Py.str_int (Py.len (filepath :: rest))
                            ++ " models to validate" ++ Py.nl))
              (snd (header m))) = (Raise e, m') ->
         main m = (Raise e, m')
         /\ Forall validation_event (events_added m m')).
Proof.
  split; [|split].
  - intros self filepath m w1 w2 e Hr Ho.
    unfold validate_file, bind, read_homefile, open_mainfile, call.
    rewrite Hr. cbn [world trace]. rewrite Ho. now rewrite <- app_assoc.
  - intros pre filepath post validator validator_k m m_k m' e Hpre Hfile.
    rewrite validate_loop_app. unfold bind at 1. rewrite Hpre.
    cbn [validate_loop]. unfold bind.
    now rewrite (validate_and_print_raises _ _ _ _ _ Hfile).
  - intros m m' filepath rest e Hfound Hloop.
    assert (Hmain : main m = (Raise e, m')).
    { unfold main. unfold bind at 1.
      change (header m) with (Ok tt, snd (header m)).
      unfold bind at 1. unfold ask at 1.
      change (world (snd (header m))) with (world m). rewrite Hfound.
      unfold validate_all. unfold bind at 1. unfold print at 1.
      unfold bind at 1. rewrite Hloop. reflexivity. }
    split; [exact Hmain|].
    destruct (emits_validate_loop (filepath :: rest) __init__
                (log (EvPrint ("Found " ++ Py.str_int (Py.len (filepath :: rest))
                                 ++ " models to validate" ++ Py.nl))
                   (snd (header m)))) as [(d & Ht & Hd) _].
    rewrite Hloop in Ht. cbn [snd] in Ht.
    unfold events_added. rewrite Ht. cbn [header log trace snd bind print].
    cbn. rewrite <- !app_assoc. rewrite drop_app_length.
    cbn [List.app]. repeat (constructor; [exact I|]). exact Hd.
Qed.

(** With the hero's file unreadable, the run stops at it. *)
Lemma validation_aborts_on_load_failure_witness :
  fst (validate_models.main (Sim.boot Sim.faulty))
  = Raise "Error: Cannot read file '/repo/blender/models/characters/hero.blend'".
Proof.
  destruct (proj2 (proj2 (validation_aborts_on_load_failure
                            Sim.World Sim.host Sim.report_host))
              (Sim.boot Sim.faulty) _ Sim.sword_blend [Sim.hero_blend; Sim.blob_blend]
              "Error: Cannot read file '/repo/blender/models/characters/hero.blend'"
              eq_refl eq_refl) as [Hmain _].
  rewrite Hmain. reflexivity.
Defined.

(** X8: run over a tree without .blend file, [main] of the validator prints
    its header and two notice lines and returns: it loads nothing, creates no
    directory and writes no report. *)
Theorem validation_of_empty_tree (W : Type) (H : Host W) (RH : ReportHost W)
    (m : machine W) :
  fs_rglob_blend (world m) MODELS_DIR = [] ->
  main m
  = (Ok tt,
     {| world := world m;
        trace :=
          (trace m
           ++ [ EvPrint (Py.repeat_str "=" 60);
                EvPrint "Tower Game - Model Validator";
                EvPrint ("Models dir: " ++ PurePath.str MODELS_DIR);
                EvPrint (Py.repeat_str "=" 60);
                EvPrint "No .blend files found.";
                EvPrint ("Place models in: " ++ PurePath.str MODELS_DIR) ])%list |}).
Proof.
  intros Hfound. unfold main, header, bind, print, ask, ret, log.
  cbn [world trace]. rewrite Hfound. cbn [world trace].
  now rewrite <- !app_assoc.
Qed.

Lemma validation_of_empty_tree_witness :
  fst (validate_models.main (Sim.boot Sim.bare)) = Ok tt.
Proof.
  rewrite (validation_of_empty_tree Sim.World Sim.host Sim.report_host
             (Sim.boot Sim.bare) eq_refl).
  reflexivity.
Defined.

(** ** [validate_model] of the batch exporter *)

Lemma filter_nil_existsb {A} (p : A -> bool) (l : list A) :
  List.filter p l = [] <-> List.existsb p l = false.
Proof.
  induction l as [|a l IH]; cbn [List.filter List.existsb]; [tauto|].
  destruct (p a); cbn [orb]; [split; discriminate|exact IH].
Qed.

Lemma scale_any_off (obj : bpy.Object) :
  List.existsb
    (fun s => PyFloat.gt (PrimFloat.abs (PrimFloat.sub s 1.0%float)) 0.001%float)
    (bpy.components (bpy.scale obj))
  = negb (scale_applied obj).
Proof.
  rewrite scale_applied_test. unfold scale_off, SCALE_TOLERANCE.
  destruct (bpy.scale obj) as [sx sy sz]. cbn.
  repeat match goal with
         | |- context [PrimFloat.ltb ?a ?b] => destruct (PrimFloat.ltb a b)
         end; reflexivity.
Qed.

Lemma check_object_issues float_repr acc obj :
  snd (batch_export.check_object float_repr acc obj) = []
  <-> snd acc = [] /\ model_passes obj = true.
Proof.
  unfold batch_export.check_object, model_passes, has_ngon, has_uv.
  destruct acc as [st iss]. cbn [snd].
  destruct (bpy.data obj) as [mesh|armature|ty]; cbn [snd]; [|tauto|tauto].
  rewrite scale_any_off.
  pose proof (filter_nil_existsb (fun p => Py.len (bpy.poly_vertices p) >? 4)
                (bpy.polygons mesh)) as Hng.
  destruct (List.filter _ (bpy.polygons mesh)) as [|ng ngs];
    destruct (List.existsb _ (bpy.polygons mesh));
    try (exfalso; destruct Hng as [H1 H2];
         solve [discriminate (H1 eq_refl) | discriminate (H2 eq_refl)]);
    destruct (bpy.uv_layers mesh); destruct (scale_applied obj); cbn;
    split; try (intros [-> _]; reflexivity);
    try (intros [_ E]; discriminate E);
    try (intros E; split; [exact E|reflexivity]);
    intros E; repeat (apply app_eq_nil in E; destruct E as [E ?]);
    try discriminate; auto.
Qed.

Lemma fold_check_object_issues float_repr objs : forall acc,
  snd (List.fold_left (batch_export.check_object float_repr) objs acc) = []
  <-> snd acc = [] /\ forall obj, In obj objs -> model_passes obj = true.
Proof.
  induction objs as [|obj objs IH]; intros acc; cbn [List.fold_left].
  - split; [intros E; split; [exact E|intros ? []]|intros [E _]; exact E].
  - rewrite IH, check_object_issues. split.
    + intros [[Ha Ho] Hall]. split; [exact Ha|]. intros o [<-|Hin]; auto.
    + intros [Ha Hall]. split; [split; [exact Ha|]|]; auto using in_eq, in_cons.
Qed.

Lemma fold_check_object_stats float_repr objs : forall acc,
  let st := fst (List.fold_left (batch_export.check_object float_repr) objs acc) in
  batch_export.vertices st = batch_export.vertices (fst acc) + sum_by mesh_vertices objs
  /\ batch_export.faces st = batch_export.faces (fst acc) + sum_by mesh_faces objs
  /\ batch_export.objects st
     = batch_export.objects (fst acc) + Py.len (List.filter is_mesh objs)
  /\ batch_export.armatures st
     = batch_export.armatures (fst acc) + Py.len (List.filter is_armature objs).
Proof.
  induction objs as [|obj objs IH]; intros acc; cbv zeta.
  - unfold Py.len. cbn. repeat split; lia.
  - cbn [List.fold_left].
    destruct (IH (batch_export.check_object float_repr acc obj)) as (Hv & Hf & Ho & Ha).
    cbv zeta in *. rewrite Hv, Hf, Ho, Ha.
    unfold batch_export.check_object, sum_by, mesh_vertices, mesh_faces, is_mesh,
      is_armature, Py.len.
    destruct acc as [st iss]. cbn [fst List.fold_right List.filter].
    destruct (bpy.data obj);
      cbn [fst batch_export.vertices batch_export.faces batch_export.objects
           batch_export.armatures List.length];
      repeat split; lia.
Qed.

(** X9: the dict [validate_model] returns is valid exactly when every mesh
    object of the scene has no polygon of more than four vertices, has a UV
    layer and has no scale component found off, that is each component [s]
    has [abs(s - 1.0) <= 0.001] or [abs(s - 1.0)] not a number (a NaN
    component passes). Unlike [validate_file], it counts an n-gon as an
    issue, and it asks nothing of armatures or of the vertex total. *)
Theorem validate_model_valid_iff (W : Type) (H : Host W) (float_repr : float -> string)
    (filepath : Path) (m : machine W) :
  exists check,
    batch_export.validate_model float_repr filepath m = (Ok check, log EvDataObjects m)
    /\ (batch_export.valid check = true
        <-> forall obj, In obj (bpy.objects (bpy_data (world m))) ->
                        model_passes obj = true).
Proof.
  unfold batch_export.validate_model, bind, data_objects, ret.
  pose proof (fold_check_object_issues float_repr (bpy.objects (bpy_data (world m)))
                ({| batch_export.vertices := 0; batch_export.faces := 0;
                    batch_export.objects := 0; batch_export.armatures := 0 |}, []))
    as Hiss.
  destruct (List.fold_left _ _ _) as [st iss]. cbn [snd] in Hiss.
  eexists. split; [reflexivity|]. cbn [batch_export.valid].
  rewrite len_zero_iff, Hiss. split; [now intros [_ Hall]|auto].
Qed.

(** X10: the statistics of [validate_model] are sums over the scene:
    vertices and faces over the mesh objects, and the numbers of mesh objects
    and of armatures; the dict carries the path it was given. *)
Theorem validate_model_statistics (W : Type) (H : Host W) (float_repr : float -> string)
    (filepath : Path) (m : machine W) :
  exists check,
    batch_export.validate_model float_repr filepath m = (Ok check, log EvDataObjects m)
    /\ batch_export.file check = PurePath.str filepath
    /\ batch_export.stats check
       = {| batch_export.vertices := sum_by mesh_vertices (bpy.objects (bpy_data (world m)));
            batch_export.faces := sum_by mesh_faces (bpy.objects (bpy_data (world m)));
            batch_export.objects :=
              Py.len (List.filter is_mesh (bpy.objects (bpy_data (world m))));
            batch_export.armatures :=
              Py.len (List.filter is_armature (bpy.objects (bpy_data (world m)))) |}.
Proof.
  unfold batch_export.validate_model, bind, data_objects, ret.
  pose proof (fold_check_object_stats float_repr (bpy.objects (bpy_data (world m)))
                ({| batch_export.vertices := 0; batch_export.faces := 0;
                    batch_export.objects := 0; batch_export.armatures := 0 |}, []))
    as Hst.
  destruct (List.fold_left _ _ _) as [st iss]. cbv zeta in Hst. cbn [fst] in Hst.
  eexists. split; [reflexivity|]. split; [reflexivity|].
  cbn [batch_export.stats batch_export.vertices batch_export.faces
       batch_export.objects batch_export.armatures] in *.
  destruct Hst as (Hv & Hf & Ho & Ha). destruct st as [v f o a]. cbn in *.
  subst. reflexivity.
Qed.

(** ** More on [get_category] and the output paths *)

Lemma get_category_loop_range items name_lower parent_lower :
  In (get_category_loop items name_lower parent_lower)
     (List.map snd items ++ ["Misc"])%list.
Proof.
  induction items as [|[key category] rest IH]; cbn [get_category_loop List.map List.app].
  - now left.
  - destruct (Py.contains key name_lower || Py.contains key parent_lower).
    + now left.
    + right. exact IH.
Qed.

(** X11: whatever the path, the category is one of the eight display names
    of the table or ["Misc"], so every output path is
    [EXPORT_DIR/<one of nine directories>/<stem>.fbx]. *)
Theorem output_path_in_category_dir (W : Type) (H : Host W) (blend_path : Path) :
  In (get_category blend_path)
     ["Characters"; "Weapons"; "Armor"; "Monsters"; "Environment"; "Props"; "VFX";
      "UI"; "Misc"]
  /\ batch_export.export_path_of blend_path
     = (batch_export.EXPORT_DIR
        ++ [get_category blend_path; (PurePath.stem blend_path ++ ".fbx")%string])%list
  /\ PurePath.name (PurePath.parent (batch_export.export_path_of blend_path))
     = get_category blend_path.
Proof.
  split; [apply (get_category_loop_range ASSET_CATEGORIES)|].
  unfold batch_export.export_path_of, PurePath.join, PurePath.name, PurePath.parent.
  split.
  - now rewrite <- app_assoc.
  - now rewrite removelast_last, last_last.
Qed.

(** X12: only the file name and the directory that holds the file count:
    the directories above play no part, so a keyword in a grandparent
    directory does not classify the file. *)
Theorem get_category_local (W : Type) (H : Host W) (above : Path)
    (directory file_name : string) :
  get_category (above ++ [directory; file_name])%list
  = get_category [directory; file_name].
Proof.
  unfold get_category, PurePath.stem, PurePath.name, PurePath.parent.
  change (above ++ [directory; file_name])%list
    with (above ++ [directory] ++ [file_name])%list.
  rewrite app_assoc, removelast_last, !last_last. reflexivity.
Qed.

(** A sword two levels below [weapons] is not a weapon. *)
Example grandparent_keyword_ignored (W : Type) (H : Host W) :
  get_category ["repo"; "blender"; "models"; "weapons"; "old"; "blade.blend"] = "Misc"
  /\ get_category ["repo"; "blender"; "models"; "weapons"; "blade.blend"] = "Weapons".
Proof. split; now rewrite get_category_ascii. Qed.

(** ** More on the batch run *)

(** X13: the exporter is never called on a scene that did not load. When
    clearing the scene, loading the file or ensuring the output directory
    raises, [export_blend_to_fbx] stops there, prints the failure and returns
    [False]: the trace shows no export call. *)
Theorem no_export_without_load (W : Type) (H : Host W)
    (blend_path export_path : Path) (m : machine W) :
  let failed e := EvPrint ("  [FAIL] " ++ PurePath.name blend_path ++ ": " ++ e) in
  (forall e w1,
      bpy_read_homefile (world m) = (Raise e, w1) ->
      batch_export.export_blend_to_fbx blend_path export_path m
      = (Ok false,
         {| world := w1; trace := (trace m ++ [EvReadHomefile; failed e])%list |}))
  /\ (forall e w1 w2,
         bpy_read_homefile (world m) = (Ok tt, w1) ->
         bpy_open_mainfile (PurePath.str blend_path) w1 = (Raise e, w2) ->
         batch_export.export_blend_to_fbx blend_path export_path m
         = (Ok false,
            {| world := w2;
               trace := (trace m ++ [EvReadHomefile;
                                     EvOpenMainfile (PurePath.str blend_path);
                                     failed e])%list |}))
  /\ (forall e w1 w2 w3,
         bpy_read_homefile (world m) = (Ok tt, w1) ->
         bpy_open_mainfile (PurePath.str blend_path) w1 = (Ok tt, w2) ->
         fs_mkdir (PurePath.parent export_path) w2 = (Raise e, w3) ->
         batch_export.export_blend_to_fbx blend_path export_path m
         = (Ok false,
            {| world := w3;
               trace := (trace m ++ [EvReadHomefile;
                                     EvOpenMainfile (PurePath.str blend_path);
                                     EvMkdir (PurePath.parent export_path);
                                     failed e])%list |})).
Proof.
  cbv zeta.
  unfold batch_export.export_blend_to_fbx, try_except, batch_export.export_attempt,
    batch_export.export_failed, bind, batch_export.clean_scene, batch_export.ensure_dir,
    read_homefile, open_mainfile, mkdir_parents, export_scene_fbx, call, print, ret, log.
  split; [|split].
  - intros e w1 Hr. rewrite Hr. cbn [world trace]. now rewrite <- !app_assoc.
  - intros e w1 w2 Hr Ho. rewrite Hr. cbn [world trace]. rewrite Ho.
    cbn [world trace]. now rewrite <- !app_assoc.
  - intros e w1 w2 w3 Hr Ho Hm. rewrite Hr. cbn [world trace]. rewrite Ho.
    cbn [world trace]. rewrite Hm. cbn [world trace]. now rewrite <- !app_assoc.
Qed.

(** The hero's file does not load: the exporter is not called. *)
Lemma no_export_without_load_witness :
  trace (snd (batch_export.export_blend_to_fbx Sim.hero_blend
                (batch_export.export_path_of Sim.hero_blend) (Sim.boot Sim.faulty)))
  = [ EvReadHomefile;
      EvOpenMainfile "/repo/blender/models/characters/hero.blend";
      EvPrint "  [FAIL] hero.blend: Error: Cannot read file '/repo/blender/models/characters/hero.blend'" ].
Proof.
  rewrite (proj1 (proj2 (no_export_without_load Sim.World Sim.host Sim.hero_blend
                           (batch_export.export_path_of Sim.hero_blend)
                           (Sim.boot Sim.faulty)))
             "Error: Cannot read file '/repo/blender/models/characters/hero.blend'"
             _ _ eq_refl eq_refl).
  reflexivity.
Defined.

Lemma batch_banner_run {W : Type} `{Host W} {A : Type} (k : M W A) (m : machine W) :
  (print batch_export.rule ;;;
   print "Tower Game - Blender Batch Export" ;;;
   now <- now_isoformat ;;
   print ("Time: " ++ now) ;;;
   print ("Models dir: " ++ PurePath.str batch_export.MODELS_DIR) ;;;
   print ("Export dir: " ++ PurePath.str batch_export.EXPORT_DIR) ;;;
   print batch_export.rule ;;;
   k) m
  = k {| world := world m; trace := (trace m ++ batch_banner (world m))%list |}.
Proof.
  unfold bind, print, now_isoformat, ask, log, batch_banner.
  cbn [world trace]. rewrite <- !app_assoc. reflexivity.
Qed.

(** X14: run over a tree without .blend file, the batch exporter creates
    its export directory, prints two notice lines and returns: it loads
    nothing, exports nothing and writes no summary record. *)
Theorem batch_of_empty_tree (W : Type) (H : Host W) (m : machine W) (w1 : W) :
  fs_mkdir batch_export.EXPORT_DIR (world m) = (Ok tt, w1) ->
  fs_rglob_blend w1 batch_export.MODELS_DIR = [] ->
  batch_export.main m
  = (Ok tt,
     {| world := w1;
        trace :=
          (trace m ++ batch_banner (world m)
           ++ [ EvMkdir batch_export.EXPORT_DIR;
                EvPrint "No .blend files found in models directory.";
                EvPrint ("Place your models in: "
                           ++ PurePath.str batch_export.MODELS_DIR) ])%list |}).
Proof.
  intros Hmk Hfound.
  unfold batch_export.main. rewrite batch_banner_run.
  unfold bind, batch_export.ensure_dir, mkdir_parents, call, ask, print, ret, log.
  cbn [world trace]. rewrite Hmk. cbn [world trace]. rewrite Hfound.
  cbn [world trace]. now rewrite <- !app_assoc.
Qed.

Lemma batch_of_empty_tree_witness :
  fst (batch_export.main (Sim.boot Sim.bare)) = Ok tt
  /\ Sim.dumped (trace (snd (batch_export.main (Sim.boot Sim.bare)))) = [].
Proof.
  rewrite (batch_of_empty_tree Sim.World Sim.host (Sim.boot Sim.bare) Sim.bare
             eq_refl eq_refl).
  split; reflexivity.
Defined.

(** X15: when the export directory cannot be created, the batch stops
    before it looks for files: [main] raises the error of the [mkdir], having
    only printed its banner. *)
Theorem batch_needs_export_dir (W : Type) (H : Host W) (m : machine W) (w1 : W)
    (e : exn) :
  fs_mkdir batch_export.EXPORT_DIR (world m) = (Raise e, w1) ->
  batch_export.main m
  = (Raise e,
     {| world := w1;
        trace := (trace m ++ batch_banner (world m)
                  ++ [EvMkdir batch_export.EXPORT_DIR])%list |}).
Proof.
  intros Hmk.
  unfold batch_export.main. rewrite batch_banner_run.
  unfold bind, batch_export.ensure_dir, mkdir_parents, call.
  cbn [world trace]. rewrite Hmk. now rewrite <- !app_assoc.
Qed.

Lemma batch_needs_export_dir_witness :
  fst (batch_export.main {| world := {| Sim.on_disk := Sim.fresh |}; trace := [] |})
  = Raise "PermissionError: /repo/ue5-client/Content/Models/Imported".
Proof.
  rewrite (batch_needs_export_dir Sim.ReadOnly Sim.read_only_host
             {| world := {| Sim.on_disk := Sim.fresh |}; trace := [] |} _
             "PermissionError: /repo/ue5-client/Content/Models/Imported" eq_refl).
  reflexivity.
Defined.

(** A turn of the loop, by what the disk says of the two paths. *)
Lemma process_file_run {W : Type} `{Host W} (results : batch_export.Results)
    (blend_path : Path) (m : machine W) :
  let attempt :=
    (ok <- batch_export.export_blend_to_fbx blend_path
             (batch_export.export_path_of blend_path) ;;
     ret (if ok : bool
          then batch_export.count_exported
                 (PurePath.str (batch_export.export_path_of blend_path)) results
          else batch_export.count_failed results))
      (log (EvPrint ("Exporting: " ++ PurePath.name blend_path
                       ++ " [" ++ get_category blend_path ++ "]")) m) in
  batch_export.process_file results blend_path m
  = match fs_stat (world m) (batch_export.export_path_of blend_path) with
    | Missing _ => attempt
    | Failing e => (Raise e, m)
    | Mtime fbx_mtime =>
        match fs_stat (world m) blend_path with
        | Missing e => (Raise e, m)
        | Failing e => (Raise e, m)
        | Mtime blend_mtime =>
            if PyFloat.gt fbx_mtime blend_mtime
            then (Ok (batch_export.count_skipped results),
                  log (EvPrint ("  [SKIP] " ++ PurePath.name blend_path
                                  ++ " (up to date)")) m)
            else attempt
        end
    end.
Proof.
  cbv zeta.
  pose proof (up_to_date_run blend_path (batch_export.export_path_of blend_path) m) as Hgate.
  destruct (fs_stat (world m) (batch_export.export_path_of blend_path))
    as [fbx_mtime|e|e].
  - destruct (fs_stat (world m) blend_path) as [blend_mtime|e|e].
    + destruct (PyFloat.gt fbx_mtime blend_mtime).
      * now apply process_file_skip.
      * now apply process_file_export.
    + unfold batch_export.process_file, bind. now rewrite Hgate.
    + unfold batch_export.process_file, bind. now rewrite Hgate.
  - now apply process_file_export.
  - unfold batch_export.process_file, bind. now rewrite Hgate.
Qed.

Lemma export_turn_returns {W : Type} `{Host W} (results : batch_export.Results)
    (blend_path : Path) (m : machine W) :
  exists r m',
    (ok <- batch_export.export_blend_to_fbx blend_path
             (batch_export.export_path_of blend_path) ;;
     ret (if ok : bool
          then batch_export.count_exported
                 (PurePath.str (batch_export.export_path_of blend_path)) results
          else batch_export.count_failed results)) m
    = (Ok r, m').
Proof.
  unfold bind, ret.
  destruct (export_blend_to_fbx_returns blend_path
              (batch_export.export_path_of blend_path) m) as (ok & m1 & ->).
  eexists _, _. reflexivity.
Qed.

(** X16: the two ways a single file stops the batch, both in the test of
    the staleness gate, which is outside any [try]. Either
    [export_path.exists()] raises, which it does when the [stat] of the output
    fails with an error other than those of a missing path, such as a
    [PermissionError]; or the output is on disk and [blend_path.stat()]
    raises, the source being gone or out of reach. Then the turn raises that
    error before anything is printed or loaded, the loop raises with it, and
    the files after it are not processed. In every other case the turn
    returns. *)
Theorem process_file_raises_iff (W : Type) (H : Host W) (results : batch_export.Results)
    (blend_path : Path) (m : machine W) (e : exn) :
  let output := fs_stat (world m) (batch_export.export_path_of blend_path) in
  let source := fs_stat (world m) blend_path in
  let stops :=
    output = Failing e
    \/ ((exists fbx_mtime, output = Mtime fbx_mtime)
        /\ (source = Missing e \/ source = Failing e)) in
  (fst (batch_export.process_file results blend_path m) = Raise e <-> stops)
  /\ (stops ->
      batch_export.process_file results blend_path m = (Raise e, m)
      /\ forall rest, batch_export.main_loop (blend_path :: rest) results m = (Raise e, m)).
Proof.
  cbv zeta. pose proof (process_file_run results blend_path m) as Hrun.
  cbv zeta in Hrun.
  destruct (export_turn_returns results blend_path
              (log (EvPrint ("Exporting: " ++ PurePath.name blend_path
                               ++ " [" ++ get_category blend_path ++ "]")) m))
    as (r & m1 & Hturn).
  rewrite Hturn in Hrun.
  assert (Hloop : batch_export.process_file results blend_path m = (Raise e, m) ->
                  forall rest,
                    batch_export.main_loop (blend_path :: rest) results m = (Raise e, m)).
  { intros Hstep rest. cbn [batch_export.main_loop]. unfold bind. now rewrite Hstep. }
  destruct (fs_stat (world m) (batch_export.export_path_of blend_path))
    as [fbx_mtime|e_out|e_out].
  - destruct (fs_stat (world m) blend_path) as [blend_mtime|e_src|e_src].
    + assert (Hok : exists r' m', batch_export.process_file results blend_path m
                                  = (Ok r', m')).
      { destruct (PyFloat.gt fbx_mtime blend_mtime); rewrite Hrun; eauto. }
      destruct Hok as (r' & m' & Hok). rewrite Hok. cbn [fst].
      split; [split; [discriminate|]|];
        (intros [E|(_ & [E|E])]; discriminate E).
    + rewrite Hrun in *. cbn [fst]. split.
      * split.
        -- intros E. injection E as <-. right. split; [now exists fbx_mtime|now left].
        -- intros [E|(_ & [E|E])]; try discriminate E. now injection E as <-.
      * intros [E|(_ & [E|E])]; try discriminate E. injection E as <-.
        split; [reflexivity|]. now apply Hloop.
    + rewrite Hrun in *. cbn [fst]. split.
      * split.
        -- intros E. injection E as <-. right. split; [now exists fbx_mtime|now right].
        -- intros [E|(_ & [E|E])]; try discriminate E. now injection E as <-.
      * intros [E|(_ & [E|E])]; try discriminate E. injection E as <-.
        split; [reflexivity|]. now apply Hloop.
  - rewrite Hrun. cbn [fst].
    split; [split; [discriminate|]|];
      (intros [E|((t & E) & _)]; discriminate E).
  - rewrite Hrun in *. cbn [fst]. split.
    + split.
      * intros E. injection E as <-. now left.
      * intros [E|((t & E) & _)]; try discriminate E. now injection E as <-.
    + intros [E|((t & E) & _)]; try discriminate E. injection E as <-.
      split; [reflexivity|]. now apply Hloop.
Qed.

(** The sword's source has vanished, its output has not: the run stops. *)
Example vanished_source_aborts :
  fst (batch_export.main (Sim.boot Sim.vanished))
  = Raise "[Errno 2] No such file or directory: '/repo/blender/models/weapons/sword_01.blend'"
  /\ Sim.dumped (trace (snd (batch_export.main (Sim.boot Sim.vanished)))) = [].
Proof. split; reflexivity. Qed.

(** The output tree cannot be searched: the test of the first file raises,
    and the run stops before any load, without a summary record. *)
Example locked_output_aborts :
  let m := {| world := {| Sim.behind := Sim.fresh |}; trace := [] |} in
  batch_export.process_file no_results Sim.sword_blend m
  = (Raise ("[Errno 13] Permission denied: '" ++ Sim.sword_fbx ++ "'"), m)
  /\ fst (batch_export.main m)
     = Raise ("[Errno 13] Permission denied: '" ++ Sim.sword_fbx ++ "'")
  /\ Sim.dumped (trace (snd (batch_export.main m))) = []
  /\ ~ In EvReadHomefile (trace (snd (batch_export.main m))).
Proof.
  cbv zeta. split; [reflexivity|]. split; [reflexivity|]. split; [reflexivity|].
  intros Hin. vm_compute in Hin.
  repeat (destruct Hin as [Hin|Hin]; [discriminate Hin|]). exact Hin.
Qed.

Lemma process_file_raises_iff_witness :
  batch_export.process_file no_results Sim.sword_blend (Sim.boot Sim.vanished)
  = (Raise "[Errno 2] No such file or directory: '/repo/blender/models/weapons/sword_01.blend'",
     Sim.boot Sim.vanished).
Proof.
  apply (proj2 (process_file_raises_iff Sim.World Sim.host no_results Sim.sword_blend
                  (Sim.boot Sim.vanished)
                  "[Errno 2] No such file or directory: '/repo/blender/models/weapons/sword_01.blend'")).
  right. split; [now exists 100.0%float|now left].
Defined.

(** ** The summary comes once, and last *)

Lemma loop_event_prepend (report_path : Path) (d1 d2 : list event) :
  Forall loop_event d1 -> one_report_last report_path d2 ->
  one_report_last report_path (d1 ++ d2)%list.
Proof.
  intros H1 [H2|(pre & r & post & -> & Hpre & Hpost)].
  - left. apply Forall_app. auto.
  - right. exists (d1 ++ pre)%list, r, post. rewrite <- app_assoc.
    split; [reflexivity|]. split; [apply Forall_app; auto|exact Hpost].
Qed.

Section ReportLast.
Context {W : Type} `{Host W}.

(** [c], which writes no record, followed by [k], which writes at most one. *)
Lemma report_last_bind {A B} (c : M W A) (k : A -> M W B) (Q : A -> Prop)
    (report_path : Path) :
  emits c loop_event Q ->
  (forall a, Q a -> forall m1,
       exists d, trace (snd (k a m1)) = (trace m1 ++ d)%list
                 /\ one_report_last report_path d) ->
  forall m,
    exists d, trace (snd (bind c k m)) = (trace m ++ d)%list
              /\ one_report_last report_path d.
Proof.
  intros Hc Hk m. unfold bind.
  destruct (Hc m) as [(d1 & Ht1 & Hd1) Hq].
  destruct (c m) as [[a|e] m1]; cbn [fst snd] in *.
  - destruct (Hk a (Hq a eq_refl) m1) as (d2 & Ht2 & Hd2).
    exists (d1 ++ d2)%list. rewrite Ht2, Ht1, app_assoc. split; [reflexivity|].
    now apply loop_event_prepend.
  - exists d1. split; [exact Ht1|]. now left.
Qed.

Lemma report_last_of_loop_events {A} (c : M W A) (Q : A -> Prop) (report_path : Path) :
  emits c loop_event Q ->
  forall m, exists d, trace (snd (c m)) = (trace m ++ d)%list
                      /\ one_report_last report_path d.
Proof.
  intros Hc m. destruct (Hc m) as [(d & Ht & Hd) _]. exists d. split; [exact Ht|now left].
Qed.

Ltac quiet_step :=
  first
    [ apply emits_print; exact I
    | apply emits_call; exact I
    | apply emits_ask ].

Lemma main_report_last (m : machine W) :
  exists d,
    trace (snd (batch_export.main m)) = (trace m ++ d)%list
    /\ one_report_last (batch_export.EXPORT_DIR // "export_report.json") d.
Proof.
  revert m. unfold batch_export.main, batch_export.ensure_dir, mkdir_parents,
    now_isoformat.
  do 8 (eapply report_last_bind; [quiet_step|]; intros ? _).
  eapply report_last_bind; [apply emits_ask|]. intros blend_files _.
  destruct blend_files as [|blend_path rest].
  - eapply report_last_of_loop_events.
    eapply emits_bind; [apply emits_print; exact I|]. intros _ _.
    apply emits_print. exact I.
  - eapply report_last_bind; [quiet_step|]. intros _ _.
    eapply report_last_bind; [apply emits_main_loop|]. intros results _.
    eapply report_last_bind; [apply emits_ask|]. intros now _.
    intros m1. unfold bind, dump_json, call, print, log.
    destruct (fs_dump_json _ _ (world m1)) as [[[]|e] w2]; cbn [world trace snd].
    + eexists. rewrite <- !app_assoc. split; [reflexivity|].
      right. eexists [], _, _. split; [reflexivity|]. split; [constructor|].
      repeat constructor.
    + eexists. split; [reflexivity|].
      right. eexists [], _, []. split; [reflexivity|]. split; constructor.
Qed.

End ReportLast.

(** X17: a run of the batch exporter writes at most one summary record,
    always to [EXPORT_DIR/export_report.json], where the next run overwrites
    it; it writes it after all the loads and exports, and only prints after
    it. *)
Theorem summary_written_once_and_last (W : Type) (H : Host W) (m : machine W) :
  one_report_last (batch_export.EXPORT_DIR // "export_report.json")
    (events_added m (snd (batch_export.main m)))
  /\ forall report_path report,
       In (EvDumpJson report_path report) (events_added m (snd (batch_export.main m))) ->
       report_path = batch_export.EXPORT_DIR // "export_report.json".
Proof.
  destruct (main_report_last m) as (d & Ht & Hd).
  unfold events_added. rewrite Ht, drop_app_length. split; [exact Hd|].
  intros report_path report Hin.
  destruct Hd as [Hall|(pre & r & post & -> & Hpre & Hpost)].
  - rewrite List.Forall_forall in Hall. destruct (Hall _ Hin).
  - apply in_app_or in Hin. destruct Hin as [Hin|[E|Hin]].
    + rewrite List.Forall_forall in Hpre. destruct (Hpre _ Hin).
    + now injection E as <- _.
    + rewrite List.Forall_forall in Hpost. destruct (Hpost _ Hin).
Qed.

Lemma summary_written_once_and_last_witness :
  List.length (Sim.dumped (trace (snd (batch_export.main (Sim.boot Sim.fresh))))) = 1%nat
  /\ forall report,
       In (EvDumpJson
             ["repo"; "ue5-client"; "Content"; "Models"; "Imported"; "summary.json"] report)
          (events_added (Sim.boot Sim.fresh) (snd (batch_export.main (Sim.boot Sim.fresh))))
       -> False.
Proof.
  split; [reflexivity|]. intros report Hin.
  apply (proj2 (summary_written_once_and_last Sim.World Sim.host (Sim.boot Sim.fresh)))
    in Hin.
  discriminate Hin.
Defined.

(** ** Which files the summary lists *)

Section Provenance.
Context {W : Type} `{Host W}.

(** An export attempt that counts the file as exported has called the
    exporter on the output path. *)
Lemma export_turn_outcomes (results results' : batch_export.Results)
    (blend_path : Path) (m m' : machine W) :
  (ok <- batch_export.export_blend_to_fbx blend_path
           (batch_export.export_path_of blend_path) ;;
   ret (if ok : bool
        then batch_export.count_exported
               (PurePath.str (batch_export.export_path_of blend_path)) results
        else batch_export.count_failed results)) m
  = (Ok results', m') ->
  exists d,
    trace m' = (trace m ++ d)%list
    /\ (results' = batch_export.count_failed results
        \/ (results' = batch_export.count_exported
                         (PurePath.str (batch_export.export_path_of blend_path)) results
            /\ In (EvExportFbx (PurePath.str (batch_export.export_path_of blend_path))) d)).
Proof.
  unfold bind, ret, batch_export.export_blend_to_fbx, try_except,
    batch_export.export_attempt, batch_export.export_failed, bind,
    batch_export.clean_scene, batch_export.ensure_dir, read_homefile, open_mainfile,
    mkdir_parents, export_scene_fbx, call, print, ret, log.
  cbn [world trace].
  destruct (bpy_read_homefile (world m)) as [[[]|e1] w1]; cbn [world trace].
  2: { intros E. injection E as <- <-. cbn [trace]. rewrite <- !app_assoc.
       eexists. split; [reflexivity|now left]. }
  destruct (bpy_open_mainfile _ w1) as [[[]|e2] w2]; cbn [world trace].
  2: { intros E. injection E as <- <-. cbn [trace]. rewrite <- !app_assoc.
       eexists. split; [reflexivity|now left]. }
  destruct (fs_mkdir _ w2) as [[[]|e3] w3]; cbn [world trace].
  2: { intros E. injection E as <- <-. cbn [trace]. rewrite <- !app_assoc.
       eexists. split; [reflexivity|now left]. }
  destruct (bpy_export_scene_fbx _ w3) as [[[]|e4] w4]; cbn [world trace].
  2: { intros E. injection E as <- <-. cbn [trace]. rewrite <- !app_assoc.
       eexists. split; [reflexivity|now left]. }
  intros E. injection E as <- <-. cbn [trace]. rewrite <- !app_assoc.
  eexists. split; [reflexivity|]. right. split; [reflexivity|]. cbn. tauto.
Qed.

(** A turn of the loop that returns made one of three updates, and the one
    for an export only after the exporter was called on the output path. *)
Lemma process_file_outcomes (results results' : batch_export.Results)
    (blend_path : Path) (m m' : machine W) :
  batch_export.process_file results blend_path m = (Ok results', m') ->
  exists d,
    trace m' = (trace m ++ d)%list
    /\ (results' = batch_export.count_skipped results
        \/ results' = batch_export.count_failed results
        \/ (results' = batch_export.count_exported
                         (PurePath.str (batch_export.export_path_of blend_path)) results
            /\ In (EvExportFbx (PurePath.str (batch_export.export_path_of blend_path))) d)).
Proof.
  intros Hrun. pose proof (process_file_run results blend_path m) as Hcase.
  cbv zeta in Hcase. rewrite Hrun in Hcase.
  assert (Hattempt :
    (Ok results', m')
    = (ok <- batch_export.export_blend_to_fbx blend_path
               (batch_export.export_path_of blend_path) ;;
       ret (if ok : bool
            then batch_export.count_exported
                   (PurePath.str (batch_export.export_path_of blend_path)) results
            else batch_export.count_failed results))
        (log (EvPrint ("Exporting: " ++ PurePath.name blend_path
                         ++ " [" ++ get_category blend_path ++ "]")) m) ->
    exists d,
      trace m' = (trace m ++ d)%list
      /\ (results' = batch_export.count_skipped results
          \/ results' = batch_export.count_failed results
          \/ (results' = batch_export.count_exported
                           (PurePath.str (batch_export.export_path_of blend_path)) results
              /\ In (EvExportFbx (PurePath.str (batch_export.export_path_of blend_path)))
                    d))).
  { intros E. symmetry in E. apply export_turn_outcomes in E.
    destruct E as (d & Ht & Hd). cbn [log trace] in Ht. rewrite <- app_assoc in Ht.
    eexists. split; [exact Ht|].
    destruct Hd as [Hf|[He Hin]]; [right; now left|].
    right. right. split; [exact He|]. now right. }
  destruct (fs_stat (world m) (batch_export.export_path_of blend_path))
    as [fbx_mtime|e|e]; [|now apply Hattempt|discriminate].
  destruct (fs_stat (world m) blend_path) as [blend_mtime|e|e]; try discriminate.
  destruct (PyFloat.gt fbx_mtime blend_mtime); [|now apply Hattempt].
  injection Hcase as -> ->. eexists. split; [reflexivity|]. now left.
Qed.

Lemma main_loop_outcomes (blend_files : list Path) :
  forall (results results' : batch_export.Results) (m m' : machine W),
    batch_export.main_loop blend_files results m = (Ok results', m') ->
    exists outs d,
      sublist outs blend_files
      /\ trace m' = (trace m ++ d)%list
      /\ batch_export.out_files results'
         = (batch_export.out_files results
            ++ List.map (fun p => PurePath.str (batch_export.export_path_of p)) outs)%list
      /\ batch_export.n_exported results'
         = batch_export.n_exported results + Py.len outs
      /\ forall p, In p outs ->
           In (EvExportFbx (PurePath.str (batch_export.export_path_of p))) d.
Proof.
  induction blend_files as [|blend_path rest IH]; intros results results' m m'.
  - cbn. intros E. injection E as <- <-. exists [], [].
    unfold Py.len. cbn. rewrite !app_nil_r.
    repeat split; [constructor|lia|intros ? []].
  - cbn [batch_export.main_loop]. unfold bind.
    destruct (batch_export.process_file results blend_path m) as [[r1|e] m1] eqn:Hstep;
      [|discriminate].
    intros Hrest. apply process_file_outcomes in Hstep.
    destruct Hstep as (d1 & Ht1 & Hcase).
    destruct (IH _ _ _ _ Hrest) as (outs & d2 & Hsub & Ht2 & Hfiles & Hn & Hev).
    assert (Ht : trace m' = (trace m ++ d1 ++ d2)%list)
      by (rewrite Ht2, Ht1; now rewrite app_assoc).
    destruct Hcase as [->|[->|[-> Hin]]].
    + exists outs, (d1 ++ d2)%list. split; [now apply sublist_cons|].
      split; [exact Ht|]. cbn in Hfiles, Hn. split; [exact Hfiles|]. split; [exact Hn|].
      intros p Hp. apply in_or_app. right. now apply Hev.
    + exists outs, (d1 ++ d2)%list. split; [now apply sublist_cons|].
      split; [exact Ht|]. cbn in Hfiles, Hn. split; [exact Hfiles|]. split; [exact Hn|].
      intros p Hp. apply in_or_app. right. now apply Hev.
    + exists (blend_path :: outs), (d1 ++ d2)%list. split; [now apply sublist_skip|].
      split; [exact Ht|]. cbn in Hfiles, Hn. split.
      * rewrite Hfiles, <- app_assoc. reflexivity.
      * split.
        -- rewrite Hn. unfold Py.len. cbn [List.length]. lia.
        -- intros p [<-|Hp]; apply in_or_app; [now left|right; now apply Hev].
Qed.

End Provenance.

(** X18: the output paths a stretch of the loop adds to the list are those
    of the files it exported, in the order of the files: one per export
    counted, and each for a file on whose output path the exporter was called
    in that stretch. *)
Theorem exported_files_listed (W : Type) (H : Host W) (blend_files : list Path)
    (results results' : batch_export.Results) (m m' : machine W) :
  batch_export.main_loop blend_files results m = (Ok results', m') ->
  exists outs,
    sublist outs blend_files
    /\ batch_export.out_files results'
       = (batch_export.out_files results
          ++ List.map (fun p => PurePath.str (batch_export.export_path_of p)) outs)%list
    /\ batch_export.n_exported results'
       = batch_export.n_exported results + Py.len outs
    /\ forall p, In p outs ->
         In (EvExportFbx (PurePath.str (batch_export.export_path_of p)))
            (events_added m m').
Proof.
  intros Hrun. apply main_loop_outcomes in Hrun.
  destruct Hrun as (outs & d & Hsub & Ht & Hfiles & Hn & Hev).
  exists outs. unfold events_added. rewrite Ht, drop_app_length. auto.
Qed.

(** Of the three files, only the sword is exported and listed. *)
Lemma exported_files_listed_witness :
  exists outs,
    sublist outs [Sim.sword_blend; Sim.hero_blend; Sim.blob_blend]
    /\ [Sim.sword_fbx]
       = List.map (fun p => PurePath.str (batch_export.export_path_of p)) outs.
Proof.
  assert (Hrun :
    batch_export.main_loop [Sim.sword_blend; Sim.hero_blend; Sim.blob_blend] no_results
      (Sim.boot Sim.faulty)
    = (Ok {| batch_export.n_exported := 1; batch_export.n_failed := 2;
             batch_export.n_skipped := 0; batch_export.out_files := [Sim.sword_fbx] |},
       snd (batch_export.main_loop
              [Sim.sword_blend; Sim.hero_blend; Sim.blob_blend] no_results
              (Sim.boot Sim.faulty)))) by (vm_compute; reflexivity).
  destruct (exported_files_listed Sim.World Sim.host _ _ _ _ _ Hrun)
    as (outs & Hsub & Hfiles & _).
  exists outs. split; [exact Hsub|exact Hfiles].
Defined.

(** ** tower_addon.py: "Validate Asset" *)

Lemma addon_check_object_nil issues obj :
  tower_addon.check_object issues obj = []
  <-> issues = [] /\ asset_passes obj = true.
Proof.
  unfold tower_addon.check_object, asset_passes, has_uv.
  destruct (Py.startswith (bpy.name obj) "REF_"); cbn [orb]; [tauto|].
  destruct (bpy.data obj) as [mesh|armature|ty]; [|tauto|tauto].
  rewrite scale_any_off.
  destruct (scale_applied obj); cbn [negb andb];
    destruct (bpy.uv_layers mesh); cbn [andb];
    destruct (Py.len (bpy.vertices mesh) >? 50000) eqn:Hgt;
    rewrite Z.gtb_ltb in Hgt;
    first [apply Z.ltb_lt in Hgt | apply Z.ltb_ge in Hgt];
    (destruct (Py.len (bpy.vertices mesh) <=? 50000) eqn:Hle;
     first [apply Z.leb_le in Hle | apply Z.leb_gt in Hle]; try lia);
    split;
    try (intros [-> _]; reflexivity);
    try (intros [_ E]; discriminate E);
    try (intros E; split; [exact E|reflexivity]);
    intros E; repeat (apply app_eq_nil in E; destruct E as [E ?]);
    try discriminate; auto.
Qed.

Lemma addon_fold_nil objs : forall issues,
  List.fold_left tower_addon.check_object objs issues = []
  <-> issues = [] /\ forall obj, In obj objs -> asset_passes obj = true.
Proof.
  induction objs as [|obj objs IH]; intros issues; cbn [List.fold_left].
  - split; [intros E; split; [exact E|intros ? []]|intros [E _]; exact E].
  - rewrite IH, addon_check_object_nil. split.
    + intros [[Ha Ho] Hall]. split; [exact Ha|]. intros o [<-|Hin]; auto.
    + intros [Ha Hall]. split; [split; [exact Ha|]|]; auto using in_eq, in_cons.
Qed.

(** X19: the operator reports the single INFO line "All checks passed!"
    exactly when every object of the scene is a reference object, is not a
    mesh, or is a mesh with a UV layer, at most 50000 vertices and no scale
    component found off, that is each component [s] has
    [abs(s - 1.0) <= 0.001] or [abs(s - 1.0)] not a number (a NaN component
    passes). Otherwise it reports at least one line and only WARNING lines.
    It returns FINISHED either way. *)
Theorem validate_asset_passes_iff (scene_objects : list bpy.Object) :
  (fst (tower_addon.validate_asset scene_objects)
   = [(tower_addon.INFO, "All checks passed!")]
   <-> forall obj, In obj scene_objects -> asset_passes obj = true)
  /\ (fst (tower_addon.validate_asset scene_objects)
      <> [(tower_addon.INFO, "All checks passed!")] ->
      fst (tower_addon.validate_asset scene_objects) <> []
      /\ forall report, In report (fst (tower_addon.validate_asset scene_objects)) ->
                        fst report = tower_addon.WARNING)
  /\ snd (tower_addon.validate_asset scene_objects) = "FINISHED".
Proof.
  unfold tower_addon.validate_asset. cbn [fst snd].
  pose proof (addon_fold_nil scene_objects []) as Hnil.
  destruct (List.fold_left tower_addon.check_object scene_objects []) as [|issue issues].
  - split; [|split; [|reflexivity]].
    + split; [intros _; now apply Hnil|reflexivity].
    + intros Hne. now elim Hne.
  - split; [|split; [|reflexivity]].
    + split; [discriminate|]. intros Hall.
      assert (E : issue :: issues = []) by (apply Hnil; auto). discriminate E.
    + intros _. split; [discriminate|].
      intros report Hin. apply in_map_iff in Hin.
      destruct Hin as (i & <- & _). reflexivity.
Qed.

Lemma validate_asset_passes_iff_witness :
  fst (tower_addon.validate_asset
         [Sim.mesh_object "SM_Sword" Sim.unit_vec ["UVMap"]; Sim.ref_player_height])
  = [(tower_addon.INFO, "All checks passed!")].
Proof.
  apply (proj1 (validate_asset_passes_iff
                  [Sim.mesh_object "SM_Sword" Sim.unit_vec ["UVMap"];
                   Sim.ref_player_height])).
  intros obj [<-|[<-|[]]]; reflexivity.
Defined.

Lemma addon_fold_skips_refs objs : forall issues,
  List.fold_left tower_addon.check_object objs issues
  = List.fold_left tower_addon.check_object
      (List.filter (fun obj => negb (Py.startswith (bpy.name obj) "REF_")) objs) issues.
Proof.
  induction objs as [|obj objs IH]; intros issues; [reflexivity|].
  cbn [List.fold_left List.filter].
  destruct (Py.startswith (bpy.name obj) "REF_") eqn:Href; cbn [negb List.fold_left].
  - unfold tower_addon.check_object at 2. rewrite Href. apply IH.
  - apply IH.
Qed.

(** X20: objects whose name starts with [REF_] are invisible to the
    operator: removing them from the scene changes none of its reports,
    whatever their scale, UV layers or vertex count. The two objects the
    scene setup adds, [REF_Ground] and [REF_PlayerHeight], are such
    objects. *)
Theorem validate_asset_ignores_references (scene_objects : list bpy.Object) :
  tower_addon.validate_asset scene_objects
  = tower_addon.validate_asset
      (List.filter (fun obj => negb (Py.startswith (bpy.name obj) "REF_")) scene_objects).
Proof.
  unfold tower_addon.validate_asset. now rewrite <- addon_fold_skips_refs.
Qed.

(** The same mesh under another name is reported twice over. *)
Example unnamed_reference_reported :
  fst (tower_addon.validate_asset
         [ {| bpy.name := "PlayerHeight";
              bpy.scale := bpy.scale Sim.ref_player_height;
              bpy.rotation_euler := Sim.zero_vec;
              bpy.data := bpy.data Sim.ref_player_height |} ])
  = [ (tower_addon.WARNING, "PlayerHeight: Unapplied scale");
      (tower_addon.WARNING, "PlayerHeight: No UV map") ].
Proof. reflexivity. Qed.

(** ** A scale that is not a number *)

(** A mesh with a NaN scale component passes the scale check of all three
    scripts: [abs(nan - 1.0) > 0.001] is false. *)
Example nan_scale_passes (float_repr : float -> string) :
  let obj :=
    Sim.mesh_object "SM_Odd"
      {| bpy.x := PrimFloat.nan; bpy.y := 1.0%float; bpy.z := 1.0%float |} ["UVMap"] in
  valid (inspect Sim.sword_blend [obj] []) = Some true
  /\ snd (batch_export.check_object float_repr
            ({| batch_export.vertices := 0; batch_export.faces := 0;
                batch_export.objects := 0; batch_export.armatures := 0 |}, []) obj) = []
  /\ fst (tower_addon.validate_asset [obj]) = [(tower_addon.INFO, "All checks passed!")]
  /\ object_passes obj = true
  /\ model_passes obj = true
  /\ asset_passes obj = true.
Proof. cbv zeta. repeat split; reflexivity. Qed.
